(** * Retrieval layer of the ISEM-770 RAG notebooks

    A shallow embedding of the chunking, similarity and retrieval functions of
    [03_chunk_size_selectorKemi.ipynb] (the chunk size selector and the
    contextual chunk headers notebook that follows it in the file) and of
    [04_context_enriched_ragKemi.ipynb], and the properties of the retrieval
    layer proved about them.

    - Python integers are [Z]; Python lists are [list]s; a string is the
      list of its characters (8-bit [ascii] characters here: no function
      below looks at a character but [strip]).
    - numpy's [float64] is Rocq's primitive binary64 [float], whose
      operations are the IEEE ones: a division by zero returns an infinity
      or NaN and raises nothing, as numpy's scalars do.  The sum of
      products behind [np.dot] is the BLAS library's: an argument of the
      functions that call it, the sum in the order of the indices where
      none is named.
    - A raised exception is the [Raise] case of [result]; calls are chained
      with [bind], which passes the first exception on.
    - The hosted embedding and completion services are arguments of the
      functions that call them. *)

From Stdlib Require Import Ascii String.
From Stdlib Require Import ZArith List Bool Lia Floats Sorted Permutation.
Import ListNotations.

Local Open Scope Z_scope.

(** ** Exceptions and the result of a call *)

Inductive exception : Type :=
| ValueError
| IndexError
| APIError (msg : String.string).

Inductive result (A : Type) : Type :=
| Ok (a : A)
| Raise (e : exception).

Arguments Ok {A} a.
Arguments Raise {A} e.

Definition bind {A B : Type} (r : result A) (k : A -> result B) : result B :=
  match r with
  | Ok a => k a
  | Raise e => Raise e
  end.

Notation "x <- r ;; k" := (bind r (fun x => k))
  (at level 61, r at next level, right associativity).

(** A [for] loop or comprehension whose body may raise: the results of the
    body are collected in order, the first exception leaves the loop. *)
Fixpoint for_each {A B : Type} (body : A -> result B) (l : list A)
  : result (list B) :=
  match l with
  | [] => Ok []
  | x :: l' =>
      y <- body x ;;
      ys <- for_each body l' ;;
      Ok (y :: ys)
  end.

(** ** Python built-ins *)

Module Py.

Definition len {A : Type} (l : list A) : Z := Z.of_nat (length l).

(** Bound of a slice with step 1, as [PySlice_AdjustIndices] clips it. *)
Definition adjust_index (n i : Z) : Z :=
  if i <? 0 then Z.max 0 (i + n) else Z.min i n.

(** [l[start:stop]]; [None] is an omitted bound. *)
Definition slice {A : Type} (l : list A) (start stop : option Z) : list A :=
  let n := len l in
  let lo := match start with Some i => adjust_index n i | None => 0 end in
  let hi := match stop with Some j => adjust_index n j | None => n end in
  firstn (Z.to_nat (hi - lo)) (skipn (Z.to_nat lo) l).

(** [l[i]], negative indices counting from the end. *)
Definition getitem {A : Type} (l : list A) (i : Z) : result A :=
  let j := if i <? 0 then i + len l else i in
  if (0 <=? j) && (j <? len l) then
    match nth_error l (Z.to_nat j) with
    | Some x => Ok x
    | None => Raise IndexError
    end
  else Raise IndexError.

(** Number of items of [range(lo, hi, step)] for [step <> 0]. *)
Definition range_length (lo hi step : Z) : nat :=
  Z.to_nat
    (if 0 <? step then
       if lo <? hi then (hi - lo - 1) / step + 1 else 0
     else
       if hi <? lo then (lo - hi - 1) / (- step) + 1 else 0).

(** [range(lo, hi, step)]: item [k] is [lo + k * step]; a zero step raises
    [ValueError] when the range is built. *)
Definition range (lo hi step : Z) : result (list Z) :=
  if step =? 0 then Raise ValueError
  else Ok (map (fun k => lo + Z.of_nat k * step)
               (seq 0 (range_length lo hi step))).

Definition enumerate {A : Type} (l : list A) : list (Z * A) :=
  combine (map Z.of_nat (seq 0 (length l))) l.

Section Sort.
Context {A K : Type}.
Variable lt : K -> K -> bool.
Variable key : A -> K.

(** Insertion behind every element whose key is strictly smaller: [x]
    stays in front of the elements it is not greater than. *)
Fixpoint insert (x : A) (l : list A) : list A :=
  match l with
  | [] => [x]
  | y :: l' =>
      if lt (key y) (key x) then y :: insert x l' else x :: y :: l'
  end.

Definition sort_ascending (l : list A) : list A :=
  fold_right insert [] l.

(** [l.sort(key=key, reverse=reverse)]: a stable sort that compares keys
    with [<] only; with [reverse] the list is reversed, sorted and
    reversed again, as CPython does it.  Every stable sort returns the same
    list on keys that [<] orders, and the properties of the order below are
    stated for such keys (floats that are numbers).  Where [<] leaves keys
    unordered (a NaN among floats) the result of CPython depends on the
    runs it finds and merges, and two things only are used of the model:
    that the result is a rearrangement of the list, and that a list which,
    reversed, is one run (no key is less than the key before it) is left as
    it is, as CPython leaves it ([list_sort_one_run]). *)
Definition list_sort (reverse : bool) (l : list A) : list A :=
  if reverse then rev (sort_ascending (rev l)) else sort_ascending l.
End Sort.

End Py.

(** ** numpy *)

Module Np.

Local Open Scope float_scope.

(** The sum of the products of the paired components of two arrays of one
    length.  [np.dot] and [ndarray.dot] hand it to the BLAS routine [ddot]
    of the library numpy is linked with: the order of the summation and the
    rounding of the products (fused with the sums or not) are the
    library's, and two libraries can differ in the last bit of the result.
    The routine is a parameter of the functions that use it. *)
Class Blas : Type := ddot : list float -> list float -> float.

(** The sum accumulated from [0] in the order of the indices, every product
    and every sum rounded. *)
Definition inner (a b : list float) : float :=
  fold_left (fun acc p => acc + fst p * snd p) (combine a b) 0.

(** Where no routine is named the sum is [inner].  The properties stated
    for it do not depend on the last bit of a sum: they compare
    similarities with each other, or concern zeros, infinities and NaN, or
    are evaluated on vectors whose products and sums are exact. *)
#[global] Instance in_order : Blas := inner.

(** [np.dot] of two one-dimensional arrays; arrays of different lengths
    raise [ValueError]. *)
Definition dot {B : Blas} (a b : list float) : result float :=
  if Nat.eqb (length a) (length b) then Ok (ddot a b)
  else Raise ValueError.

(** [np.linalg.norm] of a one-dimensional real array: [sqrt(x.dot(x))]. *)
Definition linalg_norm {B : Blas} (x : list float) : float :=
  sqrt (ddot x x).

(** The order numpy sorts floating-point values by: NaN after everything. *)
Definition lt (a b : float) : bool :=
  (a <? b) || (is_nan b && negb (is_nan a)).

(** [np.argsort(a)]: the indices of [a] in ascending order of value.
    numpy's default kind is not a stable sort: on longer arrays equal values
    need not stay in the order of their indices.  The model keeps them in
    that order, as numpy does for two equal values; no property below that
    is stated for every array depends on the order of equal values. *)
Definition argsort (a : list float) : list Z :=
  map fst (Py.sort_ascending lt snd (Py.enumerate a)).

End Np.

(** ** The hosted services

    The OpenAI client is an external collaborator: the embedding and the chat
    completion endpoints are arguments of the functions below, and a failed
    request is an exception of the call. *)

Definition str : Type := list ascii.

Module OpenAI.

Record Embedding : Type := { embedding : list float }.

Record CreateEmbeddingResponse : Type := { data : list Embedding }.

(** The [input] of an embedding request: one text or a list of texts. *)
Inductive embedding_input : Type :=
| Text (text : str)
| Texts (texts : list str).

Record ChatCompletionMessage : Type := { content : str }.

Record Choice : Type := { message : ChatCompletionMessage }.

Record ChatCompletion : Type := { choices : list Choice }.

(** [client.embeddings.create(model=..., input=...)]. *)
Definition embeddings_create : Type :=
  embedding_input -> result CreateEmbeddingResponse.

(** [client.chat.completions.create(model=..., temperature=0, messages=
    [system, user])], by the contents of the two messages. *)
Definition chat_completions_create : Type :=
  str -> str -> result ChatCompletion.

End OpenAI.

(** ** 04_context_enriched_ragKemi.ipynb *)

Module ContextEnrichedRag.

Import OpenAI.

Definition chunk_text (text : str) (n overlap : Z) : result (list str) :=
  starts <- Py.range 0 (Py.len text) (n - overlap) ;;
  for_each (fun i => Ok (Py.slice text (Some i) (Some (i + n)))) starts.

Definition create_embeddings (client : embeddings_create)
    (text : embedding_input) : result CreateEmbeddingResponse :=
  client text.

Definition cosine_similarity {B : Np.Blas} (vec1 vec2 : list float)
  : result float :=
  d <- Np.dot vec1 vec2 ;;
  Ok (d / (Np.linalg_norm vec1 * Np.linalg_norm vec2))%float.

Definition context_enriched_search {B : Np.Blas} {chunk : Type}
    (client : embeddings_create)
    (query : str) (text_chunks : list chunk) (embeddings : list Embedding)
    (k : Z) (context_size : Z) : result (list chunk) :=
  response <- create_embeddings client (Text query) ;;
  first <- Py.getitem (data response) 0 ;;
  let query_embedding := embedding first in
  similarity_scores <-
    for_each (fun '(i, chunk_embedding) =>
                similarity_score <-
                  cosine_similarity query_embedding
                                    (embedding chunk_embedding) ;;
                Ok (i, similarity_score))
             (Py.enumerate embeddings) ;;
  let similarity_scores :=
    Py.list_sort PrimFloat.ltb snd true similarity_scores in
  top <- Py.getitem similarity_scores 0 ;;
  let top_index := fst top in
  let start := Z.max 0 (top_index - context_size) in
  let end_ := Z.min (Py.len text_chunks) (top_index + context_size + 1) in
  indices <- Py.range start end_ 1 ;;
  for_each (fun i => Py.getitem text_chunks i) indices.

End ContextEnrichedRag.

(** ** 03_chunk_size_selectorKemi.ipynb, the chunk size selector *)

Module ChunkSizeSelector.

Import OpenAI.

Definition chunk_text (text : str) (n overlap : Z) : result (list str) :=
  starts <- Py.range 0 (Py.len text) (n - overlap) ;;
  for_each (fun i => Ok (Py.slice text (Some i) (Some (i + n)))) starts.

Definition create_embeddings (client : embeddings_create)
    (texts : list str) : result (list (list float)) :=
  response <- client (Texts texts) ;;
  Ok (map embedding (data response)).

Definition cosine_similarity {B : Np.Blas} (vec1 vec2 : list float)
  : result float :=
  d <- Np.dot vec1 vec2 ;;
  Ok (d / (Np.linalg_norm vec1 * Np.linalg_norm vec2))%float.

Definition retrieve_relevant_chunks {B : Np.Blas} {chunk : Type}
    (client : embeddings_create)
    (query : str) (text_chunks : list chunk)
    (chunk_embeddings : list (list float)) (k : Z) : result (list chunk) :=
  query_embeddings <- create_embeddings client [query] ;;
  query_embedding <- Py.getitem query_embeddings 0 ;;
  similarities <-
    for_each (fun emb => cosine_similarity query_embedding emb)
             chunk_embeddings ;;
  let top_indices :=
    rev (Py.slice (Np.argsort similarities) (Some (- k)) None) in
  for_each (fun i => Py.getitem text_chunks i) top_indices.

End ChunkSizeSelector.

(** ** 03_chunk_size_selectorKemi.ipynb, contextual chunk headers *)

Module ContextualChunkHeaders.

Import OpenAI.

(** [str.isspace] on the characters below 256. *)
Definition isspace (c : ascii) : bool :=
  let n := Z.of_N (N_of_ascii c) in
  ((9 <=? n) && (n <=? 13)) || ((28 <=? n) && (n <=? 32))
  || (n =? 133) || (n =? 160).

Fixpoint lstrip (s : str) : str :=
  match s with
  | c :: s' => if isspace c then lstrip s' else s
  | [] => []
  end.

Definition strip (s : str) : str := rev (lstrip (rev (lstrip s))).

Definition system_prompt : str :=
  list_ascii_of_string
    "Generate a concise and informative title for the given text."%string.

Definition generate_chunk_header (client : chat_completions_create)
    (chunk : str) : result str :=
  response <- client system_prompt chunk ;;
  choice <- Py.getitem (choices response) 0 ;;
  Ok (strip (content (message choice))).

(** The dictionaries [{"header": ..., "text": ...}] of the chunker. *)
Module Chunk.
Record t : Type := { header : str; text : str }.
End Chunk.

Definition chunk_text_with_headers (client : chat_completions_create)
    (text : str) (n overlap : Z) : result (list Chunk.t) :=
  starts <- Py.range 0 (Py.len text) (n - overlap) ;;
  for_each (fun i =>
              let chunk := Py.slice text (Some i) (Some (i + n)) in
              header <- generate_chunk_header client chunk ;;
              Ok {| Chunk.header := header; Chunk.text := chunk |})
           starts.

Definition create_embeddings (client : embeddings_create) (text : str)
  : result (list float) :=
  response <- client (Text text) ;;
  first <- Py.getitem (data response) 0 ;;
  Ok (embedding first).

(** The dictionaries of [embeddings]: a chunk with the embeddings of its
    text and of its header. *)
Module Entry.
Record t : Type :=
  { header : str;
    text : str;
    embedding : list float;
    header_embedding : list float }.
End Entry.

(** The loop that builds the list [embeddings] from [text_chunks]: every
    chunk with the embedding of its text and the embedding of its header. *)
Definition embeddings (client : embeddings_create)
    (text_chunks : list Chunk.t) : result (list Entry.t) :=
  for_each (fun chunk =>
              text_embedding <- create_embeddings client (Chunk.text chunk) ;;
              header_embedding <-
                create_embeddings client (Chunk.header chunk) ;;
              Ok {| Entry.header := Chunk.header chunk;
                    Entry.text := Chunk.text chunk;
                    Entry.embedding := text_embedding;
                    Entry.header_embedding := header_embedding |})
           text_chunks.

Definition cosine_similarity {B : Np.Blas} (vec1 vec2 : list float)
  : result float :=
  d <- Np.dot vec1 vec2 ;;
  Ok (d / (Np.linalg_norm vec1 * Np.linalg_norm vec2))%float.

Definition semantic_search {B : Np.Blas} (client : embeddings_create)
    (query : str)
    (chunks : list Entry.t) (k : Z) : result (list Entry.t) :=
  query_embedding <- create_embeddings client query ;;
  similarities <-
    for_each (fun chunk =>
                sim_text <-
                  cosine_similarity query_embedding (Entry.embedding chunk) ;;
                sim_header <-
                  cosine_similarity query_embedding
                                    (Entry.header_embedding chunk) ;;
                let avg_similarity := ((sim_text + sim_header) / 2)%float in
                Ok (chunk, avg_similarity))
             chunks ;;
  let similarities := Py.list_sort PrimFloat.ltb snd true similarities in
  Ok (map fst (Py.slice similarities None (Some k))).

End ContextualChunkHeaders.

(** ** Notions the properties are stated with *)

(** The value [cosine_similarity] returns on two vectors of one length. *)
Definition cosine {B : Np.Blas} (vec1 vec2 : list float) : float :=
  (Np.ddot vec1 vec2 / (Np.linalg_norm vec1 * Np.linalg_norm vec2))%float.

(** The list [similarity_scores] of [context_enriched_search] when its loop
    ends, and the same list after the sort. *)
Definition scored_indices {B : Np.Blas} (query_embedding : list float)
    (embeddings : list OpenAI.Embedding) : list (Z * float) :=
  map (fun '(i, e) => (i, cosine query_embedding (OpenAI.embedding e)))
      (Py.enumerate embeddings).

Definition ranked_indices {B : Np.Blas} (query_embedding : list float)
    (embeddings : list OpenAI.Embedding) : list (Z * float) :=
  Py.list_sort PrimFloat.ltb snd true
               (scored_indices query_embedding embeddings).

(** The combined score of [semantic_search]: the mean of the similarity of
    the text and of the similarity of the header to the query. *)
Definition combined_score {B : Np.Blas} (query_embedding : list float)
    (chunk : ContextualChunkHeaders.Entry.t) : float :=
  ((cosine query_embedding (ContextualChunkHeaders.Entry.embedding chunk)
    + cosine query_embedding
             (ContextualChunkHeaders.Entry.header_embedding chunk)) / 2)%float.

(** The indices [retrieve_relevant_chunks] selects, in the order it returns
    their chunks. *)
Definition top_indices (similarities : list float) (k : Z) : list Z :=
  rev (Py.slice (Np.argsort similarities) (Some (- k)) None).

(** The similarity at an index of the list [similarities]. *)
Definition score_at (similarities : list float) (i : Z) : float :=
  nth (Z.to_nat i) similarities nan.

(** ** Notions on binary64 values used in the proofs *)

Module Binary64.

(** The rank of a value that is not NaN: its class and sign, then its
    exponent, then its mantissa, negated for a negative value. *)
Definition rank (f : spec_float) : Z * Z * Z :=
  match f with
  | S754_zero _ => (0, 0, 0)
  | S754_infinity false => (2, 0, 0)
  | S754_infinity true => (-2, 0, 0)
  | S754_nan => (0, 0, 0)
  | S754_finite false m e => (1, e, Zpos m)
  | S754_finite true m e => (-1, - e, Zneg m)
  end.

Definition lex (p q : Z * Z * Z) : comparison :=
  let '(a, b, c) := p in
  let '(a', b', c') := q in
  match a ?= a' with
  | Eq => match b ?= b' with Eq => c ?= c' | r => r end
  | r => r
  end.

Definition not_nan (x : float) : Prop := is_nan x = false.

(** A zero of either sign, or NaN. *)
Definition zero_or_nan (x : float) : Prop :=
  match Prim2SF x with
  | S754_zero _ | S754_nan => True
  | _ => False
  end.

(** A value without the sign bit: what a sum of squares is. *)
Definition nonneg (f : spec_float) : Prop :=
  match f with
  | S754_zero false | S754_infinity false | S754_finite false _ _
  | S754_nan => True
  | _ => False
  end.

(** [f'] is the opposite of [f], or both are the positive zero: how the sum
    of the products [x * -x] follows the sum of the squares [x * x]. *)
Definition mirrored (f' f : spec_float) : Prop :=
  f' = SFopp f \/ (f' = S754_zero false /\ f = S754_zero false).

End Binary64.

(** ** Sample inputs

    A corpus of five chunks with synthetic embeddings, chunk 3 being the
    closest to the query, and an embedding service that answers every request
    with the query embedding [[1, 0]]. *)

Module Sample.

Import OpenAI.

Definition text (s : string) : str := list_ascii_of_string s.

Definition query : str := text "what is chunking?".

Definition query_embedding : list float := [1; 0]%float.

Definition client : embeddings_create :=
  fun _ => Ok {| data := [ {| embedding := query_embedding |} ] |}.

Definition corpus : list str :=
  [text "c0"; text "c1"; text "c2"; text "c3"; text "c4"].

Definition embeddings : list Embedding :=
  [ {| embedding := [0; 1]%float |};
    {| embedding := [1; 2]%float |};
    {| embedding := [1; 1]%float |};
    {| embedding := [1; 0]%float |};
    {| embedding := [2; 1]%float |} ].

(** A completion service that answers every chunk with a title but the
    chunk ["dd"], on which the request fails. *)
Definition flaky_chat : chat_completions_create :=
  fun _ user =>
    if String.eqb (string_of_list_ascii user) "dd"
    then Raise (APIError "rate limit exceeded")
    else Ok {| choices :=
                 [ {| message := {| content := text " A title " |} |} ] |}.

(** An embedding service that fails on the text ["cc"]. *)
Definition flaky_client : embeddings_create :=
  fun input =>
    match input with
    | Text t =>
        if String.eqb (string_of_list_ascii t) "cc"
        then Raise (APIError "rate limit exceeded")
        else Ok {| data := [ {| embedding := query_embedding |} ] |}
    | Texts _ => Ok {| data := [ {| embedding := query_embedding |} ] |}
    end.

(** A completion service that answers every request with one title. *)
Definition chat : chat_completions_create :=
  fun _ _ =>
    Ok {| choices :=
            [ {| message := {| content := text " A title " |} |} ] |}.

(** A document of twenty characters, and its ten chunks of size 2. *)
Definition document : str := text "aabbccddeeffgghhiijj".

Definition document_chunks : list str :=
  [text "aa"; text "bb"; text "cc"; text "dd"; text "ee";
   text "ff"; text "gg"; text "hh"; text "ii"; text "jj"].

(** Three embeddings of which the second is the zero vector: its similarity
    to any query is NaN. *)
Definition embeddings_with_zero : list Embedding :=
  [ {| embedding := [0; 1]%float |};
    {| embedding := [0; 0]%float |};
    {| embedding := [1; 0]%float |} ].

(** Two chunks with the embeddings of their texts and of their headers. *)
Definition entries : list ContextualChunkHeaders.Entry.t :=
  [ {| ContextualChunkHeaders.Entry.header := text "h0";
       ContextualChunkHeaders.Entry.text := text "c0";
       ContextualChunkHeaders.Entry.embedding := [0; 1]%float;
       ContextualChunkHeaders.Entry.header_embedding := [1; 1]%float |};
    {| ContextualChunkHeaders.Entry.header := text "h1";
       ContextualChunkHeaders.Entry.text := text "c1";
       ContextualChunkHeaders.Entry.embedding := [1; 0]%float;
       ContextualChunkHeaders.Entry.header_embedding := [3; 4]%float |} ].

(** Three chunks of which the second has the zero vector as the embedding
    of its text. *)
Definition entries_with_zero : list ContextualChunkHeaders.Entry.t :=
  [ {| ContextualChunkHeaders.Entry.header := text "h0";
       ContextualChunkHeaders.Entry.text := text "c0";
       ContextualChunkHeaders.Entry.embedding := [0; 1]%float;
       ContextualChunkHeaders.Entry.header_embedding := [0; 1]%float |};
    {| ContextualChunkHeaders.Entry.header := text "h1";
       ContextualChunkHeaders.Entry.text := text "c1";
       ContextualChunkHeaders.Entry.embedding := [0; 0]%float;
       ContextualChunkHeaders.Entry.header_embedding := [1; 0]%float |};
    {| ContextualChunkHeaders.Entry.header := text "h2";
       ContextualChunkHeaders.Entry.text := text "c2";
       ContextualChunkHeaders.Entry.embedding := [1; 0]%float;
       ContextualChunkHeaders.Entry.header_embedding := [1; 0]%float |} ].

End Sample.

(** * Properties *)

(** ** The order of binary64 values

    The comparisons [<?], [<=?] and [=?] on floats that are not NaN are those
    of a total preorder: a value is ranked by its class and sign, then by its
    exponent, then by its mantissa, and compared lexicographically. *)

Module FloatOrder.

Import Binary64.

Lemma SFcompare_rank f g :
  f <> S754_nan -> g <> S754_nan -> SFcompare f g = Some (lex (rank f) (rank g)).
Proof.
  intros Hf Hg.
  destruct f as [sf|sf| |sf mf ef], g as [sg|sg| |sg mg eg]; try congruence;
    try destruct sf; try destruct sg; try reflexivity.
  cbn -[Z.compare]. rewrite Z.compare_opp, (Z.compare_antisym ef eg).
  destruct (ef ?= eg); reflexivity.
Qed.

Local Open Scope float_scope.
Lemma not_nan_spec x : is_nan x = false <-> Prim2SF x <> S754_nan.
Proof.
  unfold is_nan. rewrite eqb_spec. unfold SFeqb.
  split.
  - intros H E. rewrite E in H. discriminate.
  - intros H. rewrite (SFcompare_rank _ _ H H).
    destruct (rank (Prim2SF x)) as [[a b] c]. cbn -[Z.compare].
    rewrite !Z.compare_refl. reflexivity.
Qed.

Lemma lex_spec p q :
  CompareSpec (p = q)
    (let '(a,b,c) := p in let '(a',b',c') := q in (a < a' \/ (a = a' /\ (b < b' \/ (b = b' /\ c < c'))))%Z)
    (let '(a,b,c) := p in let '(a',b',c') := q in (a' < a \/ (a = a' /\ (b' < b \/ (b = b' /\ c' < c))))%Z)
    (lex p q).
Proof.
  destruct p as [[a b] c], q as [[a' b'] c']. unfold lex.
  destruct (Z.compare_spec a a'); [|constructor; lia|constructor; lia].
  destruct (Z.compare_spec b b'); [|constructor; lia|constructor; lia].
  destruct (Z.compare_spec c c'); constructor; [congruence|lia|lia].
Qed.

Lemma ltb_rank x y : not_nan x -> not_nan y ->
  (x <? y) = match lex (rank (Prim2SF x)) (rank (Prim2SF y)) with Lt => true | _ => false end.
Proof.
  intros Hx Hy. rewrite ltb_spec. unfold SFltb.
  rewrite SFcompare_rank by (apply not_nan_spec; assumption). reflexivity.
Qed.

Lemma leb_rank x y : not_nan x -> not_nan y ->
  (x <=? y) = match lex (rank (Prim2SF x)) (rank (Prim2SF y)) with Gt => false | _ => true end.
Proof.
  intros Hx Hy. rewrite leb_spec. unfold SFleb.
  rewrite SFcompare_rank by (apply not_nan_spec; assumption).
  destruct lex; reflexivity.
Qed.

Lemma ltb_false_leb x y : not_nan x -> not_nan y -> (x <? y) = false -> (y <=? x) = true.
Proof.
  intros Hx Hy. rewrite ltb_rank, leb_rank by assumption.
  destruct (lex_spec (rank (Prim2SF x)) (rank (Prim2SF y))) as [E|L|L],
           (lex_spec (rank (Prim2SF y)) (rank (Prim2SF x))) as [E'|L'|L']; try congruence;
  destruct (rank (Prim2SF x)) as [[a b] c], (rank (Prim2SF y)) as [[a' b'] c']; try lia.
  inversion E. lia.
Qed.

Lemma ltb_true_not_nan x y : (x <? y) = true -> not_nan x /\ not_nan y.
Proof.
  rewrite ltb_spec. unfold SFltb. intros H.
  split; apply not_nan_spec; intros E; rewrite E in H;
    [|destruct (Prim2SF x)]; discriminate.
Qed.

Lemma eqb_true_not_nan x y : (x =? y) = true -> not_nan x /\ not_nan y.
Proof.
  rewrite eqb_spec. unfold SFeqb. intros H.
  split; apply not_nan_spec; intros E; rewrite E in H;
    [|destruct (Prim2SF x)]; discriminate.
Qed.

Lemma eqb_rank x y : not_nan x -> not_nan y ->
  (x =? y) = match lex (rank (Prim2SF x)) (rank (Prim2SF y)) with Eq => true | _ => false end.
Proof.
  intros Hx Hy. rewrite eqb_spec. unfold SFeqb.
  rewrite SFcompare_rank by (apply not_nan_spec; assumption). reflexivity.
Qed.

Ltac by_rank x y :=
  destruct (lex_spec (rank (Prim2SF x)) (rank (Prim2SF y)));
  try discriminate.

Ltac rank_lia :=
  repeat match goal with
  | |- context [rank ?f] => let a := fresh "a" in let b := fresh "b" in let c := fresh "c" in
      destruct (rank f) as [[a b] c]
  | H : context [rank ?f] |- _ => let a := fresh "a" in let b := fresh "b" in let c := fresh "c" in
      destruct (rank f) as [[a b] c]
  end;
  repeat match goal with H : (_, _, _) = (_, _, _) |- _ => inversion H; clear H end;
  subst; try lia; try reflexivity.

Lemma ltb_asym x y : (x <? y) = true -> (y <? x) = false.
Proof.
  intros H. destruct (ltb_true_not_nan _ _ H) as [Hx Hy].
  rewrite ltb_rank in * by assumption.
  by_rank x y; by_rank y x; rank_lia.
Qed.

Lemma ltb_negtrans x y z : not_nan x -> not_nan y -> not_nan z ->
  (x <? y) = false -> (y <? z) = false -> (x <? z) = false.
Proof.
  intros Hx Hy Hz. rewrite !ltb_rank by assumption.
  by_rank x y; by_rank y z; by_rank x z; intros; rank_lia.
Qed.

Lemma leb_trans x y z : not_nan x -> not_nan y -> not_nan z ->
  (x <=? y) = true -> (y <=? z) = true -> (x <=? z) = true.
Proof.
  intros Hx Hy Hz. rewrite !leb_rank by assumption.
  by_rank x y; by_rank y z; by_rank x z; intros; rank_lia.
Qed.

Lemma eqb_ltb x y s : (x =? s) = true -> (y =? s) = true -> (y <? x) = false.
Proof.
  intros Hx Hy.
  destruct (eqb_true_not_nan _ _ Hx) as [Nx Ns], (eqb_true_not_nan _ _ Hy) as [Ny _].
  rewrite eqb_rank in Hx, Hy by assumption. rewrite ltb_rank by assumption.
  by_rank x s; by_rank y s; by_rank y x; rank_lia.
Qed.

End FloatOrder.

(** ** Arithmetic of binary64 values

    Facts about the IEEE operations that hold for every value, proved from
    the specification of the operations. *)

Module FloatArith.

Import Binary64.

Local Open Scope float_scope.

(** The product is commutative, NaN and signed zeros included. *)
Lemma SFmul_comm prec emax x y : SFmul prec emax x y = SFmul prec emax y x.
Proof.
  destruct x as [sx|sx| |sx mx ex], y as [sy|sy| |sy my ey]; simpl;
    try reflexivity; try (rewrite (xorb_comm sx sy); reflexivity).
  rewrite (xorb_comm sx sy), (Pos.mul_comm mx my), (Z.add_comm ex ey).
  reflexivity.
Qed.

Lemma mul_comm (x y : float) : x * y = y * x.
Proof.
  apply Prim2SF_inj. rewrite !mul_spec. apply SFmul_comm.
Qed.

(** A float is determined by its specification value. *)
Lemma float_of_SF x f : Prim2SF x = f -> x = SF2Prim f.
Proof. intros <-. symmetry. apply SF2Prim_Prim2SF. Qed.

(** Zeros and NaN absorb products, sums and square roots, and a zero or
    NaN divided by a zero or NaN is NaN. *)
Lemma zn_mul_l x y : zero_or_nan x -> zero_or_nan (x * y).
Proof.
  unfold zero_or_nan. rewrite mul_spec.
  destruct (Prim2SF x), (Prim2SF y); simpl; tauto.
Qed.

Lemma zn_mul_r x y : zero_or_nan y -> zero_or_nan (x * y).
Proof. rewrite mul_comm. apply zn_mul_l. Qed.

Lemma zn_add x y : zero_or_nan x -> zero_or_nan y -> zero_or_nan (x + y).
Proof.
  unfold zero_or_nan. rewrite add_spec.
  destruct (Prim2SF x) as [sx|sx| |sx mx ex], (Prim2SF y) as [sy|sy| |sy my ey];
    cbn [SF64add SFadd]; try tauto.
  destruct sx, sy; tauto.
Qed.

Lemma zn_sqrt x : zero_or_nan x -> zero_or_nan (sqrt x).
Proof.
  unfold zero_or_nan. rewrite sqrt_spec.
  destruct (Prim2SF x); simpl; tauto.
Qed.

Lemma zn_div x y : zero_or_nan x -> zero_or_nan y -> x / y = nan.
Proof.
  unfold zero_or_nan. intros Hx Hy.
  apply Prim2SF_inj. rewrite div_spec.
  destruct (Prim2SF x), (Prim2SF y); simpl in *; try tauto; reflexivity.
Qed.

(** Rounding commutes with the change of sign. *)
Lemma bra_opp p E s m e l :
  SFopp (binary_round_aux p E s m e l) = binary_round_aux p E (negb s) m e l.
Proof.
  unfold binary_round_aux.
  destruct (shr_fexp p E m e l) as [mrs' e'].
  destruct (shr_fexp p E _ e' loc_Exact) as [mrs'' e''].
  destruct (shr_m mrs''); try reflexivity.
  destruct (e'' <=? E - p)%Z; reflexivity.
Qed.

Lemma binary_round_opp p E s m e :
  SFopp (binary_round p E s m e) = binary_round p E (negb s) m e.
Proof.
  unfold binary_round. destruct (shl_align _ _ _). apply bra_opp.
Qed.

(** Quotients and the change of sign. *)
Lemma SFdiv_opp_l p E f g : SFdiv p E (SFopp f) g = SFopp (SFdiv p E f g).
Proof.
  destruct f as [sf|sf| |sf mf ef], g as [sg|sg| |sg mg eg]; cbn [SFdiv SFopp];
    rewrite <- ?negb_xorb_l; try reflexivity.
  destruct (SFdiv_core_binary p E (Z.pos mf) ef (Z.pos mg) eg) as [[mz ez] lz].
  rewrite bra_opp. reflexivity.
Qed.

Lemma div_opp_l (x y : float) : (- x) / y = - (x / y).
Proof.
  apply Prim2SF_inj. rewrite opp_spec, !div_spec, opp_spec.
  apply SFdiv_opp_l.
Qed.

(** Products and the change of sign. *)
Lemma SFmul_opp_r p E f g : SFmul p E f (SFopp g) = SFopp (SFmul p E f g).
Proof.
  destruct f as [sf|sf| |sf mf ef], g as [sg|sg| |sg mg eg]; cbn [SFmul SFopp];
    rewrite <- ?negb_xorb_r; try reflexivity.
  rewrite bra_opp. reflexivity.
Qed.

Lemma SFmul_opp_opp p E f g : SFmul p E (SFopp f) (SFopp g) = SFmul p E f g.
Proof.
  rewrite SFmul_opp_r, SFmul_comm, SFmul_opp_r, SFmul_comm.
  destruct (SFmul p E f g); cbn [SFopp]; rewrite ?negb_involutive; reflexivity.
Qed.

(** Squares, and sums of values without the sign bit, have no sign bit. *)
Lemma bra_nonneg p E m e l : nonneg (binary_round_aux p E false m e l).
Proof.
  unfold binary_round_aux.
  destruct (shr_fexp p E m e l) as [mrs' e'].
  destruct (shr_fexp p E _ e' loc_Exact) as [mrs'' e''].
  destruct (shr_m mrs''); try exact I.
  destruct (e'' <=? E - p)%Z; exact I.
Qed.

Lemma SFmul_self_nonneg p E f : nonneg (SFmul p E f f).
Proof.
  destruct f as [s|s| |s m e]; cbn [SFmul]; rewrite ?xorb_nilpotent; try exact I.
  apply bra_nonneg.
Qed.

Lemma SFadd_nonneg p E f g : nonneg f -> nonneg g -> nonneg (SFadd p E f g).
Proof.
  destruct f as [[]|[]| |[] mf ef], g as [[]|[]| |[] mg eg]; cbn [nonneg SFadd];
    try tauto.
  intros _ _. cbn [cond_Zopp Z.add binary_normalize].
  unfold binary_round. destruct (shl_align _ _ _). apply bra_nonneg.
Qed.

(** Adding [-g] to the mirror of [a] mirrors adding [g] to [a]. *)
Lemma SFadd_mirrored p E a' a g :
  nonneg a -> nonneg g -> mirrored a' a ->
  mirrored (SFadd p E a' (SFopp g)) (SFadd p E a g).
Proof.
  intros Ha Hg [->|[-> ->]].
  - destruct a as [[]|[]| |[] ma ea], g as [[]|[]| |[] mg eg];
      cbn [nonneg] in *; try tauto; try (left; reflexivity).
    left. cbn [SFopp SFadd negb cond_Zopp Z.add Z.opp binary_normalize].
    symmetry. apply binary_round_opp.
  - destruct g as [[]|[]| |[] mg eg]; cbn [nonneg] in *; try tauto;
      try (left; reflexivity).
    right. split; reflexivity.
Qed.

(** The sum of products is symmetric in its two vectors. *)
Lemma fold_inner_comm (a b : list float) (acc : float) :
  fold_left (fun acc p => acc + fst p * snd p) (combine a b) acc
  = fold_left (fun acc p => acc + fst p * snd p) (combine b a) acc.
Proof.
  revert b acc. induction a as [|x a IH]; intros [|y b] acc; try reflexivity.
  cbn [combine fold_left fst snd]. rewrite (mul_comm x y). apply IH.
Qed.

(** A sum of products with a zero vector is a zero or NaN. *)
Lemma is_zero_SF x : is_zero x = true -> exists s, Prim2SF x = S754_zero s.
Proof.
  unfold is_zero. rewrite eqb_spec. change (Prim2SF 0) with (S754_zero false).
  destruct (Prim2SF x) as [s|[]| |[] m e]; try discriminate.
  intros _. exists s. reflexivity.
Qed.

Lemma is_zero_zn x : is_zero x = true -> zero_or_nan x.
Proof.
  intros H. destruct (is_zero_SF x H) as [s Hs]. unfold zero_or_nan.
  rewrite Hs. exact I.
Qed.

Lemma fold_inner_zero_l (a b : list float) (acc : float) :
  forallb is_zero a = true -> zero_or_nan acc ->
  zero_or_nan (fold_left (fun acc p => acc + fst p * snd p) (combine a b) acc).
Proof.
  revert b acc. induction a as [|x a IH]; intros [|y b] acc Ha Hacc;
    try exact Hacc.
  cbn [forallb] in Ha. apply andb_true_iff in Ha. destruct Ha as [Hx Ha].
  cbn [combine fold_left fst snd]. apply IH; [exact Ha|].
  apply zn_add; [exact Hacc|]. apply zn_mul_l, is_zero_zn, Hx.
Qed.

Lemma zero_zn : zero_or_nan 0.
Proof. exact I. Qed.

Lemma inner_zero_l a b : forallb is_zero a = true -> zero_or_nan (Np.inner a b).
Proof. intros H. apply fold_inner_zero_l; [exact H|exact zero_zn]. Qed.

Lemma inner_comm a b : Np.inner a b = Np.inner b a.
Proof. apply fold_inner_comm. Qed.

(** A division by a zero or NaN returns an infinity or NaN. *)
Lemma zn_div_not_finite x z : zero_or_nan z -> is_finite (x / z) = false.
Proof.
  unfold zero_or_nan. intros Hz.
  assert (H : match Prim2SF (x / z) with
              | S754_infinity _ | S754_nan => True | _ => False end).
  { rewrite div_spec. destruct (Prim2SF x), (Prim2SF z); cbn; tauto. }
  destruct (Prim2SF (x / z)) as [s|s| |s m e] eqn:E; try tauto;
    apply float_of_SF in E; rewrite E; [destruct s|]; reflexivity.
Qed.

(** The sum of squares of [-v] is that of [v], and the sum of the products
    of [v] and [-v] is its opposite. *)
Lemma fold_inner_opp_opp (v : list float) (acc : float) :
  fold_left (fun acc p => acc + fst p * snd p)
            (combine (map opp v) (map opp v)) acc
  = fold_left (fun acc p => acc + fst p * snd p) (combine v v) acc.
Proof.
  revert acc. induction v as [|x v IH]; intros acc; [reflexivity|].
  cbn [map combine fold_left fst snd]. rewrite IH. do 2 f_equal.
  apply Prim2SF_inj. rewrite !mul_spec, !opp_spec. apply SFmul_opp_opp.
Qed.

Lemma fold_inner_mirrored (v : list float) (acc' acc : float) :
  nonneg (Prim2SF acc) -> mirrored (Prim2SF acc') (Prim2SF acc) ->
  mirrored
    (Prim2SF (fold_left (fun acc p => acc + fst p * snd p)
                        (combine v (map opp v)) acc'))
    (Prim2SF (fold_left (fun acc p => acc + fst p * snd p)
                        (combine v v) acc)).
Proof.
  revert acc' acc. induction v as [|x v IH]; intros acc' acc Hn Hm; [exact Hm|].
  cbn [map combine fold_left fst snd]. apply IH.
  - rewrite add_spec, mul_spec. apply SFadd_nonneg; [exact Hn|].
    apply SFmul_self_nonneg.
  - rewrite !add_spec, !mul_spec, opp_spec. unfold SF64mul.
    rewrite SFmul_opp_r. apply SFadd_mirrored; [exact Hn| |exact Hm].
    apply SFmul_self_nonneg.
Qed.

End FloatArith.

(** ** The result monad and loops *)

Lemma for_each_pure {A B : Type} (g : A -> B) (l : list A) :
  for_each (fun x => Ok (g x)) l = Ok (map g l).
Proof.
  induction l as [|x l IH]; simpl; [reflexivity|].
  rewrite IH. reflexivity.
Qed.

Lemma for_each_ext {A B : Type} (f g : A -> result B) (l : list A) :
  (forall x, In x l -> f x = g x) -> for_each f l = for_each g l.
Proof.
  induction l as [|x l IH]; intros H; simpl; [reflexivity|].
  rewrite (H x (or_introl eq_refl)), IH; [reflexivity|].
  intros y Hy. apply H. right. exact Hy.
Qed.

Lemma for_each_raise {A B : Type} (f : A -> result B) (l1 l2 : list A) x e :
  (forall y, In y l1 -> exists b, f y = Ok b) ->
  f x = Raise e ->
  for_each f (l1 ++ x :: l2) = Raise e.
Proof.
  induction l1 as [|y l1 IH]; intros Hok Hx; simpl.
  - rewrite Hx. reflexivity.
  - destruct (Hok y (or_introl eq_refl)) as [b Hb]. rewrite Hb. simpl.
    rewrite IH; [reflexivity| |exact Hx].
    intros z Hz. apply Hok. right. exact Hz.
Qed.

(** ** Sorting *)

Lemma StronglySorted_app_inv {A : Type} (R : A -> A -> Prop) (l1 l2 : list A) :
  StronglySorted R (l1 ++ l2) ->
  StronglySorted R l1 /\ StronglySorted R l2
  /\ (forall a b, In a l1 -> In b l2 -> R a b).
Proof.
  induction l1 as [|x l1 IH]; simpl; intros H.
  - repeat split; [constructor|exact H|intros a b []].
  - apply StronglySorted_inv in H. destruct H as [Hs Hx].
    destruct (IH Hs) as (H1 & H2 & H12).
    rewrite Forall_forall in Hx.
    repeat split.
    + constructor; [exact H1|]. apply Forall_forall. intros y Hy.
      apply Hx, in_or_app. left. exact Hy.
    + exact H2.
    + intros a b [<-|Ha] Hb.
      * apply Hx, in_or_app. right. exact Hb.
      * apply H12; assumption.
Qed.

Lemma StronglySorted_app {A : Type} (R : A -> A -> Prop) (l1 l2 : list A) :
  StronglySorted R l1 -> StronglySorted R l2 ->
  (forall a b, In a l1 -> In b l2 -> R a b) ->
  StronglySorted R (l1 ++ l2).
Proof.
  induction l1 as [|x l1 IH]; simpl; intros H1 H2 H12; [exact H2|].
  apply StronglySorted_inv in H1. destruct H1 as [Hs Hx].
  constructor.
  - apply IH; [exact Hs|exact H2|]. intros a b Ha Hb. apply H12; [right|]; assumption.
  - rewrite Forall_forall in *. intros y Hy.
    apply in_app_or in Hy. destruct Hy as [Hy|Hy]; [apply Hx; exact Hy|].
    apply H12; [left; reflexivity|exact Hy].
Qed.

Lemma StronglySorted_rev {A : Type} (R : A -> A -> Prop) (l : list A) :
  StronglySorted R l -> StronglySorted (fun a b => R b a) (rev l).
Proof.
  induction 1 as [|x l Hs IH Hx]; simpl; [constructor|].
  apply StronglySorted_app; [exact IH|repeat constructor|].
  intros a b Ha [<-|[]]. rewrite Forall_forall in Hx.
  apply Hx, in_rev. exact Ha.
Qed.

Lemma StronglySorted_impl {A : Type} (R S : A -> A -> Prop) (P : A -> Prop)
    (l : list A) :
  (forall a b, P a -> P b -> R a b -> S a b) ->
  Forall P l -> StronglySorted R l -> StronglySorted S l.
Proof.
  intros HRS HP Hs. induction Hs as [|x l Hs IH Hx]; [constructor|].
  inversion HP as [|? ? Px Pl]; subst.
  constructor; [apply IH; exact Pl|].
  rewrite Forall_forall in *. intros y Hy.
  apply HRS; [exact Px|apply Pl; exact Hy|apply Hx; exact Hy].
Qed.

Section SortFacts.
Context {A K : Type}.
Variable lt : K -> K -> bool.
Variable key : A -> K.

Lemma insert_perm (x : A) (l : list A) :
  Permutation (x :: l) (Py.insert lt key x l).
Proof.
  induction l as [|y l IH]; simpl; [reflexivity|].
  destruct (lt (key y) (key x)); [|reflexivity].
  rewrite perm_swap. apply perm_skip. exact IH.
Qed.

Lemma sort_ascending_perm (l : list A) :
  Permutation l (Py.sort_ascending lt key l).
Proof.
  induction l as [|x l IH]; simpl; [reflexivity|].
  rewrite <- insert_perm. apply perm_skip. exact IH.
Qed.

Lemma list_sort_perm (reverse : bool) (l : list A) :
  Permutation l (Py.list_sort lt key reverse l).
Proof.
  unfold Py.list_sort. destruct reverse; [|apply sort_ascending_perm].
  rewrite <- Permutation_rev, <- sort_ascending_perm.
  apply Permutation_rev.
Qed.

(** A list in which no key is less than the key before it is left as it
    is; so is, by a reverse sort, a list whose reversal is such a list. *)
Lemma sort_ascending_one_run (l : list A) :
  Sorted (fun a b => lt (key b) (key a) = false) l ->
  Py.sort_ascending lt key l = l.
Proof.
  induction 1 as [|x l Hs IH Hx]; [reflexivity|].
  cbn [Py.sort_ascending fold_right]. unfold Py.sort_ascending in IH.
  rewrite IH. destruct Hx as [|y l' Hxy]; [reflexivity|].
  cbn [Py.insert]. rewrite Hxy. reflexivity.
Qed.

Lemma list_sort_one_run (l : list A) :
  Sorted (fun a b => lt (key b) (key a) = false) (rev l) ->
  Py.list_sort lt key true l = l.
Proof.
  intros H. unfold Py.list_sort.
  rewrite (sort_ascending_one_run _ H). apply rev_involutive.
Qed.

(** Stability: the elements of a class of mutually unordered keys keep
    their order. *)
Section Stable.
Variable class : K -> bool.
Hypothesis class_unordered :
  forall a b, class a = true -> class b = true -> lt a b = false.

Lemma insert_filter (x : A) (l : list A) :
  filter (fun a => class (key a)) (Py.insert lt key x l)
  = filter (fun a => class (key a)) (x :: l).
Proof.
  induction l as [|y l IH]; [reflexivity|].
  cbn [Py.insert]. destruct (lt (key y) (key x)) eqn:Hlt; [|reflexivity].
  cbn [filter] in *. rewrite IH.
  destruct (class (key x)) eqn:Hx, (class (key y)) eqn:Hy; try reflexivity.
  rewrite (class_unordered _ _ Hy Hx) in Hlt. discriminate.
Qed.

Lemma sort_ascending_filter (l : list A) :
  filter (fun a => class (key a)) (Py.sort_ascending lt key l)
  = filter (fun a => class (key a)) l.
Proof.
  induction l as [|x l IH]; [reflexivity|].
  cbn [Py.sort_ascending fold_right].
  rewrite insert_filter. cbn [filter].
  unfold Py.sort_ascending in IH. rewrite IH. reflexivity.
Qed.

Lemma list_sort_filter (reverse : bool) (l : list A) :
  filter (fun a => class (key a)) (Py.list_sort lt key reverse l)
  = filter (fun a => class (key a)) l.
Proof.
  unfold Py.list_sort. destruct reverse; [|apply sort_ascending_filter].
  rewrite filter_rev, sort_ascending_filter, filter_rev.
  apply rev_involutive.
Qed.
End Stable.

(** Order: on keys that [lt] orders as a strict weak order, the result is
    sorted. *)
Section Sorted.
Variable ok : K -> Prop.
Hypothesis lt_asym : forall a b, lt a b = true -> lt b a = false.
Hypothesis lt_negtrans :
  forall a b c, ok a -> ok b -> ok c ->
    lt a b = false -> lt b c = false -> lt a c = false.

Lemma insert_sorted (x : A) (l : list A) :
  ok (key x) -> Forall (fun a => ok (key a)) l ->
  StronglySorted (fun a b => lt (key b) (key a) = false) l ->
  StronglySorted (fun a b => lt (key b) (key a) = false)
                 (Py.insert lt key x l).
Proof.
  intros Hx Hl Hs. induction Hs as [|y l Hs IH Hy]; simpl.
  - repeat constructor.
  - inversion Hl as [|? ? Oy Ol]; subst.
    destruct (lt (key y) (key x)) eqn:Hlt.
    + constructor; [apply IH; exact Ol|].
      apply Forall_forall. intros z Hz.
      apply (Permutation_in _ (Permutation_sym (insert_perm x l))) in Hz.
      destruct Hz as [<-|Hz]; [apply lt_asym; exact Hlt|].
      rewrite Forall_forall in Hy. apply Hy. exact Hz.
    + constructor; [constructor; assumption|].
      constructor; [exact Hlt|].
      rewrite Forall_forall in *. intros z Hz.
      apply (lt_negtrans _ (key y)); auto.
Qed.

Lemma sort_ascending_sorted (l : list A) :
  Forall (fun a => ok (key a)) l ->
  StronglySorted (fun a b => lt (key b) (key a) = false)
                 (Py.sort_ascending lt key l).
Proof.
  induction 1 as [|x l Hx Hl IH]; simpl; [constructor|].
  apply insert_sorted; [exact Hx| |exact IH].
  rewrite Forall_forall in *. intros y Hy. apply Hl.
  apply (Permutation_in _ (Permutation_sym (sort_ascending_perm l))).
  exact Hy.
Qed.

Lemma list_sort_reverse_sorted (l : list A) :
  Forall (fun a => ok (key a)) l ->
  StronglySorted (fun a b => lt (key a) (key b) = false)
                 (Py.list_sort lt key true l).
Proof.
  intros Hl. unfold Py.list_sort.
  apply (StronglySorted_rev (fun a b => lt (key b) (key a) = false)).
  apply sort_ascending_sorted.
  rewrite Forall_forall in *. intros y Hy. apply Hl, in_rev. exact Hy.
Qed.
End Sorted.

End SortFacts.

(** ** Python built-ins *)

Lemma len_nonneg {A : Type} (l : list A) : 0 <= Py.len l.
Proof. unfold Py.len. lia. Qed.

Lemma getitem_nth {A : Type} (l : list A) (i : Z) (x : A) :
  0 <= i -> nth_error l (Z.to_nat i) = Some x -> Py.getitem l i = Ok x.
Proof.
  intros Hi Hx. unfold Py.getitem.
  assert (Hlt : (Z.to_nat i < length l)%nat)
    by (apply nth_error_Some; congruence).
  destruct (Z.ltb_spec i 0); [lia|].
  destruct (Z.leb_spec 0 i); [|lia].
  destruct (Z.ltb_spec i (Py.len l)); [|unfold Py.len in *; lia].
  simpl. rewrite Hx. reflexivity.
Qed.

Lemma range_step_1 (lo hi : Z) :
  Py.range lo hi 1
  = Ok (map (fun k => lo + Z.of_nat k) (seq 0 (Z.to_nat (hi - lo)))).
Proof.
  unfold Py.range, Py.range_length. change (1 =? 0) with false. cbv iota.
  replace (Z.to_nat (if 0 <? 1 then if lo <? hi then (hi - lo - 1) / 1 + 1 else 0
                     else if hi <? lo then (lo - hi - 1) / - (1) + 1 else 0))
    with (Z.to_nat (hi - lo)).
  - f_equal. apply map_ext. intros k. lia.
  - change (0 <? 1) with true. cbv iota. destruct (Z.ltb_spec lo hi).
    + rewrite Z.div_1_r. lia.
    + lia.
Qed.

Lemma skipn_nth_error_cons {A : Type} (l : list A) (n : nat) (x : A) :
  nth_error l n = Some x -> skipn n l = x :: skipn (S n) l.
Proof.
  revert l. induction n as [|n IH]; intros [|y l] H; try discriminate.
  - injection H as ->. reflexivity.
  - simpl in H. rewrite (skipn_cons n y l). apply IH. exact H.
Qed.

Lemma for_each_getitem_window {A : Type} (l : list A) (n lo : nat) :
  (lo + n <= length l)%nat ->
  for_each (fun i => Py.getitem l i)
           (map (fun k => Z.of_nat lo + Z.of_nat k) (seq 0 n))
  = Ok (firstn n (skipn lo l)).
Proof.
  revert lo. induction n as [|n IH]; intros lo Hle; [reflexivity|].
  cbn [seq map for_each].
  destruct (nth_error l lo) as [x|] eqn:Hx;
    [|apply nth_error_None in Hx; lia].
  rewrite (getitem_nth l _ x); [|lia|].
  2:{ replace (Z.to_nat (Z.of_nat lo + Z.of_nat 0)) with lo by lia. exact Hx. }
  cbn [bind]. rewrite <- seq_shift, map_map.
  rewrite (map_ext _ (fun k => Z.of_nat (S lo) + Z.of_nat k)) by (intros; lia).
  rewrite IH by lia. cbn [bind].
  rewrite (skipn_nth_error_cons l lo x Hx). reflexivity.
Qed.

Lemma enumerate_In {A : Type} (l : list A) (i : Z) (x : A) :
  In (i, x) (Py.enumerate l) -> 0 <= i < Py.len l /\ In x l.
Proof.
  intros H. unfold Py.enumerate in H. split.
  - apply in_combine_l in H. apply in_map_iff in H.
    destruct H as (k & <- & Hk). apply in_seq in Hk. unfold Py.len. lia.
  - apply in_combine_r in H. exact H.
Qed.

Lemma enumerate_length {A : Type} (l : list A) :
  length (Py.enumerate l) = length l.
Proof.
  unfold Py.enumerate. rewrite length_combine, length_map, length_seq.
  apply Nat.min_id.
Qed.

(** ** Cosine similarity *)

Lemma cosine_similarity_04 {B : Np.Blas} (vec1 vec2 : list float) :
  length vec1 = length vec2 ->
  ContextEnrichedRag.cosine_similarity vec1 vec2 = Ok (cosine vec1 vec2).
Proof.
  intros H. unfold ContextEnrichedRag.cosine_similarity, Np.dot.
  rewrite H, Nat.eqb_refl. reflexivity.
Qed.

Lemma cosine_similarity_same_03 :
  ChunkSizeSelector.cosine_similarity = ContextEnrichedRag.cosine_similarity.
Proof. reflexivity. Qed.

Lemma cosine_similarity_same_cch {B : Np.Blas} :
  ContextualChunkHeaders.cosine_similarity
  = ContextEnrichedRag.cosine_similarity.
Proof. reflexivity. Qed.

(** ** Neighbor-window retrieval *)

Section ContextEnrichedSearch.
Import OpenAI ContextEnrichedRag.
Context {B : Np.Blas} {chunk : Type}.
Variable client : embeddings_create.
Variable query : str.

Lemma similarity_scores_ok (q : list float) (embeddings : list Embedding) :
  Forall (fun e => length (embedding e) = length q) embeddings ->
  for_each (fun '(i, chunk_embedding) =>
              similarity_score <-
                cosine_similarity q (embedding chunk_embedding) ;;
              Ok (i, similarity_score))
           (Py.enumerate embeddings)
  = Ok (scored_indices q embeddings).
Proof.
  intros Hdim. unfold scored_indices. rewrite <- for_each_pure.
  apply for_each_ext. intros [i e] Hin.
  apply enumerate_In in Hin. destruct Hin as [_ Hin].
  rewrite Forall_forall in Hdim.
  rewrite cosine_similarity_04 by (symmetry; apply Hdim; exact Hin).
  reflexivity.
Qed.

Lemma ranked_indices_perm (q : list float) (embeddings : list Embedding) :
  Permutation (scored_indices q embeddings) (ranked_indices q embeddings).
Proof. apply list_sort_perm. Qed.

Lemma ranked_indices_bounds (q : list float) (embeddings : list Embedding) t s :
  In (t, s) (ranked_indices q embeddings) -> 0 <= t < Py.len embeddings.
Proof.
  intros H.
  apply (Permutation_in _ (Permutation_sym (ranked_indices_perm _ _))) in H.
  unfold scored_indices in H. apply in_map_iff in H.
  destruct H as ([i e] & Heq & Hin). injection Heq as <- _.
  apply enumerate_In in Hin. tauto.
Qed.

End ContextEnrichedSearch.

(** The scenario of the specification: chunk 3 is the closest, radius 1
    returns the chunks 2, 3 and 4 in that order. *)
Example context_enriched_search_scenario :
  ContextEnrichedRag.context_enriched_search
    Sample.client Sample.query Sample.corpus Sample.embeddings 1 1
  = Ok [Sample.text "c2"; Sample.text "c3"; Sample.text "c4"].
Proof. vm_compute. reflexivity. Qed.

(** C10. The parameter [k] of [context_enriched_search] has no effect: two
    calls that differ only in [k] return the same result. *)
Theorem context_enriched_search_ignores_k {chunk : Type}
    (client : OpenAI.embeddings_create) (query : str)
    (text_chunks : list chunk) (embeddings : list OpenAI.Embedding)
    (k1 k2 context_size : Z) :
  ContextEnrichedRag.context_enriched_search
    client query text_chunks embeddings k1 context_size
  = ContextEnrichedRag.context_enriched_search
      client query text_chunks embeddings k2 context_size.
Proof. reflexivity. Qed.

(** C7. Neighbor-window retrieval on an empty corpus (no chunk, no
    embedding) fails, whatever the query and the context radius: the call
    raises, and once the query is embedded the exception is the [IndexError]
    of taking the head of the empty ranking. *)
Theorem context_enriched_search_empty_corpus {chunk : Type}
    (client : OpenAI.embeddings_create) (query : str) (k context_size : Z) :
  ContextEnrichedRag.context_enriched_search
    client query (@nil chunk) [] k context_size
  = match client (OpenAI.Text query) with
    | Ok _ => Raise IndexError
    | Raise e => Raise e
    end.
Proof.
  unfold ContextEnrichedRag.context_enriched_search,
    ContextEnrichedRag.create_embeddings.
  destruct (client (OpenAI.Text query)) as [response|e]; [|reflexivity].
  cbn [bind]. destruct (Py.getitem (OpenAI.data response) 0) as [first|e] eqn:H.
  - reflexivity.
  - cbn [bind]. unfold Py.getitem in H.
    destruct (_ && _) in H; [|congruence].
    destruct (nth_error _ _) in H; congruence.
Qed.

(** ** Chunking *)

Lemma chunk_text_same :
  ChunkSizeSelector.chunk_text = ContextEnrichedRag.chunk_text.
Proof. reflexivity. Qed.

Lemma chunk_text_unfold (text : str) (n overlap : Z) :
  ContextEnrichedRag.chunk_text text n overlap
  = starts <- Py.range 0 (Py.len text) (n - overlap) ;;
    Ok (map (fun i => Py.slice text (Some i) (Some (i + n))) starts).
Proof.
  unfold ContextEnrichedRag.chunk_text.
  destruct (Py.range 0 (Py.len text) (n - overlap)); [|reflexivity].
  cbn [bind]. apply for_each_pure.
Qed.

Lemma range_zero_step (lo hi : Z) : Py.range lo hi 0 = Raise ValueError.
Proof. reflexivity. Qed.

Lemma range_backwards (hi step : Z) :
  0 <= hi -> step < 0 -> Py.range 0 hi step = Ok [].
Proof.
  intros Hhi Hstep. unfold Py.range, Py.range_length.
  destruct (Z.eqb_spec step 0); [lia|].
  destruct (Z.ltb_spec 0 step); [lia|].
  destruct (Z.ltb_spec hi 0); [lia|]. reflexivity.
Qed.

Lemma range_forward (hi step : Z) :
  0 < step ->
  Py.range 0 hi step
  = Ok (map (fun k => Z.of_nat k * step)
            (seq 0 (Z.to_nat (if 0 <? hi then (hi - 1) / step + 1 else 0)))).
Proof.
  intros Hstep. unfold Py.range, Py.range_length.
  destruct (Z.eqb_spec step 0); [lia|].
  destruct (Z.ltb_spec 0 step); [|lia].
  rewrite Z.sub_0_r. reflexivity.
Qed.

(** A slice that starts inside the text. *)
Lemma slice_inside {A : Type} (l : list A) (i n : Z) :
  0 <= i <= Py.len l -> 0 <= n ->
  Py.slice l (Some i) (Some (i + n))
  = firstn (Z.to_nat (Z.min (i + n) (Py.len l) - i)) (skipn (Z.to_nat i) l).
Proof.
  intros Hi Hn. unfold Py.slice, Py.adjust_index.
  destruct (Z.ltb_spec i 0); [lia|].
  destruct (Z.ltb_spec (i + n) 0); [lia|].
  rewrite (Z.min_l i) by lia. reflexivity.
Qed.

(** C5. Chunk coverage.  For a size [n > 0] and an overlap with
    [0 <= overlap < n], [chunk_text] returns a list of chunks in which every
    character index [j] of the text appears: the chunk number
    [j / (n - overlap)] starts at the offset [start] it is cut at, spans
    [j], and holds at [j - start] the character the text holds at [j]. *)
Theorem chunk_text_coverage (text : str) (n overlap : Z) :
  0 < n -> 0 <= overlap < n ->
  exists chunks,
    ContextEnrichedRag.chunk_text text n overlap = Ok chunks
    /\ forall j, 0 <= j < Py.len text ->
         exists (c : nat) (chunk : str),
           nth_error chunks c = Some chunk
           /\ let start := Z.of_nat c * (n - overlap) in
              start <= j < start + Py.len chunk
              /\ nth_error chunk (Z.to_nat (j - start))
                 = nth_error text (Z.to_nat j).
Proof.
  intros Hn Ho.
  rewrite chunk_text_unfold, range_forward by lia. cbn [bind].
  eexists. split; [reflexivity|].
  intros j Hj.
  set (step := n - overlap) in *.
  assert (Hstep : 0 < step) by (subst step; lia).
  pose proof (Z.div_mod j step ltac:(lia)) as Hdm.
  pose proof (Z.mod_pos_bound j step Hstep) as Hmod.
  assert (Hq : 0 <= j / step) by (apply Z.div_pos; lia).
  assert (Hqle : j / step <= (Py.len text - 1) / step)
    by (apply Z.div_le_mono; lia).
  set (start := Z.of_nat (Z.to_nat (j / step)) * step).
  assert (Hstart : start = step * (j / step)) by (subst start; lia).
  exists (Z.to_nat (j / step)),
         (Py.slice text (Some start) (Some (start + n))).
  split.
  - rewrite map_map, nth_error_map, nth_error_seq.
    destruct (Z.ltb_spec 0 (Py.len text)); [|lia].
    destruct (Nat.ltb_spec (Z.to_nat (j / step))
                (Z.to_nat ((Py.len text - 1) / step + 1))); [|lia].
    reflexivity.
  - cbv zeta. fold start.
    rewrite slice_inside by lia.
    unfold Py.len in *.
    rewrite length_firstn, length_skipn, nth_error_firstn, nth_error_skipn.
    split; [lia|].
    destruct (Nat.ltb_spec (Z.to_nat (j - start))
                (Z.to_nat (Z.min (start + n) (Z.of_nat (length text)) - start)));
      [|lia].
    f_equal. lia.
Qed.

Lemma chunk_text_coverage_witness :
  exists chunks,
    ContextEnrichedRag.chunk_text (Sample.text "abcdefghij") 4 1 = Ok chunks
    /\ forall j, 0 <= j < Py.len (Sample.text "abcdefghij") ->
         exists (c : nat) (chunk : str),
           nth_error chunks c = Some chunk
           /\ let start := Z.of_nat c * (4 - 1) in
              start <= j < start + Py.len chunk
              /\ nth_error chunk (Z.to_nat (j - start))
                 = nth_error (Sample.text "abcdefghij") (Z.to_nat j).
Proof.
  apply (chunk_text_coverage (Sample.text "abcdefghij") 4 1); lia.
Defined.

(** The chunks of a ten-character text for size 4 and overlap 1. *)
Example chunk_text_example :
  ContextEnrichedRag.chunk_text (Sample.text "abcdefghij") 4 1
  = Ok [Sample.text "abcd"; Sample.text "defg"; Sample.text "ghij";
        Sample.text "j"].
Proof. reflexivity. Qed.

(** C3, as the code has it.  [chunk_text] validates nothing itself.  With
    [n - overlap = 0] the call raises the [ValueError] of [range] before any
    chunk is cut, for every text; with [n - overlap < 0] the range is empty
    and the call returns the empty list of chunks.  In neither case does the
    call loop.  The same holds in both notebooks. *)
Theorem chunk_text_invalid_configuration (text : str) (n overlap : Z) :
  (n - overlap = 0 ->
   ContextEnrichedRag.chunk_text text n overlap = Raise ValueError
   /\ ChunkSizeSelector.chunk_text text n overlap = Raise ValueError)
  /\ (n - overlap < 0 ->
      ContextEnrichedRag.chunk_text text n overlap = Ok []
      /\ ChunkSizeSelector.chunk_text text n overlap = Ok []).
Proof.
  rewrite chunk_text_same, chunk_text_unfold. split; intros H.
  - rewrite H. split; reflexivity.
  - rewrite range_backwards by (try apply len_nonneg; lia). split; reflexivity.
Qed.

Lemma chunk_text_invalid_configuration_witness :
  (ContextEnrichedRag.chunk_text (Sample.text "abc") 1000 1000
   = Raise ValueError
   /\ ChunkSizeSelector.chunk_text (Sample.text "abc") 1000 1000
      = Raise ValueError)
  /\ (ContextEnrichedRag.chunk_text (Sample.text "abc") 1000 1001 = Ok []
      /\ ChunkSizeSelector.chunk_text (Sample.text "abc") 1000 1001 = Ok []).
Proof.
  split.
  - apply (chunk_text_invalid_configuration (Sample.text "abc") 1000 1000).
    reflexivity.
  - apply (chunk_text_invalid_configuration (Sample.text "abc") 1000 1001).
    reflexivity.
Defined.

(** C3 as stated fails: size 1000 with overlap 1001 has [size - overlap < 1],
    and the call returns the empty chunk list instead of failing. *)
Lemma chunk_text_invalid_configuration_counterexample :
  1000 - 1001 < 1
  /\ ContextEnrichedRag.chunk_text (Sample.text "abc") 1000 1001 = Ok []
  /\ forall e,
       ContextEnrichedRag.chunk_text (Sample.text "abc") 1000 1001 <> Raise e.
Proof.
  split; [lia|]. split; [reflexivity|]. intros e H. discriminate H.
Qed.

(** ** Header-attaching ingestion *)

Lemma for_each_map {A B C : Type} (f : B -> result C) (g : A -> B)
    (l : list A) :
  for_each f (map g l) = for_each (fun x => f (g x)) l.
Proof.
  induction l as [|x l IH]; simpl; [reflexivity|].
  rewrite IH. reflexivity.
Qed.

Lemma for_each_all_ok {A B : Type} (f : A -> result B) (l : list A) :
  (forall x, In x l -> exists y, f x = Ok y) ->
  exists ys, for_each f l = Ok ys /\ Forall2 (fun x y => f x = Ok y) l ys.
Proof.
  induction l as [|x l IH]; intros H; simpl.
  - exists []. split; [reflexivity|constructor].
  - destruct (H x (or_introl eq_refl)) as [y Hy].
    destruct IH as (ys & Hys & HF); [intros z Hz; apply H; right; exact Hz|].
    exists (y :: ys). rewrite Hy, Hys. split; [reflexivity|].
    constructor; assumption.
Qed.

(** The chunk with its header, as the body of the loop builds it. *)
Lemma chunk_text_with_headers_unfold
    (client : OpenAI.chat_completions_create) (text : str) (n overlap : Z)
    (chunks : list str) :
  ChunkSizeSelector.chunk_text text n overlap = Ok chunks ->
  ContextualChunkHeaders.chunk_text_with_headers client text n overlap
  = for_each (fun chunk =>
                header <-
                  ContextualChunkHeaders.generate_chunk_header client chunk ;;
                Ok {| ContextualChunkHeaders.Chunk.header := header;
                      ContextualChunkHeaders.Chunk.text := chunk |})
             chunks.
Proof.
  rewrite chunk_text_same, chunk_text_unfold.
  unfold ContextualChunkHeaders.chunk_text_with_headers.
  destruct (Py.range 0 (Py.len text) (n - overlap)) as [starts|e];
    [|discriminate].
  cbn [bind]. intros H. injection H as <-.
  rewrite for_each_map. reflexivity.
Qed.

(** C8, as the code has it.  [chunk_text_with_headers] has no handler around
    [generate_chunk_header].  When the header generation raises for a chunk
    (the earlier chunks having got their headers), the exception leaves the
    loop and the ingestion aborts with it: no chunk is returned.  When the
    header generation succeeds for every chunk, the ingestion returns one
    entry per chunk of [chunk_text], in order, each with its generated
    header. *)
Theorem chunk_text_with_headers_propagates
    (client : OpenAI.chat_completions_create) (text : str) (n overlap : Z)
    (chunks : list str) :
  ChunkSizeSelector.chunk_text text n overlap = Ok chunks ->
  (forall before chunk after e,
      chunks = before ++ chunk :: after ->
      (forall c, In c before ->
         exists h, ContextualChunkHeaders.generate_chunk_header client c = Ok h) ->
      ContextualChunkHeaders.generate_chunk_header client chunk = Raise e ->
      ContextualChunkHeaders.chunk_text_with_headers client text n overlap
      = Raise e)
  /\ ((forall c, In c chunks ->
         exists h, ContextualChunkHeaders.generate_chunk_header client c = Ok h) ->
      exists entries,
        ContextualChunkHeaders.chunk_text_with_headers client text n overlap
        = Ok entries
        /\ map ContextualChunkHeaders.Chunk.text entries = chunks
        /\ Forall (fun entry =>
                     ContextualChunkHeaders.generate_chunk_header
                       client (ContextualChunkHeaders.Chunk.text entry)
                     = Ok (ContextualChunkHeaders.Chunk.header entry))
                  entries).
Proof.
  intros Hchunks.
  rewrite (chunk_text_with_headers_unfold client text n overlap chunks Hchunks).
  clear Hchunks. split.
  - intros before chunk after e -> Hbefore Hfail.
    apply for_each_raise.
    + intros c Hc. destruct (Hbefore c Hc) as [h Hh]. rewrite Hh.
      eexists. reflexivity.
    + rewrite Hfail. reflexivity.
  - intros Hall.
    destruct (for_each_all_ok
                (fun chunk =>
                   header <-
                     ContextualChunkHeaders.generate_chunk_header client chunk ;;
                   Ok {| ContextualChunkHeaders.Chunk.header := header;
                         ContextualChunkHeaders.Chunk.text := chunk |})
                chunks) as (entries & Hentries & HF).
    { intros c Hc. destruct (Hall c Hc) as [h Hh]. rewrite Hh.
      eexists. reflexivity. }
    exists entries. split; [exact Hentries|]. clear Hentries Hall.
    induction HF as [|c entry chunks entries Hc HF [IH1 IH2]].
    + split; [reflexivity|constructor].
    + destruct (ContextualChunkHeaders.generate_chunk_header client c)
        as [h|e] eqn:Hh; [|discriminate].
      cbn [bind] in Hc. injection Hc as <-. cbn [map].
      split; [f_equal; exact IH1|].
      constructor; [exact Hh|exact IH2].
Qed.

Lemma chunk_text_with_headers_propagates_witness :
  (forall before chunk after e,
      Sample.document_chunks = before ++ chunk :: after ->
      (forall c, In c before ->
         exists h,
           ContextualChunkHeaders.generate_chunk_header Sample.flaky_chat c
           = Ok h) ->
      ContextualChunkHeaders.generate_chunk_header Sample.flaky_chat chunk
      = Raise e ->
      ContextualChunkHeaders.chunk_text_with_headers
        Sample.flaky_chat Sample.document 2 0
      = Raise e)
  /\ ((forall c, In c Sample.document_chunks ->
         exists h,
           ContextualChunkHeaders.generate_chunk_header Sample.flaky_chat c
           = Ok h) ->
      exists entries,
        ContextualChunkHeaders.chunk_text_with_headers
          Sample.flaky_chat Sample.document 2 0
        = Ok entries
        /\ map ContextualChunkHeaders.Chunk.text entries
           = Sample.document_chunks
        /\ Forall (fun entry =>
                     ContextualChunkHeaders.generate_chunk_header
                       Sample.flaky_chat
                       (ContextualChunkHeaders.Chunk.text entry)
                     = Ok (ContextualChunkHeaders.Chunk.header entry))
                  entries).
Proof.
  apply (chunk_text_with_headers_propagates
           Sample.flaky_chat Sample.document 2 0 Sample.document_chunks).
  reflexivity.
Defined.

(** C8 as stated fails: the document has ten chunks, the header generation
    fails for the fourth only, and the ingestion returns no chunk list: it
    raises the exception of the failed request. *)
Lemma chunk_text_with_headers_counterexample :
  ChunkSizeSelector.chunk_text Sample.document 2 0
  = Ok Sample.document_chunks
  /\ length Sample.document_chunks = 10%nat
  /\ filter (fun c =>
               match ContextualChunkHeaders.generate_chunk_header
                       Sample.flaky_chat c with
               | Ok _ => false
               | Raise _ => true
               end)
            Sample.document_chunks
     = [Sample.text "dd"]
  /\ ContextualChunkHeaders.chunk_text_with_headers
       Sample.flaky_chat Sample.document 2 0
     = Raise (APIError "rate limit exceeded").
Proof. repeat split; reflexivity. Qed.

(** ** Ranking by similarity *)

Lemma slice_to {A : Type} (l : list A) (k : Z) :
  0 <= k -> Py.slice l None (Some k) = firstn (Z.to_nat (Z.min k (Py.len l))) l.
Proof.
  intros Hk. unfold Py.slice, Py.adjust_index.
  destruct (Z.ltb_spec k 0); [lia|].
  rewrite Z.sub_0_r. reflexivity.
Qed.

Lemma slice_from {A : Type} (l : list A) (i : Z) :
  Py.slice l (Some i) None
  = skipn (Z.to_nat (Py.adjust_index (Py.len l) i)) l.
Proof.
  unfold Py.slice. apply firstn_all2.
  rewrite length_skipn. unfold Py.len. lia.
Qed.

Lemma StronglySorted_map {A B : Type} (R : B -> B -> Prop) (f : A -> B)
    (l : list A) :
  StronglySorted (fun a b => R (f a) (f b)) l -> StronglySorted R (map f l).
Proof.
  induction 1 as [|x l Hs IH Hx]; simpl; constructor; [exact IH|].
  rewrite Forall_forall in *. intros y Hy. apply in_map_iff in Hy.
  destruct Hy as (z & <- & Hz). apply Hx. exact Hz.
Qed.

Lemma StronglySorted_skipn {A : Type} (R : A -> A -> Prop) (n : nat)
    (l : list A) :
  StronglySorted R l -> StronglySorted R (skipn n l).
Proof.
  intros H. rewrite <- (firstn_skipn n l) in H.
  apply StronglySorted_app_inv in H. tauto.
Qed.

(** The sort of the two retrieval functions: by the score, largest first. *)
Lemma ranking_sorted {A : Type} (candidates : list (A * float)) :
  Forall (fun c => is_nan (snd c) = false) candidates ->
  StronglySorted (fun a b => (snd b <=? snd a)%float = true)
                 (Py.list_sort PrimFloat.ltb snd true candidates).
Proof.
  intros Hnan.
  apply (StronglySorted_impl
           (fun a b => (snd a <? snd b)%float = false) _
           (fun c => is_nan (snd c) = false)).
  - intros a b Ha Hb Hlt. apply FloatOrder.ltb_false_leb; assumption.
  - rewrite Forall_forall in *. intros c Hc. apply Hnan.
    apply (Permutation_in _ (Permutation_sym (list_sort_perm _ _ _ _))) in Hc.
    exact Hc.
  - apply (list_sort_reverse_sorted PrimFloat.ltb snd Binary64.not_nan).
    + exact FloatOrder.ltb_asym.
    + exact FloatOrder.ltb_negtrans.
    + exact Hnan.
Qed.

Lemma ranking_stable {A : Type} (candidates : list (A * float)) (s : float) :
  filter (fun c => (snd c =? s)%float)
         (Py.list_sort PrimFloat.ltb snd true candidates)
  = filter (fun c => (snd c =? s)%float) candidates.
Proof.
  apply (list_sort_filter PrimFloat.ltb snd (fun x => (x =? s)%float)).
  intros a b Ha Hb. apply (FloatOrder.eqb_ltb b a s); assumption.
Qed.

(** The head of the ranking of [context_enriched_search] is a best match:
    no other candidate has a greater score. *)
Lemma ranked_indices_head_best {B : Np.Blas} (q : list float)
    (embeddings : list OpenAI.Embedding) (t : Z) (s : float)
    (rest : list (Z * float)) :
  Forall (fun e => is_nan (cosine q (OpenAI.embedding e)) = false)
         embeddings ->
  ranked_indices q embeddings = (t, s) :: rest ->
  Forall (fun c => (snd c <=? s)%float = true) rest.
Proof.
  intros Hnan Hrank.
  assert (Hs : StronglySorted (fun a b => (snd b <=? snd a)%float = true)
                              (ranked_indices q embeddings)).
  { apply ranking_sorted. unfold scored_indices.
    apply Forall_forall. intros c Hc. apply in_map_iff in Hc.
    destruct Hc as ([i e] & <- & Hin). apply enumerate_In in Hin.
    rewrite Forall_forall in Hnan. apply Hnan. tauto. }
  rewrite Hrank in Hs. apply StronglySorted_inv in Hs. tauto.
Qed.

(** ** Header-weighted retrieval *)

Lemma semantic_search_similarities {B : Np.Blas} (q : list float)
    (chunks : list ContextualChunkHeaders.Entry.t) :
  Forall (fun c =>
            length (ContextualChunkHeaders.Entry.embedding c) = length q
            /\ length (ContextualChunkHeaders.Entry.header_embedding c)
               = length q) chunks ->
  for_each (fun chunk =>
              sim_text <-
                ContextualChunkHeaders.cosine_similarity
                  q (ContextualChunkHeaders.Entry.embedding chunk) ;;
              sim_header <-
                ContextualChunkHeaders.cosine_similarity
                  q (ContextualChunkHeaders.Entry.header_embedding chunk) ;;
              let avg_similarity := ((sim_text + sim_header) / 2)%float in
              Ok (chunk, avg_similarity))
           chunks
  = Ok (map (fun c => (c, combined_score q c)) chunks).
Proof.
  intros Hdim. rewrite <- for_each_pure. apply for_each_ext.
  intros c Hc. rewrite Forall_forall in Hdim.
  destruct (Hdim c Hc) as [H1 H2].
  rewrite cosine_similarity_same_cch, !cosine_similarity_04 by congruence.
  reflexivity.
Qed.

(** C2, as the code has it.  Header-weighted retrieval.  For chunks whose
    text and header embeddings have the dimension of the query embedding and
    whose combined scores are numbers (no NaN), and for [k >= 1],
    [semantic_search] scores every
    chunk with the mean of its text similarity and its header similarity and
    returns [min(k, corpus size)] chunks: the head [result] of a
    rearrangement [result ++ rest] of the corpus that is sorted by
    non-increasing combined score.  When [k] is at least the corpus size,
    [rest] is empty: the whole corpus is returned, ranked, without error.
    This holds whichever routine sums the products of [np.dot]. *)
Theorem semantic_search_top_k {B : Np.Blas}
    (client : OpenAI.embeddings_create) (query : str)
    (chunks : list ContextualChunkHeaders.Entry.t) (k : Z) (q : list float) :
  ContextualChunkHeaders.create_embeddings client query = Ok q ->
  Forall (fun c =>
            length (ContextualChunkHeaders.Entry.embedding c) = length q
            /\ length (ContextualChunkHeaders.Entry.header_embedding c)
               = length q) chunks ->
  Forall (fun c => is_nan (combined_score q c) = false) chunks ->
  1 <= k ->
  exists result rest,
    ContextualChunkHeaders.semantic_search client query chunks k = Ok result
    /\ Py.len result = Z.min k (Py.len chunks)
    /\ Permutation (result ++ rest) chunks
    /\ StronglySorted
         (fun a b => (combined_score q b <=? combined_score q a)%float = true)
         (result ++ rest)
    /\ (Py.len chunks <= k -> rest = []).
Proof.
  intros Hq Hdim Hnan Hk.
  set (sims := map (fun c => (c, combined_score q c)) chunks).
  set (ranked := Py.list_sort PrimFloat.ltb snd true sims).
  assert (Hperm : Permutation sims ranked) by apply list_sort_perm.
  assert (Hlen : length ranked = length chunks).
  { rewrite <- (Permutation_length Hperm). apply length_map. }
  set (m := Z.to_nat (Z.min k (Py.len ranked))).
  exists (map fst (firstn m ranked)), (map fst (skipn m ranked)).
  split; [|split; [|split; [|split]]].
  - unfold ContextualChunkHeaders.semantic_search. rewrite Hq. cbn [bind].
    rewrite semantic_search_similarities by exact Hdim. cbn [bind].
    fold sims. fold ranked. rewrite slice_to by lia. reflexivity.
  - unfold Py.len in *. rewrite length_map, length_firstn. subst m. lia.
  - rewrite <- map_app, firstn_skipn.
    rewrite <- (Permutation_map fst Hperm). subst sims.
    rewrite map_map, map_id. reflexivity.
  - rewrite <- map_app, firstn_skipn.
    apply StronglySorted_map.
    apply (StronglySorted_impl
             (fun a b => (snd b <=? snd a)%float = true) _
             (fun a => snd a = combined_score q (fst a))).
    + intros a b Ha Hb H. rewrite <- Ha, <- Hb. exact H.
    + apply Forall_forall. intros a Ha.
      apply (Permutation_in _ (Permutation_sym Hperm)) in Ha.
      apply in_map_iff in Ha. destruct Ha as (c & <- & _). reflexivity.
    + apply ranking_sorted. subst sims. apply Forall_forall.
      intros a Ha. apply in_map_iff in Ha. destruct Ha as (c & <- & Hc).
      rewrite Forall_forall in Hnan. apply Hnan. exact Hc.
  - intros Hall. replace (skipn m ranked) with (@nil (ContextualChunkHeaders.Entry.t * float));
      [reflexivity|].
    symmetry. apply skipn_all2. unfold Py.len in *. subst m. lia.
Qed.

Lemma semantic_search_top_k_witness :
  exists result rest,
    ContextualChunkHeaders.semantic_search
      Sample.client Sample.query Sample.entries 5 = Ok result
    /\ Py.len result = Z.min 5 (Py.len Sample.entries)
    /\ Permutation (result ++ rest) Sample.entries
    /\ StronglySorted
         (fun a b =>
            (combined_score Sample.query_embedding b
             <=? combined_score Sample.query_embedding a)%float = true)
         (result ++ rest)
    /\ (Py.len Sample.entries <= 5 -> rest = []).
Proof.
  apply (semantic_search_top_k
           Sample.client Sample.query Sample.entries 5 Sample.query_embedding).
  - reflexivity.
  - repeat constructor.
  - repeat constructor.
  - lia.
Defined.

(** C2 as stated fails when a combined score is NaN.  The embedding of the
    text of the second of three chunks is the zero vector, and the combined
    scores are 0.0, NaN and 1.0.  No comparison [list.sort] makes with NaN
    is true: reversed, the list is one run, and it stays as it is.  The
    search returns the three chunks in the order of the corpus, the score
    1.0 behind the score 0.0, and for [k = 1] it returns the chunk of score
    0.0.  (The components are 0 and 1: every product and sum is exact.) *)
Lemma semantic_search_top_k_counterexample :
  map (combined_score Sample.query_embedding) Sample.entries_with_zero
  = [0; nan; 1]%float
  /\ ContextualChunkHeaders.semantic_search
       Sample.client Sample.query Sample.entries_with_zero 3
     = Ok Sample.entries_with_zero
  /\ ContextualChunkHeaders.semantic_search
       Sample.client Sample.query Sample.entries_with_zero 1
     = Ok (firstn 1 Sample.entries_with_zero)
  /\ (1 <=? 0)%float = false.
Proof. repeat split; vm_compute; reflexivity. Qed.

(** The scenario of the specification: two chunks and [k = 5] return both
    chunks, the better one first. *)
Example semantic_search_scenario :
  ContextualChunkHeaders.semantic_search
    Sample.client Sample.query Sample.entries 5
  = Ok (rev Sample.entries).
Proof. vm_compute. reflexivity. Qed.

(** ** The ranking of [retrieve_relevant_chunks] *)

Lemma np_lt_not_nan (a b : float) :
  is_nan b = false -> Np.lt a b = (a <? b)%float.
Proof.
  intros Hb. unfold Np.lt. rewrite Hb. apply orb_false_r.
Qed.

Lemma np_lt_asym (a b : float) : Np.lt a b = true -> Np.lt b a = false.
Proof.
  unfold Np.lt. intros H. apply orb_true_iff in H. destruct H as [H|H].
  - destruct (FloatOrder.ltb_true_not_nan _ _ H) as [Ha Hb].
    unfold Binary64.not_nan in *.
    rewrite (FloatOrder.ltb_asym _ _ H), Ha. reflexivity.
  - apply andb_true_iff in H. destruct H as [Hb Ha].
    apply negb_true_iff in Ha. rewrite Ha, andb_false_l, orb_false_r.
    destruct (b <? a)%float eqn:Hlt; [|reflexivity].
    destruct (FloatOrder.ltb_true_not_nan _ _ Hlt) as [Hb' _].
    unfold Binary64.not_nan in Hb'. congruence.
Qed.

Lemma np_lt_negtrans (a b c : float) :
  Binary64.not_nan a -> Binary64.not_nan b -> Binary64.not_nan c ->
  Np.lt a b = false -> Np.lt b c = false -> Np.lt a c = false.
Proof.
  intros Ha Hb Hc. rewrite !np_lt_not_nan by assumption.
  apply FloatOrder.ltb_negtrans; assumption.
Qed.

Lemma combine_seq_In {A : Type} (l : list A) (s : nat) (i : Z) (x : A) :
  In (i, x) (combine (map Z.of_nat (seq s (length l))) l) ->
  exists n, i = Z.of_nat (s + n) /\ nth_error l n = Some x.
Proof.
  revert s. induction l as [|z l IH]; intros s H; [destruct H|].
  cbn [length seq map combine] in H. destruct H as [H|H].
  - injection H as <- <-. exists 0%nat. split; [f_equal; lia|reflexivity].
  - destruct (IH (S s) H) as (n & -> & Hn).
    exists (S n). split; [f_equal; lia|exact Hn].
Qed.

Lemma enumerate_nth_error {A : Type} (l : list A) (i : Z) (x : A) :
  In (i, x) (Py.enumerate l) -> nth_error l (Z.to_nat i) = Some x.
Proof.
  intros H. apply combine_seq_In in H. destruct H as (n & -> & Hn).
  rewrite Nat.add_0_l, Nat2Z.id. exact Hn.
Qed.

Lemma argsort_sorted (similarities : list float) :
  Forall (fun x => is_nan x = false) similarities ->
  StronglySorted (fun a b => (snd a <=? snd b)%float = true)
                 (Py.sort_ascending Np.lt snd (Py.enumerate similarities)).
Proof.
  intros Hnan.
  assert (Hall : Forall (fun c : Z * float => is_nan (snd c) = false)
                        (Py.enumerate similarities)).
  { apply Forall_forall. intros [i x] Hin. apply enumerate_In in Hin.
    rewrite Forall_forall in Hnan. apply Hnan. tauto. }
  apply (StronglySorted_impl
           (fun a b => Np.lt (snd b) (snd a) = false) _
           (fun c => is_nan (snd c) = false)).
  - intros a b Ha Hb Hlt. rewrite np_lt_not_nan in Hlt by exact Ha.
    apply FloatOrder.ltb_false_leb; assumption.
  - rewrite Forall_forall in *. intros c Hc. apply Hall.
    apply (Permutation_in _ (Permutation_sym (sort_ascending_perm _ _ _))) in Hc.
    exact Hc.
  - apply (sort_ascending_sorted Np.lt snd Binary64.not_nan).
    + exact np_lt_asym.
    + exact np_lt_negtrans.
    + exact Hall.
Qed.

Lemma top_indices_sorted (similarities : list float) (k : Z) :
  Forall (fun x => is_nan x = false) similarities ->
  StronglySorted
    (fun i j => (score_at similarities j <=? score_at similarities i)%float
                = true)
    (top_indices similarities k).
Proof.
  intros Hnan. unfold top_indices, Np.argsort.
  rewrite slice_from.
  set (ranked := Py.sort_ascending Np.lt snd (Py.enumerate similarities)).
  set (m := Z.to_nat _).
  apply (StronglySorted_rev
           (fun i j => (score_at similarities i <=? score_at similarities j)%float
                       = true)).
  rewrite skipn_map. apply StronglySorted_map, StronglySorted_skipn.
  apply (StronglySorted_impl
           (fun a b => (snd a <=? snd b)%float = true) _
           (fun a => snd a = score_at similarities (fst a))).
  - intros a b Ha Hb H. rewrite <- Ha, <- Hb. exact H.
  - apply Forall_forall. intros [i x] Hin.
    apply (Permutation_in _ (Permutation_sym (sort_ascending_perm _ _ _))) in Hin.
    apply enumerate_nth_error in Hin. unfold score_at. cbn [fst snd].
    symmetry. apply nth_error_nth. exact Hin.
  - apply argsort_sorted. exact Hnan.
Qed.

Lemma retrieve_relevant_chunks_unfold {chunk : Type}
    (client : OpenAI.embeddings_create) (query : str)
    (text_chunks : list chunk) (chunk_embeddings : list (list float)) (k : Z) :
  ChunkSizeSelector.retrieve_relevant_chunks
    client query text_chunks chunk_embeddings k
  = (query_embeddings <- ChunkSizeSelector.create_embeddings client [query] ;;
     query_embedding <- Py.getitem query_embeddings 0 ;;
     similarities <-
       for_each (fun emb =>
                   ChunkSizeSelector.cosine_similarity query_embedding emb)
                chunk_embeddings ;;
     for_each (fun i => Py.getitem text_chunks i)
              (top_indices similarities k)).
Proof. reflexivity. Qed.

(** C4, as the code has it.  The sort of [context_enriched_search] and of
    [semantic_search] ([list.sort] by the score, reversed) returns, for
    scores that are numbers, a rearrangement of the candidates sorted by
    non-increasing score in which the candidates of equal score keep their
    candidate order.  The ranking of [retrieve_relevant_chunks] ([argsort],
    last [k], reversed) is sorted by non-increasing score as well; it does
    not keep the candidate order among equal scores. *)
Theorem ranking_sorted_stable {A : Type} (candidates : list (A * float))
    (similarities : list float) (k : Z) :
  Forall (fun c => is_nan (snd c) = false) candidates ->
  Forall (fun x => is_nan x = false) similarities ->
  (let ranked := Py.list_sort PrimFloat.ltb snd true candidates in
   Permutation candidates ranked
   /\ StronglySorted (fun a b => (snd b <=? snd a)%float = true) ranked
   /\ forall s, filter (fun c => (snd c =? s)%float) ranked
                = filter (fun c => (snd c =? s)%float) candidates)
  /\ StronglySorted
       (fun i j => (score_at similarities j <=? score_at similarities i)%float
                   = true)
       (top_indices similarities k).
Proof.
  intros Hc Hs. split; [cbv zeta; split; [|split]|].
  - apply list_sort_perm.
  - apply ranking_sorted. exact Hc.
  - intros s. apply ranking_stable.
  - apply top_indices_sorted. exact Hs.
Qed.

Lemma ranking_sorted_stable_witness :
  (let ranked :=
     Py.list_sort PrimFloat.ltb snd true
                  (scored_indices Sample.query_embedding Sample.embeddings) in
   Permutation (scored_indices Sample.query_embedding Sample.embeddings) ranked
   /\ StronglySorted (fun a b => (snd b <=? snd a)%float = true) ranked
   /\ forall s, filter (fun c => (snd c =? s)%float) ranked
                = filter (fun c => (snd c =? s)%float)
                         (scored_indices Sample.query_embedding
                                         Sample.embeddings))
  /\ StronglySorted
       (fun i j => (score_at [1; 0.5; 1]%float j
                    <=? score_at [1; 0.5; 1]%float i)%float = true)
       (top_indices [1; 0.5; 1]%float 2).
Proof.
  apply (ranking_sorted_stable
           (scored_indices Sample.query_embedding Sample.embeddings)
           [1; 0.5; 1]%float 2).
  - repeat constructor.
  - repeat constructor.
Defined.

(** C4 as stated fails for [retrieve_relevant_chunks]: two candidates with
    the same embedding have the same score, and the second is returned
    before the first. *)
Lemma ranking_stable_counterexample :
  ChunkSizeSelector.cosine_similarity Sample.query_embedding [1; 0]%float
  = Ok 1%float
  /\ top_indices [1; 1]%float 2 = [1; 0]
  /\ ChunkSizeSelector.retrieve_relevant_chunks
       Sample.client Sample.query
       [Sample.text "c0"; Sample.text "c1"]
       [[1; 0]; [1; 0]]%float 2
     = Ok [Sample.text "c1"; Sample.text "c0"].
Proof. repeat split; vm_compute; reflexivity. Qed.

(** ** Neighbor-window retrieval: the chunk at the centre of the window *)

Lemma window_general {A : Type} (l : list A) (lo hi : Z) :
  0 <= lo -> hi <= Py.len l ->
  (indices <- Py.range lo hi 1 ;;
   for_each (fun i => Py.getitem l i) indices)
  = Ok (firstn (Z.to_nat (hi - lo)) (skipn (Z.to_nat lo) l)).
Proof.
  intros Hlo Hhi. rewrite range_step_1. cbn [bind].
  destruct (Z.le_gt_cases hi lo) as [Hle|Hgt].
  - replace (Z.to_nat (hi - lo)) with 0%nat by lia. reflexivity.
  - rewrite (map_ext _ (fun k => Z.of_nat (Z.to_nat lo) + Z.of_nat k))
      by (intros; lia).
    apply for_each_getitem_window. unfold Py.len in *. lia.
Qed.

(** The result of the search in terms of the head of the ranking, for any
    list of chunks and any context size. *)
Lemma context_enriched_search_general {B : Np.Blas} {chunk : Type}
    (client : OpenAI.embeddings_create) (query : str)
    (text_chunks : list chunk) (embeddings : list OpenAI.Embedding)
    (k context_size : Z)
    (response : OpenAI.CreateEmbeddingResponse) (first : OpenAI.Embedding) :
  client (OpenAI.Text query) = Ok response ->
  Py.getitem (OpenAI.data response) 0 = Ok first ->
  Forall (fun e => length (OpenAI.embedding e)
                   = length (OpenAI.embedding first)) embeddings ->
  embeddings <> [] ->
  exists t s rest,
    ranked_indices (OpenAI.embedding first) embeddings = (t, s) :: rest
    /\ 0 <= t < Py.len embeddings
    /\ ContextEnrichedRag.context_enriched_search
         client query text_chunks embeddings k context_size
       = Ok (firstn (Z.to_nat (Z.min (Py.len text_chunks)
                                     (t + context_size + 1)
                               - Z.max 0 (t - context_size)))
                    (skipn (Z.to_nat (Z.max 0 (t - context_size)))
                           text_chunks)).
Proof.
  intros Hclient Hfirst Hdim Hne.
  destruct (ranked_indices (OpenAI.embedding first) embeddings)
    as [|[t s] rest] eqn:Hrank.
  { pose proof (ranked_indices_perm (OpenAI.embedding first) embeddings) as P.
    rewrite Hrank in P. apply Permutation_length in P.
    unfold scored_indices in P. rewrite length_map, enumerate_length in P.
    destruct embeddings; [congruence|discriminate]. }
  exists t, s, rest. split; [reflexivity|]. split.
  - apply (ranked_indices_bounds (OpenAI.embedding first) embeddings t s).
    rewrite Hrank. left. reflexivity.
  - unfold ContextEnrichedRag.context_enriched_search,
      ContextEnrichedRag.create_embeddings.
    rewrite Hclient. cbn [bind]. rewrite Hfirst. cbn [bind].
    rewrite similarity_scores_ok by exact Hdim. cbn [bind].
    fold (ranked_indices (OpenAI.embedding first) embeddings).
    rewrite Hrank.
    rewrite (getitem_nth _ 0 (t, s)) by (try lia; reflexivity).
    cbn [bind fst]. apply window_general; lia.
Qed.

Lemma StronglySorted_filter {A : Type} (R : A -> A -> Prop) (p : A -> bool)
    (l : list A) :
  StronglySorted R l -> StronglySorted R (filter p l).
Proof.
  induction 1 as [|x l Hs IH Hx]; simpl; [constructor|].
  destruct (p x); [|exact IH].
  constructor; [exact IH|].
  rewrite Forall_forall in *. intros y Hy. apply filter_In in Hy.
  apply Hx. tauto.
Qed.

Lemma combine_seq_increasing {A : Type} (l : list A) (s : nat) :
  StronglySorted (fun a b : Z * A => fst a < fst b)
                 (combine (map Z.of_nat (seq s (length l))) l).
Proof.
  revert s. induction l as [|x l IH]; intros s; [constructor|].
  cbn [length seq map combine]. constructor; [apply IH|].
  apply Forall_forall. intros [i y] Hin.
  apply combine_seq_In in Hin. destruct Hin as (n & -> & _).
  cbn [fst]. lia.
Qed.

Lemma scored_indices_increasing {B : Np.Blas} (q : list float)
    (embeddings : list OpenAI.Embedding) :
  StronglySorted (fun a b : Z * float => fst a < fst b)
                 (scored_indices q embeddings).
Proof.
  unfold scored_indices, Py.enumerate.
  apply StronglySorted_map.
  apply (StronglySorted_impl
           (fun a b : Z * OpenAI.Embedding => fst a < fst b) _
           (fun _ => True)).
  - intros [i e] [j e'] _ _ H. exact H.
  - apply Forall_forall. intros; exact I.
  - apply combine_seq_increasing.
Qed.

Lemma scored_indices_In {B : Np.Blas} (q : list float)
    (embeddings : list OpenAI.Embedding)
    (i : Z) (x : float) :
  In (i, x) (scored_indices q embeddings) <->
  exists e, nth_error embeddings (Z.to_nat i) = Some e
            /\ 0 <= i /\ x = cosine q (OpenAI.embedding e).
Proof.
  unfold scored_indices. rewrite in_map_iff. split.
  - intros ([j e] & Heq & Hin). injection Heq as <- <-.
    exists e. pose proof (enumerate_In _ _ _ Hin).
    apply enumerate_nth_error in Hin. repeat split; [exact Hin|lia].
  - intros (e & He & Hi & ->). exists (i, e). split; [reflexivity|].
    unfold Py.enumerate.
    assert (Hlt : (Z.to_nat i < length embeddings)%nat)
      by (apply nth_error_Some; congruence).
    replace (i, e)
      with (nth (Z.to_nat i)
                (combine (map Z.of_nat (seq 0 (length embeddings))) embeddings)
                (0, e)).
    + apply nth_In. rewrite length_combine, length_map, length_seq. lia.
    + rewrite combine_nth by (rewrite length_map, length_seq; reflexivity).
      rewrite (map_nth Z.of_nat _ 0%nat), seq_nth by exact Hlt.
      rewrite (nth_error_nth _ _ _ He). f_equal. lia.
Qed.

(** On similarities that are numbers, the index at the head of the ranking
    is the earliest index of greatest similarity. *)
Lemma ranked_indices_head_top {B : Np.Blas} (q : list float)
    (embeddings : list OpenAI.Embedding) (t : Z) (s : float)
    (rest : list (Z * float)) :
  Forall (fun e => is_nan (cosine q (OpenAI.embedding e)) = false)
         embeddings ->
  ranked_indices q embeddings = (t, s) :: rest ->
  exists top,
    nth_error embeddings (Z.to_nat t) = Some top
    /\ 0 <= t
    /\ forall (i : nat) (e : OpenAI.Embedding),
         nth_error embeddings i = Some e ->
         (cosine q (OpenAI.embedding e)
          <=? cosine q (OpenAI.embedding top))%float = true
         /\ ((cosine q (OpenAI.embedding e)
              =? cosine q (OpenAI.embedding top))%float = true ->
             t <= Z.of_nat i).
Proof.
  intros Hnan Hrank.
  assert (Hin : In (t, s) (scored_indices q embeddings)).
  { apply (Permutation_in _ (Permutation_sym (ranked_indices_perm q embeddings))).
    rewrite Hrank. left. reflexivity. }
  apply scored_indices_In in Hin. destruct Hin as (top & Htop & Ht0 & Hs).
  assert (Hsnan : is_nan s = false).
  { rewrite Hs. rewrite Forall_forall in Hnan. apply Hnan.
    apply (nth_error_In _ _ Htop). }
  exists top. split; [exact Htop|]. split; [exact Ht0|].
  rewrite <- Hs. intros i e He.
  assert (Hie : In (Z.of_nat i, cosine q (OpenAI.embedding e))
                   (scored_indices q embeddings)).
  { apply scored_indices_In. exists e. rewrite Nat2Z.id.
    repeat split; [exact He|lia]. }
  split.
  - apply (Permutation_in _ (ranked_indices_perm q embeddings)) in Hie.
    rewrite Hrank in Hie. destruct Hie as [Heq|Hie].
    + injection Heq as _ <-. apply FloatOrder.ltb_false_leb; try exact Hsnan.
      destruct (s <? s)%float eqn:Hlt; [|reflexivity].
      rewrite (FloatOrder.ltb_asym _ _ Hlt) in Hlt. discriminate.
    + pose proof (ranked_indices_head_best q embeddings t s rest Hnan Hrank)
        as Hbest.
      rewrite Forall_forall in Hbest. apply (Hbest _ Hie).
  - intros Heq.
    pose proof (ranking_stable (scored_indices q embeddings) s) as Hstable.
    fold (ranked_indices q embeddings) in Hstable. rewrite Hrank in Hstable.
    cbn [filter snd] in Hstable.
    assert (Hss : (s =? s)%float = true).
    { unfold is_nan in Hsnan. apply negb_false_iff in Hsnan. exact Hsnan. }
    rewrite Hss in Hstable.
    pose proof (StronglySorted_filter _ (fun c : Z * float => (snd c =? s)%float) _
                  (scored_indices_increasing q embeddings)) as Hsorted.
    rewrite <- Hstable in Hsorted.
    apply StronglySorted_inv in Hsorted. destruct Hsorted as [_ Hall].
    assert (Hfi : In (Z.of_nat i, cosine q (OpenAI.embedding e))
                     (filter (fun c : Z * float => (snd c =? s)%float)
                             (scored_indices q embeddings))).
    { apply filter_In. split; [exact Hie|exact Heq]. }
    rewrite <- Hstable in Hfi. destruct Hfi as [Hhead|Htail].
    + injection Hhead as -> _. lia.
    + rewrite Forall_forall in Hall. apply Hall in Htail.
      cbn [fst] in Htail. lia.
Qed.

(** The search on similarities that are numbers: the window is cut around
    the earliest index of greatest similarity. *)
Lemma context_enriched_search_top {B : Np.Blas} {chunk : Type}
    (client : OpenAI.embeddings_create) (query : str)
    (text_chunks : list chunk) (embeddings : list OpenAI.Embedding)
    (k context_size : Z)
    (response : OpenAI.CreateEmbeddingResponse) (first : OpenAI.Embedding) :
  client (OpenAI.Text query) = Ok response ->
  Py.getitem (OpenAI.data response) 0 = Ok first ->
  Forall (fun e => length (OpenAI.embedding e)
                   = length (OpenAI.embedding first)) embeddings ->
  Forall (fun e => is_nan (cosine (OpenAI.embedding first)
                                  (OpenAI.embedding e)) = false)
         embeddings ->
  embeddings <> [] ->
  exists (t : Z) (top : OpenAI.Embedding),
    nth_error embeddings (Z.to_nat t) = Some top
    /\ 0 <= t < Py.len embeddings
    /\ (forall (i : nat) (e : OpenAI.Embedding),
          nth_error embeddings i = Some e ->
          (cosine (OpenAI.embedding first) (OpenAI.embedding e)
           <=? cosine (OpenAI.embedding first) (OpenAI.embedding top))%float
          = true
          /\ ((cosine (OpenAI.embedding first) (OpenAI.embedding e)
               =? cosine (OpenAI.embedding first)
                         (OpenAI.embedding top))%float = true ->
              t <= Z.of_nat i))
    /\ ContextEnrichedRag.context_enriched_search
         client query text_chunks embeddings k context_size
       = Ok (firstn (Z.to_nat (Z.min (Py.len text_chunks)
                                     (t + context_size + 1)
                               - Z.max 0 (t - context_size)))
                    (skipn (Z.to_nat (Z.max 0 (t - context_size)))
                           text_chunks)).
Proof.
  intros Hclient Hfirst Hdim Hnan Hne.
  destruct (context_enriched_search_general
              client query text_chunks embeddings k context_size
              response first Hclient Hfirst Hdim Hne)
    as (t & s & rest & Hrank & Ht & Hres).
  destruct (ranked_indices_head_top _ _ _ _ _ Hnan Hrank)
    as (top & Htop & _ & Hbest).
  exists t, top.
  split; [exact Htop|]. split; [exact Ht|]. split; [exact Hbest|exact Hres].
Qed.

(** C1, as the code has it.  Neighbor-window retrieval.  For a non-empty
    corpus with one embedding per chunk, all of the dimension of the query
    embedding, similarities to the query that are numbers (no NaN) and a
    context radius that is not negative, [context_enriched_search] returns
    the chunks at the positions [max(0, t - radius)] to
    [min(len(corpus) - 1, t + radius)], both included, in document order,
    where [t] is the top-ranked index: the index of greatest similarity to
    the query, the earliest one among equal similarities.  Every returned
    position lies in [0, len(corpus)).  This holds whichever routine sums
    the products of [np.dot]. *)
Theorem context_enriched_search_window {B : Np.Blas} {chunk : Type}
    (client : OpenAI.embeddings_create) (query : str)
    (text_chunks : list chunk) (embeddings : list OpenAI.Embedding)
    (k context_size : Z)
    (response : OpenAI.CreateEmbeddingResponse) (first : OpenAI.Embedding) :
  client (OpenAI.Text query) = Ok response ->
  Py.getitem (OpenAI.data response) 0 = Ok first ->
  Forall (fun e => length (OpenAI.embedding e)
                   = length (OpenAI.embedding first)) embeddings ->
  Forall (fun e => is_nan (cosine (OpenAI.embedding first)
                                  (OpenAI.embedding e)) = false)
         embeddings ->
  text_chunks <> [] ->
  length embeddings = length text_chunks ->
  0 <= context_size ->
  exists (t : Z) (top : OpenAI.Embedding) (window : list chunk),
    nth_error embeddings (Z.to_nat t) = Some top
    /\ (forall (i : nat) (e : OpenAI.Embedding),
          nth_error embeddings i = Some e ->
          (cosine (OpenAI.embedding first) (OpenAI.embedding e)
           <=? cosine (OpenAI.embedding first) (OpenAI.embedding top))%float
          = true
          /\ ((cosine (OpenAI.embedding first) (OpenAI.embedding e)
               =? cosine (OpenAI.embedding first)
                         (OpenAI.embedding top))%float = true ->
              t <= Z.of_nat i))
    /\ ContextEnrichedRag.context_enriched_search
         client query text_chunks embeddings k context_size = Ok window
    /\ let lo := Z.max 0 (t - context_size) in
       let hi := Z.min (Py.len text_chunks - 1) (t + context_size) in
       0 <= lo <= t /\ t <= hi < Py.len text_chunks
       /\ Py.len window = hi - lo + 1
       /\ forall j, lo <= j <= hi ->
            nth_error window (Z.to_nat (j - lo))
            = nth_error text_chunks (Z.to_nat j).
Proof.
  intros Hclient Hfirst Hdim Hnan Hne Hlen Hc.
  destruct (context_enriched_search_top
              client query text_chunks embeddings k context_size
              response first Hclient Hfirst Hdim Hnan)
    as (t & top & Htop & Ht & Hbest & Hres).
  { intros ->. destruct text_chunks; [congruence|discriminate]. }
  exists t, top. eexists.
  split; [exact Htop|]. split; [exact Hbest|]. split; [exact Hres|].
  cbv zeta. unfold Py.len in *.
  repeat split; try lia.
  - rewrite length_firstn, length_skipn. lia.
  - intros j Hj. rewrite nth_error_firstn, nth_error_skipn.
    destruct (Nat.ltb_spec (Z.to_nat (j - Z.max 0 (t - context_size)))
                (Z.to_nat (Z.min (Z.of_nat (length text_chunks))
                                 (t + context_size + 1)
                           - Z.max 0 (t - context_size)))); [|lia].
    f_equal. lia.
Qed.

Lemma context_enriched_search_window_witness :
  exists (t : Z) (top : OpenAI.Embedding) (window : list str),
    nth_error Sample.embeddings (Z.to_nat t) = Some top
    /\ (forall (i : nat) (e : OpenAI.Embedding),
          nth_error Sample.embeddings i = Some e ->
          (cosine Sample.query_embedding (OpenAI.embedding e)
           <=? cosine Sample.query_embedding (OpenAI.embedding top))%float
          = true
          /\ ((cosine Sample.query_embedding (OpenAI.embedding e)
               =? cosine Sample.query_embedding
                         (OpenAI.embedding top))%float = true ->
              t <= Z.of_nat i))
    /\ ContextEnrichedRag.context_enriched_search
         Sample.client Sample.query Sample.corpus Sample.embeddings 1 1
       = Ok window
    /\ let lo := Z.max 0 (t - 1) in
       let hi := Z.min (Py.len Sample.corpus - 1) (t + 1) in
       0 <= lo <= t /\ t <= hi < Py.len Sample.corpus
       /\ Py.len window = hi - lo + 1
       /\ forall j, lo <= j <= hi ->
            nth_error window (Z.to_nat (j - lo))
            = nth_error Sample.corpus (Z.to_nat j).
Proof.
  apply (context_enriched_search_window
           Sample.client Sample.query Sample.corpus Sample.embeddings 1 1
           {| OpenAI.data := [ {| OpenAI.embedding := Sample.query_embedding |} ] |}
           {| OpenAI.embedding := Sample.query_embedding |}).
  - reflexivity.
  - reflexivity.
  - repeat constructor.
  - repeat constructor.
  - discriminate.
  - reflexivity.
  - lia.
Defined.

(** C1 as stated fails when a similarity is NaN.  The second of three
    embeddings is the zero vector, and the similarities are 0.0, NaN and
    1.0.  No comparison [list.sort] makes with NaN is true: reversed, the
    list is one run, and it stays as it is.  The index taken as the top one
    is 0, and with the radius 0 the search returns the chunk 0, of
    similarity 0.0, although the chunk 2 has the similarity 1.0.  (The
    components are 0 and 1: every product and sum is exact.) *)
Lemma context_enriched_search_window_counterexample :
  map (fun e => cosine Sample.query_embedding (OpenAI.embedding e))
      Sample.embeddings_with_zero
  = [0; nan; 1]%float
  /\ ranked_indices Sample.query_embedding Sample.embeddings_with_zero
     = scored_indices Sample.query_embedding Sample.embeddings_with_zero
  /\ ContextEnrichedRag.context_enriched_search
       Sample.client Sample.query
       [Sample.text "c0"; Sample.text "c1"; Sample.text "c2"]
       Sample.embeddings_with_zero 1 0
     = Ok [Sample.text "c0"]
  /\ (0 <? 1)%float = true.
Proof. repeat split; vm_compute; reflexivity. Qed.

(** ** Cosine similarity: degenerate vectors and identities *)

Lemma cosine_similarity_symmetric (vec1 vec2 : list float) :
  ContextEnrichedRag.cosine_similarity vec1 vec2
  = ContextEnrichedRag.cosine_similarity vec2 vec1.
Proof.
  unfold ContextEnrichedRag.cosine_similarity, Np.dot.
  rewrite (Nat.eqb_sym (length vec2)).
  destruct (Nat.eqb (length vec1) (length vec2)); [|reflexivity].
  cbn [bind]. unfold Np.ddot, Np.in_order.
  rewrite (FloatArith.inner_comm vec1 vec2).
  rewrite (FloatArith.mul_comm (Np.linalg_norm vec1)). reflexivity.
Qed.

Lemma linalg_norm_zero_vector (v : list float) :
  forallb is_zero v = true -> Binary64.zero_or_nan (Np.linalg_norm v).
Proof.
  intros H. apply FloatArith.zn_sqrt, FloatArith.inner_zero_l, H.
Qed.

Lemma linalg_norm_opp (v : list float) :
  Np.linalg_norm (map opp v) = Np.linalg_norm v.
Proof.
  unfold Np.linalg_norm, Np.ddot, Np.in_order, Np.inner.
  rewrite FloatArith.fold_inner_opp_opp. reflexivity.
Qed.

(** C6, as the code has it.  [cosine_similarity] has no policy for degenerate
    vectors.  On two vectors of one length of which one has the norm zero it
    raises nothing and returns the raw result of the division by the zero
    product of the norms: a value that is not finite, and NaN when one of
    the vectors is a zero vector. *)
Theorem cosine_similarity_zero_norm (vec1 vec2 : list float) :
  length vec1 = length vec2 ->
  is_zero (Np.linalg_norm vec1) = true
  \/ is_zero (Np.linalg_norm vec2) = true ->
  exists r,
    ContextEnrichedRag.cosine_similarity vec1 vec2 = Ok r
    /\ ChunkSizeSelector.cosine_similarity vec1 vec2 = Ok r
    /\ is_finite r = false
    /\ (forallb is_zero vec1 = true \/ forallb is_zero vec2 = true ->
        r = nan).
Proof.
  intros Hlen Hzero. exists (cosine vec1 vec2).
  rewrite cosine_similarity_same_03, cosine_similarity_04 by exact Hlen.
  split; [reflexivity|]. split; [reflexivity|].
  assert (Hden : Binary64.zero_or_nan
                   (Np.linalg_norm vec1 * Np.linalg_norm vec2)%float).
  { destruct Hzero as [H|H].
    - apply FloatArith.zn_mul_l, FloatArith.is_zero_zn, H.
    - apply FloatArith.zn_mul_r, FloatArith.is_zero_zn, H. }
  split.
  - apply FloatArith.zn_div_not_finite. exact Hden.
  - intros Hvec. apply FloatArith.zn_div; [|exact Hden].
    destruct Hvec as [H|H].
    + apply FloatArith.inner_zero_l, H.
    + rewrite FloatArith.inner_comm. apply FloatArith.inner_zero_l, H.
Qed.

Lemma cosine_similarity_zero_norm_witness :
  exists r,
    ContextEnrichedRag.cosine_similarity [0; 0]%float [1; 0]%float = Ok r
    /\ ChunkSizeSelector.cosine_similarity [0; 0]%float [1; 0]%float = Ok r
    /\ is_finite r = false
    /\ (forallb is_zero [0; 0]%float = true
        \/ forallb is_zero [1; 0]%float = true ->
        r = nan).
Proof.
  apply (cosine_similarity_zero_norm [0; 0]%float [1; 0]%float).
  - reflexivity.
  - left. reflexivity.
Defined.

(** C6 as stated fails: on the zero vector and [[1, 0]] the call neither
    raises nor returns a sentinel such as 0: it returns NaN, the result of
    dividing zero by zero. *)
Lemma cosine_similarity_zero_norm_counterexample :
  ContextEnrichedRag.cosine_similarity [0; 0]%float [1; 0]%float = Ok nan
  /\ (0 / 0 = nan)%float
  /\ (nan =? 0)%float = false.
Proof. repeat split; vm_compute; reflexivity. Qed.

(** The similarity of a vector with its opposite is the opposite of its
    similarity with itself. *)
Lemma cosine_opp_r (v : list float) :
  cosine v (map opp v) = (- cosine v v)%float.
Proof.
  unfold cosine. rewrite linalg_norm_opp.
  unfold Np.linalg_norm, Np.ddot, Np.in_order.
  destruct (FloatArith.fold_inner_mirrored v 0 0 I
              (or_intror (conj eq_refl eq_refl))) as [Hm|[Hz' Hz]];
    fold (Np.inner v v) in *; fold (Np.inner v (map opp v)) in *.
  - rewrite <- opp_spec in Hm. apply Prim2SF_inj in Hm. rewrite Hm.
    apply FloatArith.div_opp_l.
  - assert (Hs : Binary64.zero_or_nan (Np.inner v v))
      by (unfold Binary64.zero_or_nan; rewrite Hz; exact I).
    assert (Hs' : Binary64.zero_or_nan (Np.inner v (map opp v)))
      by (unfold Binary64.zero_or_nan; rewrite Hz'; exact I).
    assert (Hd : Binary64.zero_or_nan
                   (sqrt (Np.inner v v) * sqrt (Np.inner v v))%float)
      by (apply FloatArith.zn_mul_l, FloatArith.zn_sqrt, Hs).
    rewrite (FloatArith.zn_div _ _ Hs' Hd), (FloatArith.zn_div _ _ Hs Hd).
    reflexivity.
Qed.

(** C9, as the code has it.  [cosine_similarity] is symmetric: on every pair
    of vectors the two calls return the same value, or raise the same
    exception.  For every vector [v], the similarity of [v] with [-v] is
    the opposite of the similarity of [v] with itself.  The values [1.0] and
    [-1.0] are not guaranteed: see the counterexample. *)
Theorem cosine_similarity_identities (a b v : list float) :
  ContextEnrichedRag.cosine_similarity a b
  = ContextEnrichedRag.cosine_similarity b a
  /\ exists c : float,
       ContextEnrichedRag.cosine_similarity v v = Ok c
       /\ ContextEnrichedRag.cosine_similarity v (map opp v) = Ok (- c)%float.
Proof.
  split; [apply cosine_similarity_symmetric|].
  exists (cosine v v).
  rewrite !cosine_similarity_04 by (try reflexivity; symmetry; apply length_map).
  split; [reflexivity|]. f_equal. apply cosine_opp_r.
Qed.

(** On [[3, 4]] every product, sum and square root is exact, and the two
    identities hold. *)
Example cosine_similarity_exact :
  ContextEnrichedRag.cosine_similarity [3; 4]%float [3; 4]%float = Ok 1%float
  /\ ContextEnrichedRag.cosine_similarity [3; 4]%float [-3; -4]%float
     = Ok (-1)%float.
Proof. split; vm_compute; reflexivity. Qed.

(** C9 as stated fails.  [[1, 1]] is not the zero vector, its sum of squares
    is 2, the rounded square root of 2 times itself is above 2, and the
    similarity of the vector with itself is the float below [1.0], with its
    opposite the float above [-1.0].  On [[2^600, 0]] the sum of squares
    overflows to infinity, on [[2^-600, 0]] it underflows to zero, and the
    similarity of either vector with itself is NaN. *)
Lemma cosine_similarity_identities_counterexample :
  ContextEnrichedRag.cosine_similarity [1; 1]%float [1; 1]%float
  = Ok 0x1.ffffffffffffep-1%float
  /\ (0x1.ffffffffffffep-1 =? 1)%float = false
  /\ ContextEnrichedRag.cosine_similarity [1; 1]%float [-1; -1]%float
     = Ok (-0x1.ffffffffffffep-1)%float
  /\ (-0x1.ffffffffffffep-1 =? -1)%float = false
  /\ ContextEnrichedRag.cosine_similarity [0x1p600; 0]%float [0x1p600; 0]%float
     = Ok nan
  /\ ContextEnrichedRag.cosine_similarity
       [0x1p-600; 0]%float [0x1p-600; 0]%float
     = Ok nan.
Proof. repeat split; vm_compute; reflexivity. Qed.

(** * Further properties of the notebooks' functions *)

(** ** The chunks of [chunk_text] *)

(** With a positive step the loop runs over the offsets [c * step] below the
    length of the text. *)
Lemma chunk_text_closed_form (text : str) (n overlap : Z) :
  0 < n - overlap ->
  ContextEnrichedRag.chunk_text text n overlap
  = Ok (map (fun c => Py.slice text (Some (Z.of_nat c * (n - overlap)))
                               (Some (Z.of_nat c * (n - overlap) + n)))
            (seq 0 (Z.to_nat ((Py.len text + (n - overlap) - 1)
                              / (n - overlap))))).
Proof.
  intros Hstep. rewrite chunk_text_unfold, range_forward by exact Hstep.
  cbn [bind]. rewrite map_map. do 3 f_equal.
  pose proof (len_nonneg text) as Hlen.
  destruct (Z.ltb_spec 0 (Py.len text)).
  - replace (Py.len text + (n - overlap) - 1)
      with (Py.len text - 1 + 1 * (n - overlap)) by lia.
    rewrite Z.div_add by lia. reflexivity.
  - replace (Py.len text) with 0 by lia.
    rewrite Z.div_small by lia. reflexivity.
Qed.

Lemma nth_error_chunk (text : str) (n overlap : Z) (count c : nat) (chunk : str) :
  nth_error
    (map (fun c => Py.slice text (Some (Z.of_nat c * (n - overlap)))
                            (Some (Z.of_nat c * (n - overlap) + n)))
         (seq 0 count)) c = Some chunk ->
  (c < count)%nat
  /\ chunk = Py.slice text (Some (Z.of_nat c * (n - overlap)))
                      (Some (Z.of_nat c * (n - overlap) + n)).
Proof.
  rewrite nth_error_map, nth_error_seq.
  destruct (Nat.ltb_spec c count) as [Hlt|Hge]; [|discriminate].
  cbn. intros Heq. injection Heq as <-. split; [assumption|reflexivity].
Qed.

(** An offset the loop reaches lies inside the text. *)
Lemma chunk_offset_inside (len step : Z) (c : nat) :
  0 < step -> 0 <= len ->
  (c < Z.to_nat ((len + step - 1) / step))%nat ->
  0 <= Z.of_nat c * step < len.
Proof.
  intros Hstep Hlen Hc.
  assert (Hq : Z.of_nat c < (len + step - 1) / step) by lia.
  pose proof (Z.mul_div_le (len + step - 1) step Hstep).
  assert (Z.of_nat c + 1 <= (len + step - 1) / step) by lia.
  nia.
Qed.

(** The number of chunks: the length of the text divided by the step,
    rounded up; an empty text has no chunk. *)
Theorem chunk_text_count (text : str) (n overlap : Z) :
  0 < n - overlap ->
  exists chunks,
    ContextEnrichedRag.chunk_text text n overlap = Ok chunks
    /\ ChunkSizeSelector.chunk_text text n overlap = Ok chunks
    /\ Py.len chunks = (Py.len text + (n - overlap) - 1) / (n - overlap)
    /\ (text = [] -> chunks = []).
Proof.
  intros Hstep. rewrite chunk_text_same, chunk_text_closed_form by exact Hstep.
  eexists. split; [reflexivity|]. split; [reflexivity|]. split.
  - unfold Py.len at 1. rewrite length_map, length_seq.
    apply Z2Nat.id. apply Z.div_pos; [|lia].
    pose proof (len_nonneg text). lia.
  - intros ->. cbn [Py.len length Z.of_nat].
    rewrite Z.div_small by lia. reflexivity.
Qed.

Lemma chunk_text_count_witness :
  exists chunks,
    ContextEnrichedRag.chunk_text (Sample.text "abcdefghij") 4 1 = Ok chunks
    /\ ChunkSizeSelector.chunk_text (Sample.text "abcdefghij") 4 1 = Ok chunks
    /\ Py.len chunks = (Py.len (Sample.text "abcdefghij") + (4 - 1) - 1) / (4 - 1)
    /\ (Sample.text "abcdefghij" = [] -> chunks = []).
Proof.
  apply (chunk_text_count (Sample.text "abcdefghij") 4 1). lia.
Defined.

Lemma offset_to_nat (c : nat) (step : Z) :
  0 <= step -> Z.to_nat (Z.of_nat c * step) = (c * Z.to_nat step)%nat.
Proof.
  intros H. rewrite Z2Nat.inj_mul by lia. rewrite Nat2Z.id. reflexivity.
Qed.

(** The chunk cut at an offset the loop reaches. *)
Lemma chunk_shape (text : str) (n overlap : Z) (count c : nat) (chunk : str) :
  0 < n -> 0 < n - overlap ->
  count = Z.to_nat ((Py.len text + (n - overlap) - 1) / (n - overlap)) ->
  nth_error
    (map (fun c => Py.slice text (Some (Z.of_nat c * (n - overlap)))
                            (Some (Z.of_nat c * (n - overlap) + n)))
         (seq 0 count)) c = Some chunk ->
  (c * Z.to_nat (n - overlap) < length text)%nat
  /\ chunk = firstn (Z.to_nat n) (skipn (c * Z.to_nat (n - overlap)) text).
Proof.
  intros Hn Hstep -> Hc.
  apply nth_error_chunk in Hc. destruct Hc as [Hc ->].
  pose proof (chunk_offset_inside _ _ c Hstep (len_nonneg text) Hc) as Hoff.
  rewrite slice_inside by lia.
  rewrite <- offset_to_nat by lia.
  set (a := Z.of_nat c * (n - overlap)) in *.
  split; [unfold Py.len in *; lia|].
  destruct (Z.le_ge_cases (a + n) (Py.len text)).
  - rewrite Z.min_l by lia. f_equal. lia.
  - rewrite Z.min_r by lia.
    rewrite !firstn_all2; [reflexivity| |];
      rewrite length_skipn; unfold Py.len in *; lia.
Qed.

(** The shape of a chunk: chunk number [c] is the [n] characters of the text
    from the offset [c * (n - overlap)], fewer where the text ends: it is
    never empty and never longer than [n]. *)
Theorem chunk_text_chunk (text : str) (n overlap : Z) :
  0 < n -> 0 < n - overlap ->
  exists chunks,
    ContextEnrichedRag.chunk_text text n overlap = Ok chunks
    /\ forall (c : nat) (chunk : str),
         nth_error chunks c = Some chunk ->
         chunk = firstn (Z.to_nat n)
                        (skipn (Z.to_nat (Z.of_nat c * (n - overlap))) text)
         /\ Py.len chunk
            = Z.min n (Py.len text - Z.of_nat c * (n - overlap))
         /\ 1 <= Py.len chunk <= n.
Proof.
  intros Hn Hstep. rewrite chunk_text_closed_form by exact Hstep.
  eexists. split; [reflexivity|]. intros c chunk Hc.
  apply (chunk_shape text n overlap _ c chunk Hn Hstep eq_refl) in Hc.
  destruct Hc as [Hoff ->].
  rewrite <- offset_to_nat in * by lia.
  split; [reflexivity|].
  assert (0 <= Z.of_nat c * (n - overlap)) by nia.
  unfold Py.len in *. rewrite length_firstn, length_skipn. lia.
Qed.

Lemma chunk_text_chunk_witness :
  exists chunks,
    ContextEnrichedRag.chunk_text (Sample.text "abcdefghij") 4 3 = Ok chunks
    /\ forall (c : nat) (chunk : str),
         nth_error chunks c = Some chunk ->
         chunk = firstn (Z.to_nat 4)
                        (skipn (Z.to_nat (Z.of_nat c * (4 - 3)))
                               (Sample.text "abcdefghij"))
         /\ Py.len chunk
            = Z.min 4 (Py.len (Sample.text "abcdefghij")
                       - Z.of_nat c * (4 - 3))
         /\ 1 <= Py.len chunk <= 4.
Proof.
  apply (chunk_text_chunk (Sample.text "abcdefghij") 4 3); lia.
Defined.

(** The overlap of consecutive chunks: what a chunk holds behind its first
    [n - overlap] characters is the beginning of the next chunk, and these
    are [overlap] characters when the chunk has the full length [n]. *)
Theorem chunk_text_overlap (text : str) (n overlap : Z) :
  0 <= overlap < n ->
  exists chunks,
    ContextEnrichedRag.chunk_text text n overlap = Ok chunks
    /\ forall (c : nat) (chunk next : str),
         nth_error chunks c = Some chunk ->
         nth_error chunks (S c) = Some next ->
         skipn (Z.to_nat (n - overlap)) chunk
         = firstn (length chunk - Z.to_nat (n - overlap)) next
         /\ (Py.len chunk = n ->
             Py.len (skipn (Z.to_nat (n - overlap)) chunk) = overlap).
Proof.
  intros Ho. rewrite chunk_text_closed_form by lia.
  eexists. split; [reflexivity|]. intros c chunk next Hc Hnext.
  apply (chunk_shape text n overlap _ c chunk ltac:(lia) ltac:(lia) eq_refl)
    in Hc.
  apply (chunk_shape text n overlap _ (S c) next ltac:(lia) ltac:(lia) eq_refl)
    in Hnext.
  destruct Hc as [Hoff ->], Hnext as [Hoff' ->].
  set (step := Z.to_nat (n - overlap)) in *.
  assert (Hn : Z.to_nat n = (step + Z.to_nat overlap)%nat) by lia.
  split.
  - rewrite skipn_firstn_comm, skipn_skipn.
    replace (step + c * step)%nat with (S c * step)%nat by lia.
    rewrite firstn_firstn, length_firstn, length_skipn.
    destruct (Nat.le_gt_cases (Z.to_nat n) (length text - c * step)).
    + f_equal. lia.
    + rewrite !firstn_all2; [reflexivity| |]; rewrite length_skipn; lia.
  - unfold Py.len. rewrite length_skipn, length_firstn, length_skipn. lia.
Qed.

Lemma chunk_text_overlap_witness :
  exists chunks,
    ContextEnrichedRag.chunk_text (Sample.text "abcdefghij") 4 1 = Ok chunks
    /\ forall (c : nat) (chunk next : str),
         nth_error chunks c = Some chunk ->
         nth_error chunks (S c) = Some next ->
         skipn (Z.to_nat (4 - 1)) chunk
         = firstn (length chunk - Z.to_nat (4 - 1)) next
         /\ (Py.len chunk = 4 ->
             Py.len (skipn (Z.to_nat (4 - 1)) chunk) = 1).
Proof.
  apply (chunk_text_overlap (Sample.text "abcdefghij") 4 1). lia.
Defined.

(** Cutting the text into pieces of the length of the step and joining them
    gives the text back. *)
Lemma concat_pieces {A : Type} (step count : nat) (l : list A) :
  (0 < step)%nat -> (length l <= count * step)%nat ->
  concat (map (fun c => firstn step (skipn (c * step) l)) (seq 0 count)) = l.
Proof.
  intros Hstep. revert l. induction count as [|count IH]; intros l Hlen.
  - destruct l; [reflexivity|simpl in Hlen; lia].
  - cbn [seq map concat]. rewrite <- seq_shift, map_map.
    rewrite (map_ext _ (fun c => firstn step (skipn (c * step) (skipn step l)))).
    + rewrite IH by (rewrite length_skipn; lia).
      cbn [Nat.mul skipn]. apply firstn_skipn.
    + intros c. rewrite skipn_skipn. do 2 f_equal. lia.
Qed.

Lemma firstn_skipn_In {A : Type} (n m : nat) (l : list A) (x : A) :
  In x (firstn n (skipn m l)) -> In x l.
Proof.
  intros H.
  rewrite <- (firstn_skipn m l). apply in_or_app. right.
  rewrite <- (firstn_skipn n (skipn m l)). apply in_or_app. left. exact H.
Qed.

(** The chunks cut down to the length of the step are the pieces of the
    text, and the pieces reach the end of the text. *)
Lemma chunk_text_pieces (text : str) (n overlap : Z) (count step : nat) :
  0 <= overlap < n ->
  count = Z.to_nat ((Py.len text + (n - overlap) - 1) / (n - overlap)) ->
  step = Z.to_nat (n - overlap) ->
  map (firstn step)
      (map (fun c => Py.slice text (Some (Z.of_nat c * (n - overlap)))
                              (Some (Z.of_nat c * (n - overlap) + n)))
           (seq 0 count))
  = map (fun c => firstn step (skipn (c * step) text)) (seq 0 count)
  /\ (length text <= count * step)%nat.
Proof.
  intros Ho Hcount Hstep. split.
  - rewrite map_map. apply map_ext_in. intros c Hc. apply in_seq in Hc.
    assert (Hnth : nth_error
              (map (fun c => Py.slice text (Some (Z.of_nat c * (n - overlap)))
                                      (Some (Z.of_nat c * (n - overlap) + n)))
                   (seq 0 count)) c
              = Some (Py.slice text (Some (Z.of_nat c * (n - overlap)))
                               (Some (Z.of_nat c * (n - overlap) + n)))).
    { rewrite nth_error_map, nth_error_seq.
      destruct (Nat.ltb_spec c count); [reflexivity|lia]. }
    apply (chunk_shape text n overlap count c _ ltac:(lia) ltac:(lia) Hcount)
      in Hnth.
    destruct Hnth as [_ ->]. rewrite <- Hstep.
    rewrite firstn_firstn. f_equal. lia.
  - subst count step. unfold Py.len.
    pose proof (Z.mul_succ_div_gt (Z.of_nat (length text) + (n - overlap) - 1)
                                  (n - overlap) ltac:(lia)).
    assert (0 <= (Z.of_nat (length text) + (n - overlap) - 1) / (n - overlap))
      by (apply Z.div_pos; lia).
    nia.
Qed.

(** A chunk is never longer than the chunk size. *)
Lemma slice_chunk_length (text : str) (a n : Z) :
  0 <= a -> 0 <= n ->
  (length (Py.slice text (Some a) (Some (a + n)%Z)) <= Z.to_nat n)%nat.
Proof.
  intros Ha Hn. unfold Py.slice. rewrite length_firstn, length_skipn.
  unfold Py.adjust_index, Py.len.
  destruct (Z.ltb_spec a 0), (Z.ltb_spec (a + n) 0); lia.
Qed.

(** Round trip: the first [n - overlap] characters of the chunks, joined in
    order, are the text; without overlap the chunks themselves are. *)
Theorem chunk_text_reassemble (text : str) (n overlap : Z) :
  0 <= overlap < n ->
  exists chunks,
    ContextEnrichedRag.chunk_text text n overlap = Ok chunks
    /\ concat (map (firstn (Z.to_nat (n - overlap))) chunks) = text
    /\ (overlap = 0 -> concat chunks = text).
Proof.
  intros Ho. rewrite chunk_text_closed_form by lia.
  eexists. split; [reflexivity|].
  set (count := Z.to_nat ((Py.len text + (n - overlap) - 1) / (n - overlap))).
  set (step := Z.to_nat (n - overlap)).
  destruct (chunk_text_pieces text n overlap count step Ho eq_refl eq_refl)
    as [Hpieces Hcover].
  split.
  - rewrite Hpieces. apply concat_pieces; [subst step; lia|exact Hcover].
  - intros Hzero. etransitivity;
      [|apply (concat_pieces step count text); [subst step; lia|exact Hcover]].
    rewrite <- Hpieces. f_equal. symmetry.
    etransitivity; [|apply map_id].
    apply map_ext_in. intros chunk Hin. apply firstn_all2.
    apply in_map_iff in Hin. destruct Hin as (c & <- & _).
    subst step. replace (n - overlap) with n by lia.
    apply slice_chunk_length; lia.
Qed.

Lemma chunk_text_reassemble_witness :
  exists chunks,
    ContextEnrichedRag.chunk_text (Sample.text "abcdefghij") 4 0 = Ok chunks
    /\ concat (map (firstn (Z.to_nat (4 - 0))) chunks)
       = Sample.text "abcdefghij"
    /\ (0 = 0 -> concat chunks = Sample.text "abcdefghij").
Proof.
  apply (chunk_text_reassemble (Sample.text "abcdefghij") 4 0). lia.
Defined.

(** ** The window of [context_enriched_search] *)

(** With the context size 0, and similarities that are numbers, the search
    returns one chunk: the chunk at the earliest index of greatest
    similarity to the query, whichever routine sums the products of
    [np.dot]. *)
Theorem context_enriched_search_radius_zero {B : Np.Blas} {chunk : Type}
    (client : OpenAI.embeddings_create) (query : str)
    (text_chunks : list chunk) (embeddings : list OpenAI.Embedding) (k : Z)
    (response : OpenAI.CreateEmbeddingResponse) (first : OpenAI.Embedding) :
  client (OpenAI.Text query) = Ok response ->
  Py.getitem (OpenAI.data response) 0 = Ok first ->
  Forall (fun e => length (OpenAI.embedding e)
                   = length (OpenAI.embedding first)) embeddings ->
  Forall (fun e => is_nan (cosine (OpenAI.embedding first)
                                  (OpenAI.embedding e)) = false)
         embeddings ->
  text_chunks <> [] ->
  length embeddings = length text_chunks ->
  exists (t : nat) (best : OpenAI.Embedding) (top : chunk),
    nth_error embeddings t = Some best
    /\ (forall (i : nat) (e : OpenAI.Embedding),
          nth_error embeddings i = Some e ->
          (cosine (OpenAI.embedding first) (OpenAI.embedding e)
           <=? cosine (OpenAI.embedding first) (OpenAI.embedding best))%float
          = true
          /\ ((cosine (OpenAI.embedding first) (OpenAI.embedding e)
               =? cosine (OpenAI.embedding first)
                         (OpenAI.embedding best))%float = true ->
              (t <= i)%nat))
    /\ nth_error text_chunks t = Some top
    /\ ContextEnrichedRag.context_enriched_search
         client query text_chunks embeddings k 0 = Ok [top].
Proof.
  intros Hclient Hfirst Hdim Hnan Hne Hlen.
  destruct (context_enriched_search_top
              client query text_chunks embeddings k 0 response first
              Hclient Hfirst Hdim Hnan)
    as (t & best & Hbest & Ht & Hmax & Hres).
  { intros ->. destruct text_chunks; [congruence|discriminate]. }
  unfold Py.len in *.
  destruct (nth_error text_chunks (Z.to_nat t)) as [top|] eqn:Htop;
    [|apply nth_error_None in Htop; lia].
  exists (Z.to_nat t), best, top.
  split; [exact Hbest|]. split; [|split; [exact Htop|]].
  - intros i e He. destruct (Hmax i e He) as [Hle Heq].
    split; [exact Hle|]. intros H. apply Heq in H. lia.
  - rewrite Hres.
    replace (Z.to_nat (Z.min (Z.of_nat (length text_chunks)) (t + 0 + 1)
                       - Z.max 0 (t - 0))) with 1%nat by lia.
    replace (Z.to_nat (Z.max 0 (t - 0))) with (Z.to_nat t) by lia.
    rewrite (skipn_nth_error_cons _ _ _ Htop). reflexivity.
Qed.

Lemma context_enriched_search_radius_zero_witness :
  exists (t : nat) (best : OpenAI.Embedding) (top : str),
    nth_error Sample.embeddings t = Some best
    /\ (forall (i : nat) (e : OpenAI.Embedding),
          nth_error Sample.embeddings i = Some e ->
          (cosine Sample.query_embedding (OpenAI.embedding e)
           <=? cosine Sample.query_embedding (OpenAI.embedding best))%float
          = true
          /\ ((cosine Sample.query_embedding (OpenAI.embedding e)
               =? cosine Sample.query_embedding
                         (OpenAI.embedding best))%float = true ->
              (t <= i)%nat))
    /\ nth_error Sample.corpus t = Some top
    /\ ContextEnrichedRag.context_enriched_search
         Sample.client Sample.query Sample.corpus Sample.embeddings 1 0
       = Ok [top].
Proof.
  apply (context_enriched_search_radius_zero
           Sample.client Sample.query Sample.corpus Sample.embeddings 1
           {| OpenAI.data := [ {| OpenAI.embedding := Sample.query_embedding |} ] |}
           {| OpenAI.embedding := Sample.query_embedding |}).
  - reflexivity.
  - reflexivity.
  - repeat constructor.
  - repeat constructor.
  - discriminate.
  - reflexivity.
Defined.

(** With a context size of at least the number of chunks the search returns
    the whole corpus, in document order, whichever chunk ranks first. *)
Theorem context_enriched_search_whole_corpus {chunk : Type}
    (client : OpenAI.embeddings_create) (query : str)
    (text_chunks : list chunk) (embeddings : list OpenAI.Embedding)
    (k context_size : Z)
    (response : OpenAI.CreateEmbeddingResponse) (first : OpenAI.Embedding) :
  client (OpenAI.Text query) = Ok response ->
  Py.getitem (OpenAI.data response) 0 = Ok first ->
  Forall (fun e => length (OpenAI.embedding e)
                   = length (OpenAI.embedding first)) embeddings ->
  text_chunks <> [] ->
  length embeddings = length text_chunks ->
  Py.len text_chunks <= context_size ->
  ContextEnrichedRag.context_enriched_search
    client query text_chunks embeddings k context_size
  = Ok text_chunks.
Proof.
  intros Hclient Hfirst Hdim Hne Hlen Hc.
  destruct (context_enriched_search_general
              client query text_chunks embeddings k context_size
              response first Hclient Hfirst Hdim)
    as (t & s & rest & Hrank & Ht & Hres).
  { intros ->. destruct text_chunks; [congruence|discriminate]. }
  rewrite Hres. unfold Py.len in *.
  replace (Z.to_nat (Z.max 0 (t - context_size))) with 0%nat by lia.
  cbn [skipn]. f_equal. apply firstn_all2. lia.
Qed.

Lemma context_enriched_search_whole_corpus_witness :
  ContextEnrichedRag.context_enriched_search
    Sample.client Sample.query Sample.corpus Sample.embeddings 1 5
  = Ok Sample.corpus.
Proof.
  apply (context_enriched_search_whole_corpus
           Sample.client Sample.query Sample.corpus Sample.embeddings 1 5
           {| OpenAI.data := [ {| OpenAI.embedding := Sample.query_embedding |} ] |}
           {| OpenAI.embedding := Sample.query_embedding |}).
  - reflexivity.
  - reflexivity.
  - repeat constructor.
  - discriminate.
  - reflexivity.
  - reflexivity || (unfold Py.len; simpl; lia).
Defined.

(** Once the query is embedded and the ranking has a head (there is an
    embedding, and the embeddings have the dimension of the query
    embedding), the search never indexes outside the list of chunks.
    Whatever the number of chunks (also when it differs from the number of
    embeddings) and whatever the context size (also a negative one), the
    call returns a run of consecutive chunks of at most
    [2 * context_size + 1] chunks: none when the context size is negative. *)
Theorem context_enriched_search_in_bounds {chunk : Type}
    (client : OpenAI.embeddings_create) (query : str)
    (text_chunks : list chunk) (embeddings : list OpenAI.Embedding)
    (k context_size : Z)
    (response : OpenAI.CreateEmbeddingResponse) (first : OpenAI.Embedding) :
  client (OpenAI.Text query) = Ok response ->
  Py.getitem (OpenAI.data response) 0 = Ok first ->
  Forall (fun e => length (OpenAI.embedding e)
                   = length (OpenAI.embedding first)) embeddings ->
  embeddings <> [] ->
  exists before window after,
    ContextEnrichedRag.context_enriched_search
      client query text_chunks embeddings k context_size = Ok window
    /\ text_chunks = before ++ window ++ after
    /\ Py.len window <= Z.max 0 (2 * context_size + 1)
    /\ (context_size < 0 -> window = []).
Proof.
  intros Hclient Hfirst Hdim Hne.
  destruct (context_enriched_search_general
              client query text_chunks embeddings k context_size
              response first Hclient Hfirst Hdim Hne)
    as (t & s & rest & Hrank & Ht & Hres).
  set (lo := Z.to_nat (Z.max 0 (t - context_size))) in *.
  set (m := Z.to_nat (Z.min (Py.len text_chunks) (t + context_size + 1)
                      - Z.max 0 (t - context_size))) in *.
  exists (firstn lo text_chunks), (firstn m (skipn lo text_chunks)),
         (skipn m (skipn lo text_chunks)).
  split; [exact Hres|]. split; [|split].
  - rewrite firstn_skipn, firstn_skipn. reflexivity.
  - unfold Py.len. rewrite length_firstn. subst m. lia.
  - intros Hneg. replace m with 0%nat by (subst m; lia). reflexivity.
Qed.

Lemma context_enriched_search_in_bounds_witness :
  exists before window after,
    ContextEnrichedRag.context_enriched_search
      Sample.client Sample.query [Sample.text "c0"; Sample.text "c1"]
      Sample.embeddings 1 (-1)
    = Ok window
    /\ [Sample.text "c0"; Sample.text "c1"] = before ++ window ++ after
    /\ Py.len window <= Z.max 0 (2 * (-1) + 1)
    /\ (-1 < 0 -> window = []).
Proof.
  apply (context_enriched_search_in_bounds
           Sample.client Sample.query [Sample.text "c0"; Sample.text "c1"]
           Sample.embeddings 1 (-1)
           {| OpenAI.data := [ {| OpenAI.embedding := Sample.query_embedding |} ] |}
           {| OpenAI.embedding := Sample.query_embedding |}).
  - reflexivity.
  - reflexivity.
  - repeat constructor.
  - discriminate.
Defined.

(** ** Retrieval over a chunked document *)

(** The notebook chunks a document and searches the chunks.  The window the
    search returns is then one excerpt of the document: its chunks are
    consecutive chunks of [chunk_text], and their first [n - overlap]
    characters, joined in order, are a run of consecutive characters of the
    text; without overlap the joined chunks themselves are. *)
Theorem context_enriched_search_excerpt
    (client : OpenAI.embeddings_create) (query text : str) (n overlap : Z)
    (embeddings : list OpenAI.Embedding) (k context_size : Z)
    (response : OpenAI.CreateEmbeddingResponse) (first : OpenAI.Embedding) :
  0 <= overlap < n ->
  client (OpenAI.Text query) = Ok response ->
  Py.getitem (OpenAI.data response) 0 = Ok first ->
  Forall (fun e => length (OpenAI.embedding e)
                   = length (OpenAI.embedding first)) embeddings ->
  embeddings <> [] ->
  exists chunks window before after,
    ContextEnrichedRag.chunk_text text n overlap = Ok chunks
    /\ ContextEnrichedRag.context_enriched_search
         client query chunks embeddings k context_size = Ok window
    /\ text = before
              ++ concat (map (firstn (Z.to_nat (n - overlap))) window)
              ++ after
    /\ (overlap = 0 -> text = before ++ concat window ++ after).
Proof.
  intros Ho Hclient Hfirst Hdim Hne.
  rewrite chunk_text_closed_form by lia.
  set (count := Z.to_nat ((Py.len text + (n - overlap) - 1) / (n - overlap))).
  set (step := Z.to_nat (n - overlap)).
  set (chunks := map (fun c => Py.slice text (Some (Z.of_nat c * (n - overlap)))
                                        (Some (Z.of_nat c * (n - overlap) + n)))
                     (seq 0 count)).
  destruct (context_enriched_search_general
              client query chunks embeddings k context_size
              response first Hclient Hfirst Hdim Hne)
    as (t & s & rest & _ & _ & Hres).
  set (lo := Z.to_nat (Z.max 0 (t - context_size))) in *.
  set (m := Z.to_nat (Z.min (Py.len chunks) (t + context_size + 1)
                      - Z.max 0 (t - context_size))) in *.
  destruct (chunk_text_pieces text n overlap count step Ho eq_refl eq_refl)
    as [Hpieces Hcover].
  assert (Htext : concat (map (firstn step) chunks) = text).
  { subst chunks. rewrite Hpieces.
    apply concat_pieces; [subst step; lia|exact Hcover]. }
  assert (Hsplit : chunks = firstn lo chunks ++ firstn m (skipn lo chunks)
                             ++ skipn m (skipn lo chunks))
    by (rewrite firstn_skipn, firstn_skipn; reflexivity).
  exists chunks, (firstn m (skipn lo chunks)),
         (concat (map (firstn step) (firstn lo chunks))),
         (concat (map (firstn step) (skipn m (skipn lo chunks)))).
  split; [reflexivity|]. split; [exact Hres|].
  assert (Hexcerpt :
    text = concat (map (firstn step) (firstn lo chunks))
           ++ concat (map (firstn step) (firstn m (skipn lo chunks)))
           ++ concat (map (firstn step) (skipn m (skipn lo chunks)))).
  { rewrite <- !concat_app, <- !map_app, <- Hsplit. symmetry. exact Htext. }
  split; [exact Hexcerpt|].
  intros Hzero. rewrite Hexcerpt at 1. do 3 f_equal.
  etransitivity; [|apply map_id].
  apply map_ext_in. intros chunk Hin. apply firstn_all2.
  apply firstn_skipn_In in Hin. subst chunks.
  apply in_map_iff in Hin. destruct Hin as (c & <- & _).
  subst step. replace (n - overlap) with n by lia.
  apply slice_chunk_length; lia.
Qed.

Lemma context_enriched_search_excerpt_witness :
  exists chunks window before after,
    ContextEnrichedRag.chunk_text Sample.document 4 0 = Ok chunks
    /\ ContextEnrichedRag.context_enriched_search
         Sample.client Sample.query chunks Sample.embeddings 1 1 = Ok window
    /\ Sample.document
       = before ++ concat (map (firstn (Z.to_nat (4 - 0))) window) ++ after
    /\ (0 = 0 -> Sample.document = before ++ concat window ++ after).
Proof.
  apply (context_enriched_search_excerpt
           Sample.client Sample.query Sample.document 4 0
           Sample.embeddings 1 1
           {| OpenAI.data := [ {| OpenAI.embedding := Sample.query_embedding |} ] |}
           {| OpenAI.embedding := Sample.query_embedding |}).
  - lia.
  - reflexivity.
  - reflexivity.
  - repeat constructor.
  - discriminate.
Defined.

(** ** The top match of [context_enriched_search] *)

(** The chunk the window is built around is a best match, and the earliest
    one: its similarity is the score at the head of the ranking, no chunk
    has a greater similarity, and a chunk of equal similarity does not come
    before it in the corpus. *)
Theorem context_enriched_search_top_match (q : list float)
    (embeddings : list OpenAI.Embedding) (t : Z) (s : float)
    (rest : list (Z * float)) :
  Forall (fun e => is_nan (cosine q (OpenAI.embedding e)) = false)
         embeddings ->
  ranked_indices q embeddings = (t, s) :: rest ->
  (exists e, nth_error embeddings (Z.to_nat t) = Some e
             /\ s = cosine q (OpenAI.embedding e))
  /\ forall (i : nat) (e : OpenAI.Embedding),
       nth_error embeddings i = Some e ->
       (cosine q (OpenAI.embedding e) <=? s)%float = true
       /\ ((cosine q (OpenAI.embedding e) =? s)%float = true ->
           t <= Z.of_nat i).
Proof.
  intros Hnan Hrank.
  assert (Hin : In (t, s) (scored_indices q embeddings)).
  { apply (Permutation_in _ (Permutation_sym (ranked_indices_perm q embeddings))).
    rewrite Hrank. left. reflexivity. }
  pose proof Hin as Hts. apply scored_indices_In in Hts.
  destruct Hts as (et & Het & Ht0 & Hs).
  assert (Hsnan : is_nan s = false).
  { rewrite Hs. rewrite Forall_forall in Hnan. apply Hnan.
    apply (nth_error_In _ _ Het). }
  split; [exists et; split; assumption|].
  intros i e He.
  assert (Hie : In (Z.of_nat i, cosine q (OpenAI.embedding e))
                   (scored_indices q embeddings)).
  { apply scored_indices_In. exists e. rewrite Nat2Z.id.
    repeat split; [exact He|lia]. }
  assert (Henan : is_nan (cosine q (OpenAI.embedding e)) = false).
  { rewrite Forall_forall in Hnan. apply Hnan. apply (nth_error_In _ _ He). }
  split.
  - apply (Permutation_in _ (ranked_indices_perm q embeddings)) in Hie.
    rewrite Hrank in Hie. destruct Hie as [Heq|Hie].
    + injection Heq as _ <-. apply FloatOrder.ltb_false_leb; try exact Hsnan.
      destruct (s <? s)%float eqn:Hlt; [|reflexivity].
      rewrite (FloatOrder.ltb_asym _ _ Hlt) in Hlt. discriminate.
    + pose proof (ranked_indices_head_best q embeddings t s rest Hnan Hrank)
        as Hbest.
      rewrite Forall_forall in Hbest. apply (Hbest _ Hie).
  - intros Heq.
    pose proof (ranking_stable (scored_indices q embeddings) s) as Hstable.
    fold (ranked_indices q embeddings) in Hstable. rewrite Hrank in Hstable.
    cbn [filter snd] in Hstable.
    assert (Hss : (s =? s)%float = true).
    { unfold is_nan in Hsnan. apply negb_false_iff in Hsnan. exact Hsnan. }
    rewrite Hss in Hstable.
    pose proof (StronglySorted_filter _ (fun c : Z * float => (snd c =? s)%float) _
                  (scored_indices_increasing q embeddings)) as Hsorted.
    rewrite <- Hstable in Hsorted.
    apply StronglySorted_inv in Hsorted. destruct Hsorted as [_ Hall].
    assert (Hfi : In (Z.of_nat i, cosine q (OpenAI.embedding e))
                     (filter (fun c : Z * float => (snd c =? s)%float)
                             (scored_indices q embeddings))).
    { apply filter_In. split; [exact Hie|exact Heq]. }
    rewrite <- Hstable in Hfi. destruct Hfi as [Hhead|Htail].
    + injection Hhead as -> _. lia.
    + rewrite Forall_forall in Hall. apply Hall in Htail.
      cbn [fst] in Htail. lia.
Qed.

Lemma context_enriched_search_top_match_witness :
  (exists e, nth_error Sample.embeddings (Z.to_nat 3) = Some e
             /\ 1%float = cosine Sample.query_embedding (OpenAI.embedding e))
  /\ forall (i : nat) (e : OpenAI.Embedding),
       nth_error Sample.embeddings i = Some e ->
       (cosine Sample.query_embedding (OpenAI.embedding e) <=? 1)%float = true
       /\ ((cosine Sample.query_embedding (OpenAI.embedding e) =? 1)%float
           = true ->
           3 <= Z.of_nat i).
Proof.
  apply (context_enriched_search_top_match
           Sample.query_embedding Sample.embeddings 3 1%float
           (tl (ranked_indices Sample.query_embedding Sample.embeddings))).
  - repeat constructor.
  - reflexivity.
Defined.

(** ** Embeddings of the wrong dimension *)

Lemma for_each_raise_some {A B : Type} (f : A -> result B) (l : list A)
    (e : exception) :
  (forall x, In x l -> f x = Raise e \/ exists y, f x = Ok y) ->
  (exists x, In x l /\ f x = Raise e) ->
  for_each f l = Raise e.
Proof.
  induction l as [|x l IH]; intros Hall (z & Hz & Hfz); [destruct Hz|].
  cbn [for_each]. destruct (Hall x (or_introl eq_refl)) as [Hx|[y Hy]].
  - rewrite Hx. reflexivity.
  - rewrite Hy. cbn [bind]. rewrite IH; [reflexivity| |].
    + intros w Hw. apply Hall. right. exact Hw.
    + destruct Hz as [<-|Hz]; [congruence|]. exists z. split; assumption.
Qed.

(** [cosine_similarity] raises for vectors of different lengths, and only
    for them: then it raises the [ValueError] of [np.dot]. *)
Theorem cosine_similarity_raises (vec1 vec2 : list float) :
  (length vec1 <> length vec2 <->
   ContextEnrichedRag.cosine_similarity vec1 vec2 = Raise ValueError)
  /\ (length vec1 = length vec2 <->
      exists r, ContextEnrichedRag.cosine_similarity vec1 vec2 = Ok r).
Proof.
  unfold ContextEnrichedRag.cosine_similarity, Np.dot.
  destruct (Nat.eqb_spec (length vec1) (length vec2)) as [Heq|Hne]; cbn [bind].
  - split; split; intros H; try congruence. eexists. reflexivity.
  - split; split; intros H; try congruence; try reflexivity.
    destruct H as [r Hr]. discriminate.
Qed.

(** An embedding whose dimension differs from that of the query embedding
    makes the search raise [ValueError]: no window is returned. *)
Theorem context_enriched_search_dimension_mismatch {chunk : Type}
    (client : OpenAI.embeddings_create) (query : str)
    (text_chunks : list chunk) (embeddings : list OpenAI.Embedding)
    (k context_size : Z)
    (response : OpenAI.CreateEmbeddingResponse) (first bad : OpenAI.Embedding) :
  client (OpenAI.Text query) = Ok response ->
  Py.getitem (OpenAI.data response) 0 = Ok first ->
  In bad embeddings ->
  length (OpenAI.embedding bad) <> length (OpenAI.embedding first) ->
  ContextEnrichedRag.context_enriched_search
    client query text_chunks embeddings k context_size
  = Raise ValueError.
Proof.
  intros Hclient Hfirst Hin Hbad.
  unfold ContextEnrichedRag.context_enriched_search,
    ContextEnrichedRag.create_embeddings.
  rewrite Hclient. cbn [bind]. rewrite Hfirst. cbn [bind].
  rewrite (for_each_raise_some _ _ ValueError); [reflexivity| |].
  - intros [i e] _.
    unfold ContextEnrichedRag.cosine_similarity, Np.dot.
    destruct (Nat.eqb _ _); cbn [bind]; [right; eexists; reflexivity|left; reflexivity].
  - apply In_nth_error in Hin. destruct Hin as [n Hn].
    exists (Z.of_nat n, bad). split.
    + assert (Hs : In (Z.of_nat n, cosine (OpenAI.embedding first)
                                          (OpenAI.embedding bad))
                      (scored_indices (OpenAI.embedding first) embeddings)).
      { apply scored_indices_In. exists bad. rewrite Nat2Z.id.
        repeat split; [exact Hn|lia]. }
      unfold scored_indices in Hs. apply in_map_iff in Hs.
      destruct Hs as ([j e'] & Heq & Hj). injection Heq as -> _.
      pose proof (enumerate_nth_error _ _ _ Hj) as Hj'.
      rewrite Nat2Z.id, Hn in Hj'. injection Hj' as ->. exact Hj.
    + unfold ContextEnrichedRag.cosine_similarity, Np.dot.
      destruct (Nat.eqb_spec (length (OpenAI.embedding first))
                             (length (OpenAI.embedding bad))); [congruence|].
      reflexivity.
Qed.

Lemma context_enriched_search_dimension_mismatch_witness :
  ContextEnrichedRag.context_enriched_search
    Sample.client Sample.query Sample.corpus
    [ {| OpenAI.embedding := [1; 0]%float |};
      {| OpenAI.embedding := [1; 0; 0]%float |} ] 1 1
  = Raise ValueError.
Proof.
  apply (context_enriched_search_dimension_mismatch
           Sample.client Sample.query Sample.corpus _ 1 1
           {| OpenAI.data := [ {| OpenAI.embedding := Sample.query_embedding |} ] |}
           {| OpenAI.embedding := Sample.query_embedding |}
           {| OpenAI.embedding := [1; 0; 0]%float |}).
  - reflexivity.
  - reflexivity.
  - right. left. reflexivity.
  - discriminate.
Defined.

(** ** The result of [retrieve_relevant_chunks] *)

Lemma for_each_Forall2 {A B : Type} (f : A -> result B) (l : list A)
    (ys : list B) :
  for_each f l = Ok ys -> Forall2 (fun x y => f x = Ok y) l ys.
Proof.
  revert ys. induction l as [|x l IH]; intros ys H; cbn [for_each] in H.
  - injection H as <-. constructor.
  - destruct (f x) as [y|e] eqn:Hx; [|discriminate]. cbn [bind] in H.
    destruct (for_each f l) as [ys'|e]; [|discriminate]. cbn [bind] in H.
    injection H as <-. constructor; [exact Hx|apply IH; reflexivity].
Qed.

Lemma for_each_app_ok {A B : Type} (f : A -> result B) (a b : list A)
    (ys : list B) :
  for_each f (a ++ b) = Ok ys ->
  exists ya yb, for_each f a = Ok ya /\ for_each f b = Ok yb /\ ys = ya ++ yb.
Proof.
  revert ys. induction a as [|x a IH]; intros ys H.
  - exists [], ys. repeat split. exact H.
  - cbn [app for_each] in *. destruct (f x) as [y|e]; [|discriminate].
    cbn [bind] in *. destruct (for_each f (a ++ b)) as [ys'|e] eqn:Hab;
      [|discriminate].
    cbn [bind] in H. injection H as <-.
    destruct (IH ys' eq_refl) as (ya & yb & Ha & Hb & ->).
    exists (y :: ya), yb. rewrite Ha. repeat split. exact Hb.
Qed.

(** A loop over a rearranged list collects the rearranged results. *)
Lemma for_each_perm {A B : Type} (f : A -> result B) (xs xs' : list A) :
  Permutation xs xs' ->
  forall ys, for_each f xs = Ok ys ->
  exists ys', for_each f xs' = Ok ys' /\ Permutation ys ys'.
Proof.
  induction 1 as [|x l l' HP IH|x y l|l l' l'' HP1 IH1 HP2 IH2]; intros ys H.
  - exists ys. split; [exact H|reflexivity].
  - cbn [for_each] in *. destruct (f x) as [z|e]; [|discriminate].
    cbn [bind] in *. destruct (for_each f l) as [zs|e]; [|discriminate].
    cbn [bind] in H. injection H as <-.
    destruct (IH zs eq_refl) as (zs' & -> & HP').
    exists (z :: zs'). split; [reflexivity|apply perm_skip; exact HP'].
  - cbn [for_each] in *. destruct (f y) as [u|e]; [|discriminate].
    cbn [bind] in *. destruct (f x) as [v|e]; [|discriminate].
    cbn [bind] in *. destruct (for_each f l) as [zs|e]; [|discriminate].
    cbn [bind] in H. injection H as <-.
    exists (v :: u :: zs). split; [reflexivity|apply perm_swap].
  - destruct (IH1 ys H) as (ys' & H' & HP').
    destruct (IH2 ys' H') as (ys'' & H'' & HP'').
    exists ys''. split; [exact H''|].
    apply (Permutation_trans HP' HP'').
Qed.

Lemma getitem_nonneg_inv {A : Type} (l : list A) (i : Z) (x : A) :
  0 <= i -> Py.getitem l i = Ok x -> nth_error l (Z.to_nat i) = Some x.
Proof.
  intros Hi. unfold Py.getitem.
  destruct (Z.ltb_spec i 0); [lia|].
  destruct (_ && _); [|discriminate].
  destruct (nth_error l (Z.to_nat i)); congruence.
Qed.

Lemma for_each_getitem_all {A : Type} (l : list A) :
  for_each (fun i => Py.getitem l i) (map Z.of_nat (seq 0 (length l))) = Ok l.
Proof.
  pose proof (for_each_getitem_window l (length l) 0 (Nat.le_refl _)) as H.
  cbn [skipn] in H. rewrite firstn_all in H. exact H.
Qed.

Lemma map_fst_enumerate {A : Type} (l : list A) :
  map fst (Py.enumerate l) = map Z.of_nat (seq 0 (length l)).
Proof.
  unfold Py.enumerate. generalize 0%nat.
  induction l as [|x l IH]; intros s; [reflexivity|].
  cbn [length seq map combine fst]. rewrite IH. reflexivity.
Qed.

Lemma argsort_perm (similarities : list float) :
  Permutation (Np.argsort similarities)
              (map Z.of_nat (seq 0 (length similarities))).
Proof.
  unfold Np.argsort. rewrite <- map_fst_enumerate.
  apply Permutation_map, Permutation_sym, sort_ascending_perm.
Qed.

Lemma similarities_ok (q : list float) (chunk_embeddings : list (list float)) :
  Forall (fun emb => length emb = length q) chunk_embeddings ->
  for_each (fun emb => ChunkSizeSelector.cosine_similarity q emb)
           chunk_embeddings
  = Ok (map (cosine q) chunk_embeddings).
Proof.
  intros Hdim. rewrite <- for_each_pure. apply for_each_ext.
  intros emb Hin. rewrite Forall_forall in Hdim.
  rewrite cosine_similarity_same_03, cosine_similarity_04
    by (symmetry; apply Hdim; exact Hin).
  reflexivity.
Qed.

(** The call in terms of the selected indices. *)
Lemma retrieve_relevant_chunks_general {chunk : Type}
    (client : OpenAI.embeddings_create) (query : str)
    (text_chunks : list chunk) (chunk_embeddings : list (list float)) (k : Z)
    (query_embeddings : list (list float)) (q : list float) :
  ChunkSizeSelector.create_embeddings client [query] = Ok query_embeddings ->
  Py.getitem query_embeddings 0 = Ok q ->
  Forall (fun emb => length emb = length q) chunk_embeddings ->
  length text_chunks = length chunk_embeddings ->
  exists result rest,
    ChunkSizeSelector.retrieve_relevant_chunks
      client query text_chunks chunk_embeddings k = Ok result
    /\ Permutation (result ++ rest) text_chunks
    /\ Forall2 (fun i c => nth_error text_chunks (Z.to_nat i) = Some c)
               (top_indices (map (cosine q) chunk_embeddings) k) result.
Proof.
  intros Hq Hq0 Hdim Hlen.
  rewrite retrieve_relevant_chunks_unfold, Hq. cbn [bind].
  rewrite Hq0. cbn [bind]. rewrite similarities_ok by exact Hdim. cbn [bind].
  set (sims := map (cosine q) chunk_embeddings).
  assert (Hn : length sims = length text_chunks)
    by (subst sims; rewrite length_map; lia).
  set (m := Z.to_nat (Py.adjust_index (Py.len (Np.argsort sims)) (- k))).
  assert (Htop : top_indices sims k = rev (skipn m (Np.argsort sims)))
    by (unfold top_indices; rewrite slice_from; reflexivity).
  assert (HP : Permutation (map Z.of_nat (seq 0 (length text_chunks)))
                           (top_indices sims k ++ firstn m (Np.argsort sims))).
  { rewrite <- Hn, <- (argsort_perm sims), Htop.
    rewrite <- (firstn_skipn m (Np.argsort sims)) at 1.
    rewrite Permutation_app_comm. apply Permutation_app_tail, Permutation_rev. }
  destruct (for_each_perm _ _ _ HP _ (for_each_getitem_all text_chunks))
    as (ys & Hys & HPys).
  destruct (for_each_app_ok _ _ _ _ Hys) as (result & rest & Hr & _ & ->).
  exists result, rest. split; [exact Hr|]. split; [symmetry; exact HPys|].
  apply for_each_Forall2 in Hr.
  assert (Hnonneg : Forall (fun i => 0 <= i) (top_indices sims k)).
  { apply Forall_forall. intros i Hi.
    assert (Hin : In i (map Z.of_nat (seq 0 (length text_chunks)))).
    { apply (Permutation_in _ (Permutation_sym HP)), in_or_app. left. exact Hi. }
    apply in_map_iff in Hin. destruct Hin as (j & <- & _). lia. }
  clear - Hr Hnonneg. induction Hr as [|i c idxs cs Hi Hr IH]; [constructor|].
  inversion Hnonneg as [|? ? H0 Hrest]; subst.
  constructor; [apply getitem_nonneg_inv; assumption|apply IH; exact Hrest].
Qed.

Lemma top_indices_length (similarities : list float) (k : Z) :
  Py.len (top_indices similarities k)
  = if 0 <? k then Z.min k (Py.len similarities)
    else Z.max 0 (Py.len similarities + k).
Proof.
  unfold top_indices. rewrite slice_from. unfold Py.len.
  rewrite length_rev, length_skipn.
  rewrite (Permutation_length (argsort_perm similarities)).
  rewrite length_map, length_seq. unfold Py.adjust_index.
  destruct (Z.ltb_spec 0 k), (Z.ltb_spec (- k) 0); lia.
Qed.

(** What [retrieve_relevant_chunks] returns, for every [k]: chunks of the
    corpus, each position at most once.  Their number is [min(k, n)] for a
    positive [k]; with [k = 0] the slice [[-0:]] is the whole list and the
    whole corpus is returned; a negative [k] leaves out the [|k|] chunks of
    least similarity. *)
Theorem retrieve_relevant_chunks_count {chunk : Type}
    (client : OpenAI.embeddings_create) (query : str)
    (text_chunks : list chunk) (chunk_embeddings : list (list float)) (k : Z)
    (query_embeddings : list (list float)) (q : list float) :
  ChunkSizeSelector.create_embeddings client [query] = Ok query_embeddings ->
  Py.getitem query_embeddings 0 = Ok q ->
  Forall (fun emb => length emb = length q) chunk_embeddings ->
  length text_chunks = length chunk_embeddings ->
  exists result rest,
    ChunkSizeSelector.retrieve_relevant_chunks
      client query text_chunks chunk_embeddings k = Ok result
    /\ Permutation (result ++ rest) text_chunks
    /\ Py.len result
       = (if 0 <? k then Z.min k (Py.len text_chunks)
          else Z.max 0 (Py.len text_chunks + k))
    /\ (k = 0 -> rest = []).
Proof.
  intros Hq Hq0 Hdim Hlen.
  destruct (retrieve_relevant_chunks_general
              client query text_chunks chunk_embeddings k query_embeddings q
              Hq Hq0 Hdim Hlen) as (result & rest & Hres & HP & HF).
  exists result, rest. split; [exact Hres|]. split; [exact HP|].
  assert (Hlenr : Py.len result
                  = (if 0 <? k then Z.min k (Py.len text_chunks)
                     else Z.max 0 (Py.len text_chunks + k))).
  { unfold Py.len at 1. rewrite <- (Forall2_length HF).
    fold (Py.len (top_indices (map (cosine q) chunk_embeddings) k)).
    rewrite top_indices_length. unfold Py.len.
    rewrite length_map, Hlen. reflexivity. }
  split; [exact Hlenr|].
  intros ->. apply Permutation_length in HP. rewrite length_app in HP.
  change (0 <? 0) with false in Hlenr. cbv iota in Hlenr.
  unfold Py.len in Hlenr. destruct rest; [reflexivity|simpl in HP; lia].
Qed.

Lemma retrieve_relevant_chunks_count_witness :
  exists result rest,
    ChunkSizeSelector.retrieve_relevant_chunks
      Sample.client Sample.query Sample.corpus
      (map OpenAI.embedding Sample.embeddings) 0 = Ok result
    /\ Permutation (result ++ rest) Sample.corpus
    /\ Py.len result
       = (if 0 <? 0 then Z.min 0 (Py.len Sample.corpus)
          else Z.max 0 (Py.len Sample.corpus + 0))
    /\ (0 = 0 -> rest = []).
Proof.
  apply (retrieve_relevant_chunks_count
           Sample.client Sample.query Sample.corpus
           (map OpenAI.embedding Sample.embeddings) 0
           [Sample.query_embedding] Sample.query_embedding).
  - reflexivity.
  - reflexivity.
  - repeat constructor.
  - reflexivity.
Defined.

Lemma leb_refl (x : float) : is_nan x = false -> (x <=? x)%float = true.
Proof.
  intros H. apply FloatOrder.ltb_false_leb; try exact H.
  destruct (x <? x)%float eqn:Hlt; [|reflexivity].
  rewrite (FloatOrder.ltb_asym _ _ Hlt) in Hlt. discriminate.
Qed.

(** The first selected index is an index of the greatest similarity. *)
Lemma top_indices_head (similarities : list float) (k : Z) :
  Forall (fun x => is_nan x = false) similarities ->
  similarities <> [] -> 1 <= k ->
  exists i0 x0 idxs,
    top_indices similarities k = i0 :: idxs
    /\ 0 <= i0
    /\ nth_error similarities (Z.to_nat i0) = Some x0
    /\ forall x, In x similarities -> (x <=? x0)%float = true.
Proof.
  intros Hnan Hne Hk.
  pose proof (argsort_sorted similarities Hnan) as Hsorted.
  pose proof (sort_ascending_perm Np.lt snd (Py.enumerate similarities))
    as Hperm.
  set (ranked := Py.sort_ascending Np.lt snd (Py.enumerate similarities)) in *.
  assert (Hlen : length ranked = length similarities).
  { rewrite <- (Permutation_length Hperm). apply enumerate_length. }
  destruct (exists_last (l := ranked)) as (front & [i0 x0] & Hranked).
  { intros Hnil. rewrite Hnil in Hlen.
    destruct similarities; [congruence|discriminate]. }
  assert (Hin0 : In (i0, x0) (Py.enumerate similarities)).
  { apply (Permutation_in _ (Permutation_sym Hperm)).
    rewrite Hranked. apply in_or_app. right. left. reflexivity. }
  exists i0, x0, (rev (skipn (Z.to_nat (Z.max 0 (- k + Py.len (Np.argsort similarities))))
                             (map fst front))).
  split; [|split; [|split]].
  - unfold top_indices. rewrite slice_from. unfold Py.adjust_index.
    destruct (Z.ltb_spec (- k) 0); [|lia].
    unfold Np.argsort. fold ranked. rewrite Hranked, map_app. cbn [map fst].
    rewrite skipn_app.
    replace (Z.to_nat (Z.max 0 (- k + Py.len (map fst front ++ [i0])))
             - length (map fst front))%nat with 0%nat
      by (unfold Py.len; rewrite length_app; cbn [length]; lia).
    cbn [skipn]. rewrite rev_app_distr. reflexivity.
  - apply enumerate_In in Hin0. lia.
  - apply enumerate_nth_error. exact Hin0.
  - intros x Hx. apply In_nth_error in Hx. destruct Hx as [j Hj].
    assert (Hjx : In (Z.of_nat j, x) ranked).
    { apply (Permutation_in _ Hperm). unfold Py.enumerate.
      assert (Hlt : (j < length similarities)%nat)
        by (apply nth_error_Some; congruence).
      replace (Z.of_nat j, x)
        with (nth j (combine (map Z.of_nat (seq 0 (length similarities)))
                             similarities) (0, x)).
      - apply nth_In. rewrite length_combine, length_map, length_seq. lia.
      - rewrite combine_nth by (rewrite length_map, length_seq; reflexivity).
        rewrite (map_nth Z.of_nat _ 0%nat), seq_nth by exact Hlt.
        rewrite (nth_error_nth _ _ _ Hj). reflexivity. }
    rewrite Hranked in Hjx, Hsorted.
    apply StronglySorted_app_inv in Hsorted.
    destruct Hsorted as (_ & _ & Hle).
    apply in_app_or in Hjx. destruct Hjx as [Hfront|[Heq|[]]].
    + apply (Hle _ (i0, x0) Hfront). left. reflexivity.
    + injection Heq as _ <-. apply leb_refl.
      rewrite Forall_forall in Hnan. apply Hnan.
      apply (nth_error_In _ _ Hj).
Qed.

(** For [k >= 1] the first chunk [retrieve_relevant_chunks] returns is a best
    match: no chunk embedding is more similar to the query than its own. *)
Theorem retrieve_relevant_chunks_best_first {chunk : Type}
    (client : OpenAI.embeddings_create) (query : str)
    (text_chunks : list chunk) (chunk_embeddings : list (list float)) (k : Z)
    (query_embeddings : list (list float)) (q : list float) :
  ChunkSizeSelector.create_embeddings client [query] = Ok query_embeddings ->
  Py.getitem query_embeddings 0 = Ok q ->
  Forall (fun emb => length emb = length q) chunk_embeddings ->
  Forall (fun emb => is_nan (cosine q emb) = false) chunk_embeddings ->
  length text_chunks = length chunk_embeddings ->
  text_chunks <> [] ->
  1 <= k ->
  exists (i0 : nat) top others emb0,
    ChunkSizeSelector.retrieve_relevant_chunks
      client query text_chunks chunk_embeddings k = Ok (top :: others)
    /\ nth_error text_chunks i0 = Some top
    /\ nth_error chunk_embeddings i0 = Some emb0
    /\ forall emb, In emb chunk_embeddings ->
         (cosine q emb <=? cosine q emb0)%float = true.
Proof.
  intros Hq Hq0 Hdim Hnan Hlen Hne Hk.
  destruct (retrieve_relevant_chunks_general
              client query text_chunks chunk_embeddings k query_embeddings q
              Hq Hq0 Hdim Hlen) as (result & rest & Hres & _ & HF).
  destruct (top_indices_head (map (cosine q) chunk_embeddings) k)
    as (i0 & x0 & idxs & Htop & Hi0 & Hx0 & Hmax).
  - apply Forall_forall. intros x Hx. apply in_map_iff in Hx.
    destruct Hx as (emb & <- & Hemb).
    rewrite Forall_forall in Hnan. apply Hnan. exact Hemb.
  - intros Hnil. apply map_eq_nil in Hnil. subst chunk_embeddings.
    destruct text_chunks; [congruence|discriminate].
  - exact Hk.
  - rewrite Htop in HF. inversion HF as [|? top ? others Htopc HF']; subst.
    rewrite nth_error_map in Hx0.
    destruct (nth_error chunk_embeddings (Z.to_nat i0)) as [emb0|] eqn:Hemb0;
      [|discriminate].
    cbn in Hx0. injection Hx0 as <-.
    exists (Z.to_nat i0), top, others, emb0.
    split; [exact Hres|]. split; [exact Htopc|]. split; [exact Hemb0|].
    intros emb Hemb. apply Hmax. apply in_map. exact Hemb.
Qed.

Lemma retrieve_relevant_chunks_best_first_witness :
  exists (i0 : nat) top others emb0,
    ChunkSizeSelector.retrieve_relevant_chunks
      Sample.client Sample.query Sample.corpus
      (map OpenAI.embedding Sample.embeddings) 2 = Ok (top :: others)
    /\ nth_error Sample.corpus i0 = Some top
    /\ nth_error (map OpenAI.embedding Sample.embeddings) i0 = Some emb0
    /\ forall emb, In emb (map OpenAI.embedding Sample.embeddings) ->
         (cosine Sample.query_embedding emb
          <=? cosine Sample.query_embedding emb0)%float = true.
Proof.
  apply (retrieve_relevant_chunks_best_first
           Sample.client Sample.query Sample.corpus
           (map OpenAI.embedding Sample.embeddings) 2
           [Sample.query_embedding] Sample.query_embedding).
  - reflexivity.
  - reflexivity.
  - repeat constructor.
  - repeat constructor.
  - reflexivity.
  - discriminate.
  - lia.
Defined.

(** ** The result of [semantic_search] *)

Lemma semantic_search_general
    (client : OpenAI.embeddings_create) (query : str)
    (chunks : list ContextualChunkHeaders.Entry.t) (k : Z) (q : list float) :
  ContextualChunkHeaders.create_embeddings client query = Ok q ->
  Forall (fun c =>
            length (ContextualChunkHeaders.Entry.embedding c) = length q
            /\ length (ContextualChunkHeaders.Entry.header_embedding c)
               = length q) chunks ->
  ContextualChunkHeaders.semantic_search client query chunks k
  = Ok (map fst
            (Py.slice
               (Py.list_sort PrimFloat.ltb snd true
                             (map (fun c => (c, combined_score q c)) chunks))
               None (Some k))).
Proof.
  intros Hq Hdim. unfold ContextualChunkHeaders.semantic_search.
  rewrite Hq. cbn [bind].
  rewrite semantic_search_similarities by exact Hdim. reflexivity.
Qed.

Lemma slice_to_any {A : Type} (l : list A) (k : Z) :
  Py.slice l None (Some k)
  = firstn (Z.to_nat (if k <? 0 then Z.max 0 (Py.len l + k)
                      else Z.min k (Py.len l))) l.
Proof.
  unfold Py.slice, Py.adjust_index. rewrite Z.sub_0_r. cbn [skipn Z.to_nat].
  destruct (k <? 0); [rewrite (Z.add_comm k)|]; reflexivity.
Qed.

(** What [semantic_search] returns, for every [k] and every corpus: entries
    of the corpus, each at most as often as the corpus holds it, and never an
    error.  For [k >= 0] these are [min(k, n)] entries, none for [k = 0] or
    an empty corpus; a negative [k] returns all but the [|k|] entries of
    least score. *)
Theorem semantic_search_count
    (client : OpenAI.embeddings_create) (query : str)
    (chunks : list ContextualChunkHeaders.Entry.t) (k : Z) (q : list float) :
  ContextualChunkHeaders.create_embeddings client query = Ok q ->
  Forall (fun c =>
            length (ContextualChunkHeaders.Entry.embedding c) = length q
            /\ length (ContextualChunkHeaders.Entry.header_embedding c)
               = length q) chunks ->
  exists result rest,
    ContextualChunkHeaders.semantic_search client query chunks k = Ok result
    /\ Permutation (result ++ rest) chunks
    /\ Py.len result
       = (if k <? 0 then Z.max 0 (Py.len chunks + k)
          else Z.min k (Py.len chunks)).
Proof.
  intros Hq Hdim. rewrite (semantic_search_general _ _ _ _ q Hq Hdim).
  set (sims := map (fun c => (c, combined_score q c)) chunks).
  set (ranked := Py.list_sort PrimFloat.ltb snd true sims).
  assert (Hperm : Permutation sims ranked) by apply list_sort_perm.
  assert (Hlen : Py.len ranked = Py.len chunks).
  { unfold Py.len. rewrite <- (Permutation_length Hperm). subst sims.
    rewrite length_map. reflexivity. }
  rewrite slice_to_any, Hlen.
  set (m := Z.to_nat _).
  exists (map fst (firstn m ranked)), (map fst (skipn m ranked)).
  split; [reflexivity|]. split.
  - rewrite <- map_app, firstn_skipn.
    rewrite <- (Permutation_map fst Hperm). subst sims.
    rewrite map_map, map_id. reflexivity.
  - unfold Py.len in *. rewrite length_map, length_firstn. subst m.
    destruct (Z.ltb_spec k 0); lia.
Qed.

Lemma semantic_search_count_witness :
  exists result rest,
    ContextualChunkHeaders.semantic_search
      Sample.client Sample.query Sample.entries (-1) = Ok result
    /\ Permutation (result ++ rest) Sample.entries
    /\ Py.len result
       = (if -1 <? 0 then Z.max 0 (Py.len Sample.entries + -1)
          else Z.min (-1) (Py.len Sample.entries)).
Proof.
  apply (semantic_search_count
           Sample.client Sample.query Sample.entries (-1)
           Sample.query_embedding).
  - reflexivity.
  - repeat constructor.
Defined.

Lemma filter_map_fst {A B : Type} (f : A -> B) (p : B -> bool)
    (l : list (A * B)) :
  Forall (fun c => snd c = f (fst c)) l ->
  filter (fun a => p (f a)) (map fst l)
  = map fst (filter (fun c => p (snd c)) l).
Proof.
  induction 1 as [|[a b] l Hc Hl IH]; [reflexivity|].
  cbn [map filter fst snd] in *. subst b. rewrite IH.
  destruct (p (f a)); reflexivity.
Qed.

(** The tie-break of [semantic_search]: among the entries of one combined
    score, the returned ones are the first of the corpus, in the order of the
    corpus.  The scores are taken free of NaN, where the comparisons
    [list.sort] makes are those of an order. *)
Theorem semantic_search_ties
    (client : OpenAI.embeddings_create) (query : str)
    (chunks : list ContextualChunkHeaders.Entry.t) (k : Z) (q : list float)
    (s : float) :
  ContextualChunkHeaders.create_embeddings client query = Ok q ->
  Forall (fun c =>
            length (ContextualChunkHeaders.Entry.embedding c) = length q
            /\ length (ContextualChunkHeaders.Entry.header_embedding c)
               = length q) chunks ->
  Forall (fun c => is_nan (combined_score q c) = false) chunks ->
  exists result later,
    ContextualChunkHeaders.semantic_search client query chunks k = Ok result
    /\ filter (fun c => (combined_score q c =? s)%float) chunks
       = filter (fun c => (combined_score q c =? s)%float) result ++ later.
Proof.
  intros Hq Hdim _. rewrite (semantic_search_general _ _ _ _ q Hq Hdim).
  set (sims := map (fun c => (c, combined_score q c)) chunks).
  set (ranked := Py.list_sort PrimFloat.ltb snd true sims).
  assert (Hperm : Permutation sims ranked) by apply list_sort_perm.
  assert (Hsnd : Forall (fun c => snd c = combined_score q (fst c)) ranked).
  { apply Forall_forall. intros c Hc.
    apply (Permutation_in _ (Permutation_sym Hperm)) in Hc.
    apply in_map_iff in Hc. destruct Hc as (c' & <- & _). reflexivity. }
  rewrite slice_to_any. set (m := Z.to_nat _).
  exists (map fst (firstn m ranked)),
         (map fst (filter (fun c => (snd c =? s)%float) (skipn m ranked))).
  split; [reflexivity|].
  rewrite <- (firstn_skipn m ranked) in Hsnd.
  apply Forall_app in Hsnd. destruct Hsnd as [Hfirst Hskip].
  rewrite (filter_map_fst (combined_score q) (fun x => (x =? s)%float) _ Hfirst).
  rewrite <- map_app, <- filter_app, firstn_skipn.
  unfold ranked. rewrite ranking_stable. subst sims.
  rewrite <- (filter_map_fst (combined_score q) (fun x => (x =? s)%float)).
  - rewrite map_map, map_id. reflexivity.
  - apply Forall_forall. intros c Hc. apply in_map_iff in Hc.
    destruct Hc as (c' & <- & _). reflexivity.
Qed.

Lemma semantic_search_ties_witness :
  exists result later,
    ContextualChunkHeaders.semantic_search
      Sample.client Sample.query (Sample.entries ++ Sample.entries) 3
    = Ok result
    /\ filter (fun c => (combined_score Sample.query_embedding c
                         =? 0x1.999999999999ap-1)%float)
              (Sample.entries ++ Sample.entries)
       = filter (fun c => (combined_score Sample.query_embedding c
                           =? 0x1.999999999999ap-1)%float) result ++ later.
Proof.
  apply (semantic_search_ties
           Sample.client Sample.query (Sample.entries ++ Sample.entries) 3
           Sample.query_embedding).
  - reflexivity.
  - repeat constructor.
  - repeat constructor.
Defined.

(** A text or header embedding whose dimension differs from that of the
    query embedding makes [semantic_search] raise [ValueError]. *)
Theorem semantic_search_dimension_mismatch
    (client : OpenAI.embeddings_create) (query : str)
    (chunks : list ContextualChunkHeaders.Entry.t) (k : Z) (q : list float)
    (bad : ContextualChunkHeaders.Entry.t) :
  ContextualChunkHeaders.create_embeddings client query = Ok q ->
  In bad chunks ->
  length (ContextualChunkHeaders.Entry.embedding bad) <> length q
  \/ length (ContextualChunkHeaders.Entry.header_embedding bad) <> length q ->
  ContextualChunkHeaders.semantic_search client query chunks k
  = Raise ValueError.
Proof.
  intros Hq Hin Hbad. unfold ContextualChunkHeaders.semantic_search.
  rewrite Hq. cbn [bind].
  rewrite (for_each_raise_some _ _ ValueError); [reflexivity| |].
  - intros c _. unfold ContextualChunkHeaders.cosine_similarity, Np.dot.
    destruct (Nat.eqb _ _); cbn [bind]; [|left; reflexivity].
    destruct (Nat.eqb _ _); cbn [bind];
      [right; eexists; reflexivity|left; reflexivity].
  - exists bad. split; [exact Hin|].
    unfold ContextualChunkHeaders.cosine_similarity, Np.dot.
    destruct (Nat.eqb_spec (length q)
                (length (ContextualChunkHeaders.Entry.embedding bad)));
      cbn [bind]; [|reflexivity].
    destruct (Nat.eqb_spec (length q)
                (length (ContextualChunkHeaders.Entry.header_embedding bad)));
      cbn [bind]; [|reflexivity].
    destruct Hbad; congruence.
Qed.

Lemma semantic_search_dimension_mismatch_witness :
  ContextualChunkHeaders.semantic_search
    Sample.client Sample.query
    [ {| ContextualChunkHeaders.Entry.header := Sample.text "h";
         ContextualChunkHeaders.Entry.text := Sample.text "c";
         ContextualChunkHeaders.Entry.embedding := [1; 0]%float;
         ContextualChunkHeaders.Entry.header_embedding := [1]%float |} ] 5
  = Raise ValueError.
Proof.
  apply (semantic_search_dimension_mismatch
           Sample.client Sample.query _ 5 Sample.query_embedding
           {| ContextualChunkHeaders.Entry.header := Sample.text "h";
              ContextualChunkHeaders.Entry.text := Sample.text "c";
              ContextualChunkHeaders.Entry.embedding := [1; 0]%float;
              ContextualChunkHeaders.Entry.header_embedding := [1]%float |}).
  - reflexivity.
  - left. reflexivity.
  - right. discriminate.
Defined.

(** ** The header of a chunk *)

Lemma lstrip_prefix (s : str) :
  exists l, s = l ++ ContextualChunkHeaders.lstrip s
            /\ forallb ContextualChunkHeaders.isspace l = true.
Proof.
  induction s as [|c s IH]; [exists []; split; reflexivity|].
  cbn [ContextualChunkHeaders.lstrip].
  destruct (ContextualChunkHeaders.isspace c) eqn:Hc.
  - destruct IH as (l & Hl & Hsp). exists (c :: l). split.
    + cbn [app]. f_equal. exact Hl.
    + cbn [forallb]. rewrite Hc, Hsp. reflexivity.
  - exists []. split; reflexivity.
Qed.

Lemma lstrip_head (s : str) (c : ascii) (rest : str) :
  ContextualChunkHeaders.lstrip s = c :: rest ->
  ContextualChunkHeaders.isspace c = false.
Proof.
  induction s as [|d s IH]; [discriminate|].
  cbn [ContextualChunkHeaders.lstrip].
  destruct (ContextualChunkHeaders.isspace d) eqn:Hd; [exact IH|].
  intros H. injection H as <- _. exact Hd.
Qed.

Lemma forallb_rev {A : Type} (p : A -> bool) (l : list A) :
  forallb p l = true -> forallb p (rev l) = true.
Proof.
  rewrite !forallb_forall. intros H x Hx. apply H, in_rev. exact Hx.
Qed.

(** [strip] removes white space at both ends and nothing else. *)
Lemma strip_spec (s : str) :
  (exists l r, s = l ++ ContextualChunkHeaders.strip s ++ r
               /\ forallb ContextualChunkHeaders.isspace l = true
               /\ forallb ContextualChunkHeaders.isspace r = true)
  /\ (forall c rest, ContextualChunkHeaders.strip s = c :: rest ->
        ContextualChunkHeaders.isspace c = false)
  /\ (forall c init, ContextualChunkHeaders.strip s = init ++ [c] ->
        ContextualChunkHeaders.isspace c = false).
Proof.
  unfold ContextualChunkHeaders.strip.
  destruct (lstrip_prefix s) as (l & Hl & Hlsp).
  set (t := ContextualChunkHeaders.lstrip s) in *.
  destruct (lstrip_prefix (rev t)) as (w & Hw & Hwsp).
  set (u := ContextualChunkHeaders.lstrip (rev t)) in *.
  assert (Ht : t = rev u ++ rev w).
  { rewrite <- rev_app_distr, <- Hw. symmetry. apply rev_involutive. }
  split; [|split].
  - exists l, (rev w). split; [|split].
    + rewrite Hl at 1. rewrite Ht. reflexivity.
    + exact Hlsp.
    + apply forallb_rev. exact Hwsp.
  - intros c rest Hc. apply (lstrip_head s c (rest ++ rev w)).
    fold t. rewrite Ht, Hc. reflexivity.
  - intros c init Hc. apply (lstrip_head (rev t) c (rev init)).
    fold u. rewrite <- (rev_involutive u), Hc, rev_app_distr. reflexivity.
Qed.

(** The header [generate_chunk_header] returns is the title of the
    completion without the white space around it: it neither begins nor
    ends with a white-space character, and nothing else is removed. *)
Theorem generate_chunk_header_stripped
    (client : OpenAI.chat_completions_create) (chunk : str)
    (response : OpenAI.ChatCompletion) (choice : OpenAI.Choice) :
  client ContextualChunkHeaders.system_prompt chunk = Ok response ->
  Py.getitem (OpenAI.choices response) 0 = Ok choice ->
  exists header l r,
    ContextualChunkHeaders.generate_chunk_header client chunk = Ok header
    /\ OpenAI.content (OpenAI.message choice) = l ++ header ++ r
    /\ forallb ContextualChunkHeaders.isspace l = true
    /\ forallb ContextualChunkHeaders.isspace r = true
    /\ (forall c rest, header = c :: rest ->
          ContextualChunkHeaders.isspace c = false)
    /\ (forall c init, header = init ++ [c] ->
          ContextualChunkHeaders.isspace c = false).
Proof.
  intros Hclient Hchoice.
  destruct (strip_spec (OpenAI.content (OpenAI.message choice)))
    as ((l & r & Hlr & Hl & Hr) & Hhead & Hlast).
  exists (ContextualChunkHeaders.strip (OpenAI.content (OpenAI.message choice))),
         l, r.
  split.
  - unfold ContextualChunkHeaders.generate_chunk_header.
    rewrite Hclient. cbn [bind]. rewrite Hchoice. reflexivity.
  - repeat split; assumption.
Qed.

Lemma generate_chunk_header_stripped_witness :
  exists header l r,
    ContextualChunkHeaders.generate_chunk_header
      Sample.chat (Sample.text "aa") = Ok header
    /\ Sample.text " A title " = l ++ header ++ r
    /\ forallb ContextualChunkHeaders.isspace l = true
    /\ forallb ContextualChunkHeaders.isspace r = true
    /\ (forall c rest, header = c :: rest ->
          ContextualChunkHeaders.isspace c = false)
    /\ (forall c init, header = init ++ [c] ->
          ContextualChunkHeaders.isspace c = false).
Proof.
  apply (generate_chunk_header_stripped
           Sample.chat (Sample.text "aa")
           {| OpenAI.choices :=
                [ {| OpenAI.message :=
                       {| OpenAI.content := Sample.text " A title " |} |} ] |}
           {| OpenAI.message :=
                {| OpenAI.content := Sample.text " A title " |} |}).
  - reflexivity.
  - reflexivity.
Defined.

(** ** Ingestion with headers, and retrieval over it *)

(** [chunk_text_with_headers] asks for no header when there is no chunk:
    whatever the completion service does, a zero step raises the
    [ValueError] of [range], and an empty text or a negative step returns an
    empty list. *)
Theorem chunk_text_with_headers_no_chunk
    (client : OpenAI.chat_completions_create) (text : str) (n overlap : Z) :
  (n - overlap = 0 ->
   ContextualChunkHeaders.chunk_text_with_headers client text n overlap
   = Raise ValueError)
  /\ (n - overlap < 0 ->
      ContextualChunkHeaders.chunk_text_with_headers client text n overlap
      = Ok [])
  /\ (n - overlap <> 0 ->
      ContextualChunkHeaders.chunk_text_with_headers client [] n overlap
      = Ok []).
Proof.
  unfold ContextualChunkHeaders.chunk_text_with_headers.
  split; [|split]; intros H.
  - rewrite H. reflexivity.
  - rewrite range_backwards by (try apply len_nonneg; lia). reflexivity.
  - unfold Py.range, Py.range_length.
    destruct (Z.eqb_spec (n - overlap) 0); [contradiction|].
    cbn [Py.len length Z.of_nat].
    destruct (0 <? n - overlap); reflexivity.
Qed.

Lemma chunk_text_with_headers_no_chunk_witness :
  (ContextualChunkHeaders.chunk_text_with_headers
     Sample.flaky_chat Sample.document 2 2 = Raise ValueError)
  /\ (ContextualChunkHeaders.chunk_text_with_headers
        Sample.flaky_chat Sample.document 2 3 = Ok [])
  /\ (ContextualChunkHeaders.chunk_text_with_headers
        Sample.flaky_chat [] 2 0 = Ok []).
Proof.
  split; [|split].
  - apply (proj1 (chunk_text_with_headers_no_chunk
                    Sample.flaky_chat Sample.document 2 2)).
    reflexivity.
  - apply (proj1 (proj2 (chunk_text_with_headers_no_chunk
                           Sample.flaky_chat Sample.document 2 3))).
    reflexivity.
  - apply (proj2 (proj2 (chunk_text_with_headers_no_chunk
                           Sample.flaky_chat Sample.document 2 0))).
    discriminate.
Defined.

Lemma chunk_text_with_headers_inv
    (client : OpenAI.chat_completions_create) (text : str) (n overlap : Z)
    (text_chunks : list ContextualChunkHeaders.Chunk.t) :
  ContextualChunkHeaders.chunk_text_with_headers client text n overlap
  = Ok text_chunks ->
  exists chunks,
    ChunkSizeSelector.chunk_text text n overlap = Ok chunks
    /\ Forall2 (fun chunk entry =>
                  ContextualChunkHeaders.Chunk.text entry = chunk
                  /\ ContextualChunkHeaders.generate_chunk_header client chunk
                     = Ok (ContextualChunkHeaders.Chunk.header entry))
               chunks text_chunks.
Proof.
  intros H.
  destruct (ChunkSizeSelector.chunk_text text n overlap) as [chunks|e] eqn:Hc.
  - exists chunks. split; [reflexivity|].
    rewrite (chunk_text_with_headers_unfold client text n overlap chunks Hc)
      in H.
    apply for_each_Forall2 in H. clear Hc.
    induction H as [|c entry chunks' entries Hce HF IH]; constructor.
    + destruct (ContextualChunkHeaders.generate_chunk_header client c);
        [|discriminate].
      cbn [bind] in Hce. injection Hce as <-. split; reflexivity.
    + exact IH.
  - exfalso. rewrite chunk_text_same, chunk_text_unfold in Hc.
    unfold ContextualChunkHeaders.chunk_text_with_headers in H.
    destruct (Py.range 0 (Py.len text) (n - overlap)); discriminate.
Qed.

Lemma embeddings_inv (client : OpenAI.embeddings_create)
    (text_chunks : list ContextualChunkHeaders.Chunk.t)
    (entries : list ContextualChunkHeaders.Entry.t) :
  ContextualChunkHeaders.embeddings client text_chunks = Ok entries ->
  Forall2 (fun chunk entry =>
             ContextualChunkHeaders.Entry.header entry
             = ContextualChunkHeaders.Chunk.header chunk
             /\ ContextualChunkHeaders.Entry.text entry
                = ContextualChunkHeaders.Chunk.text chunk
             /\ ContextualChunkHeaders.create_embeddings
                  client (ContextualChunkHeaders.Chunk.text chunk)
                = Ok (ContextualChunkHeaders.Entry.embedding entry)
             /\ ContextualChunkHeaders.create_embeddings
                  client (ContextualChunkHeaders.Chunk.header chunk)
                = Ok (ContextualChunkHeaders.Entry.header_embedding entry))
          text_chunks entries.
Proof.
  intros H. apply for_each_Forall2 in H.
  induction H as [|chunk entry chunks entries Hce HF IH]; constructor;
    [|exact IH].
  destruct (ContextualChunkHeaders.create_embeddings
              client (ContextualChunkHeaders.Chunk.text chunk)) as [te|e];
    [|discriminate].
  cbn [bind] in Hce.
  destruct (ContextualChunkHeaders.create_embeddings
              client (ContextualChunkHeaders.Chunk.header chunk)) as [he|e];
    [|discriminate].
  cbn [bind] in Hce. injection Hce as <-. repeat split; reflexivity.
Qed.

(** The loop that embeds the chunks keeps them: when every request succeeds
    it returns one entry per chunk, in order, with the header and the text of
    the chunk and the embeddings the service returned for them; the first
    failed request ends the loop with its exception. *)
Theorem embeddings_keep_chunks (client : OpenAI.embeddings_create)
    (text_chunks : list ContextualChunkHeaders.Chunk.t) :
  ((forall chunk, In chunk text_chunks ->
      exists te he,
        ContextualChunkHeaders.create_embeddings
          client (ContextualChunkHeaders.Chunk.text chunk) = Ok te
        /\ ContextualChunkHeaders.create_embeddings
             client (ContextualChunkHeaders.Chunk.header chunk) = Ok he) ->
   exists entries,
     ContextualChunkHeaders.embeddings client text_chunks = Ok entries
     /\ map (fun entry =>
               {| ContextualChunkHeaders.Chunk.header :=
                    ContextualChunkHeaders.Entry.header entry;
                  ContextualChunkHeaders.Chunk.text :=
                    ContextualChunkHeaders.Entry.text entry |}) entries
        = text_chunks
     /\ Forall (fun entry =>
                  ContextualChunkHeaders.create_embeddings
                    client (ContextualChunkHeaders.Entry.text entry)
                  = Ok (ContextualChunkHeaders.Entry.embedding entry)
                  /\ ContextualChunkHeaders.create_embeddings
                       client (ContextualChunkHeaders.Entry.header entry)
                     = Ok (ContextualChunkHeaders.Entry.header_embedding entry))
               entries)
  /\ (forall before chunk after e,
        text_chunks = before ++ chunk :: after ->
        (forall c, In c before ->
           exists te he,
             ContextualChunkHeaders.create_embeddings
               client (ContextualChunkHeaders.Chunk.text c) = Ok te
             /\ ContextualChunkHeaders.create_embeddings
                  client (ContextualChunkHeaders.Chunk.header c) = Ok he) ->
        ContextualChunkHeaders.create_embeddings
          client (ContextualChunkHeaders.Chunk.text chunk) = Raise e ->
        ContextualChunkHeaders.embeddings client text_chunks = Raise e).
Proof.
  split.
  - intros Hall.
    destruct (for_each_all_ok
                (fun chunk =>
                   text_embedding <-
                     ContextualChunkHeaders.create_embeddings
                       client (ContextualChunkHeaders.Chunk.text chunk) ;;
                   header_embedding <-
                     ContextualChunkHeaders.create_embeddings
                       client (ContextualChunkHeaders.Chunk.header chunk) ;;
                   Ok {| ContextualChunkHeaders.Entry.header :=
                           ContextualChunkHeaders.Chunk.header chunk;
                         ContextualChunkHeaders.Entry.text :=
                           ContextualChunkHeaders.Chunk.text chunk;
                         ContextualChunkHeaders.Entry.embedding :=
                           text_embedding;
                         ContextualChunkHeaders.Entry.header_embedding :=
                           header_embedding |})
                text_chunks) as (entries & Hentries & _).
    { intros chunk Hin. destruct (Hall chunk Hin) as (te & he & Hte & Hhe).
      rewrite Hte, Hhe. eexists. reflexivity. }
    exists entries. split; [exact Hentries|].
    apply embeddings_inv in Hentries. clear Hall.
    induction Hentries as [|chunk entry chunks entries Hce HF [IH1 IH2]].
    + split; [reflexivity|constructor].
    + destruct Hce as (Hh & Ht & Hte & Hhe). cbn [map]. split.
      * rewrite Hh, Ht, IH1. destruct chunk. reflexivity.
      * constructor; [|exact IH2]. rewrite Hh, Ht. split; assumption.
  - intros before chunk after e -> Hbefore Hfail.
    unfold ContextualChunkHeaders.embeddings. apply for_each_raise.
    + intros c Hc. destruct (Hbefore c Hc) as (te & he & Hte & Hhe).
      rewrite Hte, Hhe. eexists. reflexivity.
    + rewrite Hfail. reflexivity.
Qed.

Lemma embeddings_keep_chunks_witness :
  (exists entries,
     ContextualChunkHeaders.embeddings
       Sample.client
       (map (fun c => {| ContextualChunkHeaders.Chunk.header := Sample.text "h";
                         ContextualChunkHeaders.Chunk.text := c |})
            Sample.document_chunks) = Ok entries
     /\ map (fun entry =>
               {| ContextualChunkHeaders.Chunk.header :=
                    ContextualChunkHeaders.Entry.header entry;
                  ContextualChunkHeaders.Chunk.text :=
                    ContextualChunkHeaders.Entry.text entry |}) entries
        = map (fun c => {| ContextualChunkHeaders.Chunk.header := Sample.text "h";
                           ContextualChunkHeaders.Chunk.text := c |})
              Sample.document_chunks
     /\ Forall (fun entry =>
                  ContextualChunkHeaders.create_embeddings
                    Sample.client (ContextualChunkHeaders.Entry.text entry)
                  = Ok (ContextualChunkHeaders.Entry.embedding entry)
                  /\ ContextualChunkHeaders.create_embeddings
                       Sample.client (ContextualChunkHeaders.Entry.header entry)
                     = Ok (ContextualChunkHeaders.Entry.header_embedding entry))
               entries)
  /\ ContextualChunkHeaders.embeddings
       Sample.flaky_client
       (map (fun c => {| ContextualChunkHeaders.Chunk.header := Sample.text "h";
                         ContextualChunkHeaders.Chunk.text := c |})
            Sample.document_chunks)
     = Raise (APIError "rate limit exceeded").
Proof.
  split.
  - apply (proj1 (embeddings_keep_chunks Sample.client _)).
    intros chunk _. eexists. eexists. split; reflexivity.
  - apply (proj2 (embeddings_keep_chunks Sample.flaky_client _)
             (map (fun c => {| ContextualChunkHeaders.Chunk.header :=
                                 Sample.text "h";
                               ContextualChunkHeaders.Chunk.text := c |})
                  [Sample.text "aa"; Sample.text "bb"])
             {| ContextualChunkHeaders.Chunk.header := Sample.text "h";
                ContextualChunkHeaders.Chunk.text := Sample.text "cc" |}
             (map (fun c => {| ContextualChunkHeaders.Chunk.header :=
                                 Sample.text "h";
                               ContextualChunkHeaders.Chunk.text := c |})
                  [Sample.text "dd"; Sample.text "ee"; Sample.text "ff";
                   Sample.text "gg"; Sample.text "hh"; Sample.text "ii";
                   Sample.text "jj"])).
    + reflexivity.
    + intros c [<-|[<-|[]]]; eexists; eexists; split; reflexivity.
    + reflexivity.
Defined.

Lemma semantic_search_incl
    (client : OpenAI.embeddings_create) (query : str)
    (chunks result : list ContextualChunkHeaders.Entry.t) (k : Z) :
  ContextualChunkHeaders.semantic_search client query chunks k = Ok result ->
  incl result chunks.
Proof.
  unfold ContextualChunkHeaders.semantic_search. intros H.
  destruct (ContextualChunkHeaders.create_embeddings client query) as [q|e];
    [|discriminate].
  cbn [bind] in H.
  destruct (for_each _ chunks) as [sims|e] eqn:Hsims; [|discriminate].
  cbn [bind] in H. injection H as <-.
  assert (Hfst : map fst sims = chunks).
  { apply for_each_Forall2 in Hsims. clear - Hsims.
    induction Hsims as [|c p chunks' sims' Hcp HF IH]; [reflexivity|].
    cbn [map]. rewrite IH. f_equal.
    destruct (ContextualChunkHeaders.cosine_similarity _ _); [|discriminate].
    cbn [bind] in Hcp.
    destruct (ContextualChunkHeaders.cosine_similarity _ _); [|discriminate].
    cbn [bind] in Hcp. injection Hcp as <-. reflexivity. }
  intros entry Hin. rewrite <- Hfst.
  apply in_map_iff in Hin. destruct Hin as (p & <- & Hp).
  apply in_map.
  apply (Permutation_in _ (Permutation_sym
                             (list_sort_perm PrimFloat.ltb snd true sims))).
  unfold Py.slice in Hp. apply firstn_skipn_In in Hp. exact Hp.
Qed.

Lemma Forall2_nth_error_r {A B : Type} (R : A -> B -> Prop) (l : list A)
    (l' : list B) (i : nat) (y : B) :
  Forall2 R l l' -> nth_error l' i = Some y ->
  exists x, nth_error l i = Some x /\ R x y.
Proof.
  intros HF. revert i. induction HF as [|a b l l' Hab HF IH]; intros i Hi.
  - destruct i; discriminate.
  - destruct i as [|i]; cbn [nth_error] in *.
    + injection Hi as <-. exists a. split; [reflexivity|exact Hab].
    + apply IH. exact Hi.
Qed.

(** Retrieval over an ingested document.  When the document is chunked with
    headers, the chunks are embedded and the corpus is searched, every entry
    the search returns is a chunk of the document: its text is one of the
    chunks of [chunk_text], its header is the header generated for that
    text, and its two embeddings are those of its text and of its header. *)
Theorem semantic_search_over_document
    (chat : OpenAI.chat_completions_create) (client : OpenAI.embeddings_create)
    (text : str) (n overlap : Z) (query : str) (k : Z)
    (text_chunks : list ContextualChunkHeaders.Chunk.t)
    (entries top_chunks : list ContextualChunkHeaders.Entry.t) :
  ContextualChunkHeaders.chunk_text_with_headers chat text n overlap
  = Ok text_chunks ->
  ContextualChunkHeaders.embeddings client text_chunks = Ok entries ->
  ContextualChunkHeaders.semantic_search client query entries k
  = Ok top_chunks ->
  forall entry, In entry top_chunks ->
    exists chunks (c : nat),
      ChunkSizeSelector.chunk_text text n overlap = Ok chunks
      /\ nth_error chunks c
         = Some (ContextualChunkHeaders.Entry.text entry)
      /\ ContextualChunkHeaders.generate_chunk_header
           chat (ContextualChunkHeaders.Entry.text entry)
         = Ok (ContextualChunkHeaders.Entry.header entry)
      /\ ContextualChunkHeaders.create_embeddings
           client (ContextualChunkHeaders.Entry.text entry)
         = Ok (ContextualChunkHeaders.Entry.embedding entry)
      /\ ContextualChunkHeaders.create_embeddings
           client (ContextualChunkHeaders.Entry.header entry)
         = Ok (ContextualChunkHeaders.Entry.header_embedding entry).
Proof.
  intros Hchunks Hentries Hsearch entry Hin.
  apply chunk_text_with_headers_inv in Hchunks.
  destruct Hchunks as (chunks & Hchunks & HF1).
  apply embeddings_inv in Hentries.
  apply (semantic_search_incl _ _ _ _ _ Hsearch) in Hin.
  apply In_nth_error in Hin. destruct Hin as [i Hi].
  destruct (Forall2_nth_error_r _ _ _ _ _ Hentries Hi)
    as (tc & Htc & Hh & Ht & Hte & Hhe).
  destruct (Forall2_nth_error_r _ _ _ _ _ HF1 Htc) as (c & Hc & Htxt & Hgen).
  subst c. exists chunks, i. rewrite Ht, Hh.
  repeat split; assumption.
Qed.

Lemma semantic_search_over_document_witness :
  exists chunks (c : nat),
    ChunkSizeSelector.chunk_text Sample.document 2 0 = Ok chunks
    /\ nth_error chunks c = Some (Sample.text "aa")
    /\ ContextualChunkHeaders.generate_chunk_header
         Sample.chat (Sample.text "aa")
       = Ok (Sample.text "A title")
    /\ ContextualChunkHeaders.create_embeddings
         Sample.client (Sample.text "aa")
       = Ok [1; 0]%float
    /\ ContextualChunkHeaders.create_embeddings
         Sample.client (Sample.text "A title")
       = Ok [1; 0]%float.
Proof.
  refine (semantic_search_over_document
           Sample.chat Sample.client Sample.document 2 0 Sample.query 1
           (map (fun c => {| ContextualChunkHeaders.Chunk.header :=
                               Sample.text "A title";
                             ContextualChunkHeaders.Chunk.text := c |})
                Sample.document_chunks)
           (map (fun c => {| ContextualChunkHeaders.Entry.header :=
                               Sample.text "A title";
                             ContextualChunkHeaders.Entry.text := c;
                             ContextualChunkHeaders.Entry.embedding :=
                               [1; 0]%float;
                             ContextualChunkHeaders.Entry.header_embedding :=
                               [1; 0]%float |})
                Sample.document_chunks)
           [ {| ContextualChunkHeaders.Entry.header := Sample.text "A title";
                ContextualChunkHeaders.Entry.text := Sample.text "aa";
                ContextualChunkHeaders.Entry.embedding := [1; 0]%float;
                ContextualChunkHeaders.Entry.header_embedding :=
                  [1; 0]%float |} ]
           _ _ _
           {| ContextualChunkHeaders.Entry.header := Sample.text "A title";
              ContextualChunkHeaders.Entry.text := Sample.text "aa";
              ContextualChunkHeaders.Entry.embedding := [1; 0]%float;
              ContextualChunkHeaders.Entry.header_embedding :=
                [1; 0]%float |} _).
  - reflexivity.
  - reflexivity.
  - vm_compute. reflexivity.
  - left. reflexivity.
Defined.
